(** * EduTrack: the prediction-and-risk engine of [backend.py]

    A shallow embedding of the grade-prediction wrapper, the rule-based
    risk scorer, the recommendation generator and the synthetic dataset
    generator of [backend.py], with the properties the specification
    states about them.

    Python's [float] is IEEE 754 binary64; it is modelled by Rocq's
    primitive [float], whose operations are specified against
    [SpecFloat] at precision 53 and maximal exponent 1024.  Python's
    [int] is [Z], [str] is [string], a [list] is a [list], and a [dict]
    is an association list in insertion order. *)

From Stdlib Require Import Ascii Permutation Sorted.
From Stdlib Require OrderedTypeEx.
From Stdlib Require Import ZArith QArith Qabs List String Bool Lia Floats.
Import ListNotations.

Set Warnings "-inexact-float".

Open Scope string_scope.
Open Scope float_scope.

(** ** Python builtins used by [backend.py] *)

(** [a > b] on floats: IEEE [greater-than] is [less-than] with swapped
    operands. *)
Definition gtb (a b : float) : bool := b <? a.

(** [max(a, b)]: the first argument unless the second compares greater. *)
Definition py_max (a b : float) : float := if gtb b a then b else a.

(** [min(a, b)]: the first argument unless the second compares less. *)
Definition py_min (a b : float) : float := if b <? a then b else a.

(** A [dict] with [str] keys, in insertion order. *)
Definition dict (V : Type) : Type := list (string * V).

(** [d.get(k, default)]. *)
Fixpoint dict_get {V} (d : dict V) (k : string) (default : V) : V :=
  match d with
  | [] => default
  | (k', v) :: d' => if String.eqb k' k then v else dict_get d' k default
  end.

(** [d[k] = v]: an existing key keeps its position, a new one is appended. *)
Fixpoint dict_setitem {V} (d : dict V) (k : string) (v : V) : dict V :=
  match d with
  | [] => [(k, v)]
  | (k', v') :: d' =>
      if String.eqb k' k then (k', v) :: d' else (k', v') :: dict_setitem d' k v
  end.

(** [{k: v for k, v in pairs}]. *)
Definition dict_of_pairs {V} (pairs : list (string * V)) : dict V :=
  fold_left (fun d kv => dict_setitem d (fst kv) (snd kv)) pairs [].

Definition dict_keys {V} (d : dict V) : list string := map fst d.
Definition dict_values {V} (d : dict V) : list V := map snd d.

(** Truth value of an [Optional[Dict]]: [None] and the empty dict are
    false. *)
Definition truthy {V} (d : option (dict V)) : bool :=
  match d with
  | Some (_ :: _) => true
  | _ => false
  end.

(** Truth value of a list: false when empty. *)
Definition nonempty {A} (l : list A) : bool :=
  match l with [] => false | _ => true end.

(** [tips.append(x)]. *)
Definition append {A} (l : list A) (x : A) : list A := l ++ [x].

(** [sep.join(parts)]. *)
Definition join (sep : string) (parts : list string) : string :=
  String.concat sep parts.

(** [sum(xs)] over floats; the integer start value [0] is absorbed by the
    first addition. *)
Definition fsum (xs : list float) : float := fold_left PrimFloat.add xs 0.

(** ** The risk scoring engine: [calculate_risk] *)

Definition tip_attendance := "Improve attendance to at least 85% for better outcomes.".
Definition tip_marks := "Focus on core subjects to raise marks above 70%.".
Definition tip_mst := "MST performance is low. Schedule revision sessions weekly.".
Definition tip_study := "Increase study hours to at least 12-15 hours per week.".
Definition tip_assignments := "Complete and revise assignments to boost score.".
Definition tip_extra := "Engage in extracurricular activities for balance.".
Definition tip_projects := "Complete project work to enhance practical skills.".
Definition tip_certifications := "Earn certifications to boost your profile.".
Definition tip_internships := "Consider internship opportunities for industry experience.".
Definition tip_great := "Great job! Maintain consistency to keep your performance high.".

(** Line 168: the level as a conditional expression on the clamped score. *)
Definition risk_level (risk : float) : string :=
  if risk <? 0.4 then "Low" else (if risk <? 0.7 then "Medium" else "High").

(** One [if cond: risk += w; tips.append(t)] statement on the pair of
    local variables. *)
Definition rule_step (cond : bool) (w : float) (t : string)
  (st : float * list string) : float * list string :=
  if cond then (fst st + w, append (snd st) t) else st.

(** The six measured metrics are annotated [float] and the three counts
    [int]; the metrics enter only through [<] against an integer
    literal, which Python compares by exact value. *)
Definition calculate_risk
  (attendance marks mst_marks study_hours assignments extracurriculars : float)
  (projects certifications internships : Z)
  (prob_map : option (dict float)) : float * string * list string :=
  let risk := 0.0 in
  let tips : list string := [] in
  let risk :=
    if truthy prob_map then
      let d := match prob_map with Some d => d | None => [] end in
      let risk := risk + dict_get d "D" 0.0 * 1.0 in
      risk + dict_get d "C" 0.0 * 0.5
    else risk in
  let st := (risk, tips) in
  let st := rule_step (attendance <? 75) 0.20 tip_attendance st in
  let st := rule_step (marks <? 60) 0.25 tip_marks st in
  let st := rule_step (mst_marks <? 16) 0.20 tip_mst st in
  let st := rule_step (study_hours <? 8) 0.10 tip_study st in
  let st := rule_step (assignments <? 60) 0.15 tip_assignments st in
  let st := rule_step (extracurriculars <? 2) 0.05 tip_extra st in
  let st := rule_step (projects =? 0)%Z 0.10 tip_projects st in
  let st := rule_step (certifications =? 0)%Z 0.08 tip_certifications st in
  let st := rule_step (internships =? 0)%Z 0.07 tip_internships st in
  let '(risk, tips) := st in
  let risk := py_min (py_max risk 0.0) 1.0 in
  let level := risk_level risk in
  let tips := if nonempty tips then tips else append tips tip_great in
  (risk, level, tips).

(** ** The recommendation generator: [generate_recommendation] *)

Definition rec_affirmation := "Maintain current performance - you're excelling!".

Definition rec_step (cond : bool) (phrase : string) (recs : list string)
  : list string :=
  if cond then append recs phrase else recs.

Definition generate_recommendation
  (attendance marks mst_marks study_hours assignments extracurriculars : float)
  (projects certifications internships : Z) : string :=
  let recs : list string := [] in
  let recs := rec_step (attendance <? 75) "Improve attendance" recs in
  let recs := rec_step (marks <? 70) "Focus on marks" recs in
  let recs := rec_step (mst_marks <? 16) "Boost MST prep" recs in
  let recs := rec_step (study_hours <? 10) "Increase study time" recs in
  let recs := rec_step (assignments <? 70) "Complete assignments" recs in
  let recs := rec_step (extracurriculars <? 2) "Join activities" recs in
  let recs := rec_step (projects =? 0)%Z "Work on projects" recs in
  let recs := rec_step (certifications =? 0)%Z "Earn certifications" recs in
  let recs := rec_step (internships =? 0)%Z "Pursue internships" recs in
  if nonempty recs then join " | " recs else rec_affirmation.

(** ** The metric vector, and the rule tables of the specification *)

(** The nine metrics of one student in one subject, in the order of the
    functions' parameters. *)
Record MetricVector := {
  m_attendance : float;
  m_marks : float;
  m_mst_marks : float;
  m_study_hours : float;
  m_assignments : float;
  m_extracurriculars : float;
  m_projects : Z;
  m_certifications : Z;
  m_internships : Z
}.

Definition calculate_risk_on (v : MetricVector)
  (prob_map : option (dict float)) : float * string * list string :=
  calculate_risk (m_attendance v) (m_marks v) (m_mst_marks v)
    (m_study_hours v) (m_assignments v) (m_extracurriculars v)
    (m_projects v) (m_certifications v) (m_internships v) prob_map.

Definition generate_recommendation_on (v : MetricVector) : string :=
  generate_recommendation (m_attendance v) (m_marks v) (m_mst_marks v)
    (m_study_hours v) (m_assignments v) (m_extracurriculars v)
    (m_projects v) (m_certifications v) (m_internships v).

Definition risk_score (r : float * string * list string) : float :=
  fst (fst r).
Definition risk_level_of (r : float * string * list string) : string :=
  snd (fst r).
Definition risk_tips (r : float * string * list string) : list string :=
  snd r.

(** The table of section 4.3, one row per threshold rule: condition,
    contribution, tip. *)
Record risk_rule := {
  fires : MetricVector -> bool;
  weight : float;
  tip : string
}.

Definition risk_rules : list risk_rule :=
  [ {| fires := fun v => m_attendance v <? 75;
       weight := 0.20; tip := tip_attendance |};
    {| fires := fun v => m_marks v <? 60;
       weight := 0.25; tip := tip_marks |};
    {| fires := fun v => m_mst_marks v <? 16;
       weight := 0.20; tip := tip_mst |};
    {| fires := fun v => m_study_hours v <? 8;
       weight := 0.10; tip := tip_study |};
    {| fires := fun v => m_assignments v <? 60;
       weight := 0.15; tip := tip_assignments |};
    {| fires := fun v => m_extracurriculars v <? 2;
       weight := 0.05; tip := tip_extra |};
    {| fires := fun v => (m_projects v =? 0)%Z;
       weight := 0.10; tip := tip_projects |};
    {| fires := fun v => (m_certifications v =? 0)%Z;
       weight := 0.08; tip := tip_certifications |};
    {| fires := fun v => (m_internships v =? 0)%Z;
       weight := 0.07; tip := tip_internships |} ].

Definition fired (v : MetricVector) : list risk_rule :=
  filter (fun r => fires r v) risk_rules.

(** The first row of the table: [P(D)*1.0 + P(C)*0.5] when a probability
    map is supplied, a missing label counting as probability 0. *)
Definition prob_contributions (prob_map : option (dict float)) : list float :=
  match prob_map with
  | Some d => [dict_get d "D" 0.0 * 1.0; dict_get d "C" 0.0 * 0.5]
  | None => []
  end.

(** Clamping to [[0,1]]. *)
Definition clamp01 (x : float) : float :=
  if x <? 0 then 0 else if 1 <? x then 1 else x.

(** The score of the specification: the contributions that apply, summed
    in table order, then clamped. *)
Definition risk_score_spec (v : MetricVector)
  (prob_map : option (dict float)) : float :=
  clamp01 (fsum (prob_contributions prob_map ++ map weight (fired v))).

(** The tips of the specification: those of the fired rules in table
    order, or the one positive tip. *)
Definition tips_spec (v : MetricVector) : list string :=
  match map tip (fired v) with
  | [] => [tip_great]
  | ts => ts
  end.

(** The rule list of section 4.4: condition and directive. *)
Definition rec_rules : list ((MetricVector -> bool) * string) :=
  [ (fun v => m_attendance v <? 75, "Improve attendance");
    (fun v => m_marks v <? 70, "Focus on marks");
    (fun v => m_mst_marks v <? 16, "Boost MST prep");
    (fun v => m_study_hours v <? 10, "Increase study time");
    (fun v => m_assignments v <? 70, "Complete assignments");
    (fun v => m_extracurriculars v <? 2, "Join activities");
    (fun v => (m_projects v =? 0)%Z, "Work on projects");
    (fun v => (m_certifications v =? 0)%Z, "Earn certifications");
    (fun v => (m_internships v =? 0)%Z, "Pursue internships") ].

Definition triggered (v : MetricVector) : list string :=
  map snd (filter (fun r => fst r v) rec_rules).

(** A probability, and a probability map: every value lies in [[0,1]]. *)
Definition probability (p : float) : bool := (0 <=? p) && (p <=? 1).

Definition prob_map_ok (prob_map : option (dict float)) : bool :=
  match prob_map with
  | None => true
  | Some d => forallb (fun kv => probability (snd kv)) d
  end.

(** The three scenario vectors of section 8. *)
Definition scenario1 : MetricVector :=
  {| m_attendance := 90; m_marks := 85; m_mst_marks := 30;
     m_study_hours := 15; m_assignments := 90; m_extracurriculars := 5;
     m_projects := 2; m_certifications := 1; m_internships := 1 |}.

Definition scenario2 : MetricVector :=
  {| m_attendance := 50; m_marks := 40; m_mst_marks := 5;
     m_study_hours := 2; m_assignments := 30; m_extracurriculars := 0;
     m_projects := 0; m_certifications := 0; m_internships := 0 |}.

Definition scenario3 : MetricVector :=
  {| m_attendance := 75; m_marks := 60; m_mst_marks := 16;
     m_study_hours := 8; m_assignments := 60; m_extracurriculars := 2;
     m_projects := 1; m_certifications := 1; m_internships := 1 |}.

(** Two probability maps for concrete runs. *)
Definition all_D : dict float :=
  [("A", 0.0); ("B", 0.0); ("C", 0.0); ("D", 1.0)].
Definition half_C : dict float :=
  [("A", 0.1); ("B", 0.1); ("C", 0.8); ("D", 0.0)].

(** One field of the vector raised, the other eight unchanged. *)
Inductive raises_one_field : MetricVector -> MetricVector -> Prop :=
| raise_attendance a a' m s h g e p c i :
    (a <=? a') = true ->
    raises_one_field (Build_MetricVector a m s h g e p c i)
                     (Build_MetricVector a' m s h g e p c i)
| raise_marks a m m' s h g e p c i :
    (m <=? m') = true ->
    raises_one_field (Build_MetricVector a m s h g e p c i)
                     (Build_MetricVector a m' s h g e p c i)
| raise_mst_marks a m s s' h g e p c i :
    (s <=? s') = true ->
    raises_one_field (Build_MetricVector a m s h g e p c i)
                     (Build_MetricVector a m s' h g e p c i)
| raise_study_hours a m s h h' g e p c i :
    (h <=? h') = true ->
    raises_one_field (Build_MetricVector a m s h g e p c i)
                     (Build_MetricVector a m s h' g e p c i)
| raise_assignments a m s h g g' e p c i :
    (g <=? g') = true ->
    raises_one_field (Build_MetricVector a m s h g e p c i)
                     (Build_MetricVector a m s h g' e p c i)
| raise_extracurriculars a m s h g e e' p c i :
    (e <=? e') = true ->
    raises_one_field (Build_MetricVector a m s h g e p c i)
                     (Build_MetricVector a m s h g e' p c i)
| raise_projects a m s h g e p p' c i :
    (p <= p')%Z ->
    raises_one_field (Build_MetricVector a m s h g e p c i)
                     (Build_MetricVector a m s h g e p' c i)
| raise_certifications a m s h g e p c c' i :
    (c <= c')%Z ->
    raises_one_field (Build_MetricVector a m s h g e p c i)
                     (Build_MetricVector a m s h g e p c' i)
| raise_internships a m s h g e p c i i' :
    (i <= i')%Z ->
    raises_one_field (Build_MetricVector a m s h g e p c i)
                     (Build_MetricVector a m s h g e p c i').

(** The three counts of a metric vector are non-negative integers. *)
Definition counts_nonneg (v : MetricVector) : Prop :=
  (0 <= m_projects v)%Z /\ (0 <= m_certifications v)%Z /\
  (0 <= m_internships v)%Z.

(** Without a probability map the score depends on the vector only
    through which of the nine conditions hold; [risk_of_flags] is the
    score of [calculate_risk] at a vector chosen to realise a given
    pattern. *)
Definition float_for (fire : bool) : float := if fire then 0 else 100.
Definition count_for (fire : bool) : Z := if fire then 0%Z else 1%Z.

Definition risk_of_flags (f1 f2 f3 f4 f5 f6 f7 f8 f9 : bool) : float :=
  risk_score
    (calculate_risk (float_for f1) (float_for f2) (float_for f3)
       (float_for f4) (float_for f5) (float_for f6)
       (count_for f7) (count_for f8) (count_for f9) None).

(** A boolean test over the three pairs [(f, g)] with [g] implying [f]. *)
Definition all_pairs (P : bool -> bool -> bool) : bool :=
  P true true && P true false && P false false.

(** Over all patterns [f] and [g] with [g] below [f] pointwise: the
    score of [g] is at most the score of [f]. *)
Definition mono_check : bool :=
  all_pairs (fun f1 g1 => all_pairs (fun f2 g2 => all_pairs (fun f3 g3 =>
  all_pairs (fun f4 g4 => all_pairs (fun f5 g5 => all_pairs (fun f6 g6 =>
  all_pairs (fun f7 g7 => all_pairs (fun f8 g8 => all_pairs (fun f9 g9 =>
    risk_of_flags g1 g2 g3 g4 g5 g6 g7 g8 g9
    <=? risk_of_flags f1 f2 f3 f4 f5 f6 f7 f8 f9))))))))).

(** The rational a finite binary64 number stands for (0 for an
    infinity or a NaN). *)
Definition Q_of_float (x : float) : Q :=
  match Prim2SF x with
  | S754_finite s m e =>
      let mz := if s then Z.neg m else Z.pos m in
      if (0 <=? e)%Z then inject_Z (mz * 2 ^ e)
      else Qmake mz (Pos.pow 2 (Z.to_pos (- e)))
  | _ => 0%Q
  end.

(** The table's weights as the decimals they are written as, and the
    score of a pattern in exact arithmetic. *)
Definition decimal_weights : list Q :=
  [20 # 100; 25 # 100; 20 # 100; 10 # 100; 15 # 100; 5 # 100; 10 # 100;
   8 # 100; 7 # 100]%Q.

Definition decimal_score (f1 f2 f3 f4 f5 f6 f7 f8 f9 : bool) : Q :=
  let picked :=
    map (fun fw : bool * Q => if fst fw then snd fw else 0%Q)
      (combine [f1; f2; f3; f4; f5; f6; f7; f8; f9] decimal_weights) in
  let total := fold_left Qplus picked 0%Q in
  if Qle_bool 1 total then 1%Q else total.

(** A boolean test over both booleans. *)
Definition all_bool (P : bool -> bool) : bool := P true && P false.

(** Over all patterns: the binary64 score is within [2^-52] of the
    decimal one. *)
Definition rounding_check : bool :=
  all_bool (fun f1 => all_bool (fun f2 => all_bool (fun f3 =>
  all_bool (fun f4 => all_bool (fun f5 => all_bool (fun f6 =>
  all_bool (fun f7 => all_bool (fun f8 => all_bool (fun f9 =>
    Qle_bool
      (Qabs (Q_of_float (risk_of_flags f1 f2 f3 f4 f5 f6 f7 f8 f9)
             - decimal_score f1 f2 f3 f4 f5 f6 f7 f8 f9))
      (1 # 4503599627370496)))))))))).

(** ** The grade classifier: [_ensure_model] and [predict_grade] *)

(** What [backend.py] uses of a fitted scikit-learn
    [RandomForestClassifier]: its [classes_] attribute and the row that
    [predict_proba] returns for a one-row input. *)
Record Classifier := {
  classes_ : list string;
  predict_proba : list float -> list float
}.

(** What [backend.py] uses of a NumPy random [Generator]: construction
    from a seed, and the three array draws, each returning the array and
    the advanced generator.  [default_rng(None)] seeds itself from the
    operating system's entropy, [default_rng(seed)] from [seed] alone. *)
Class NumpyRandom := {
  Generator : Type;
  Entropy : Type;
  seed_sequence : Z -> Generator;
  fresh_seed : Entropy -> Z;
  uniform : float -> float -> nat -> Generator -> list float * Generator;
  integers : Z -> Z -> nat -> Generator -> list Z * Generator;
  normal : float -> float -> nat -> Generator -> list float * Generator
}.

Definition default_rng `{NumpyRandom} (seed : option Z) (os : Entropy)
  : Generator :=
  seed_sequence (match seed with Some s => s | None => fresh_seed os end).

(** Conversion of an [int] (or an [int64] array element) to [float64]. *)
Definition float_of_Z (z : Z) : float :=
  SF2Prim (binary_normalize prec emax z 0 false).

(** Elementwise array arithmetic, as NumPy broadcasts a scalar. *)
Definition vscale (v : list float) (c : float) : list float :=
  map (fun x => x * c) v.
Definition vdiv (v : list float) (c : float) : list float :=
  map (fun x => x / c) v.
Definition vadd (u v : list float) : list float :=
  map (fun xy : float * float => fst xy + snd xy) (combine u v).
Definition vfloat (v : list Z) : list float := map float_of_Z v.

(** [np.clip(x, lo, hi)], elementwise [minimum(maximum(x, lo), hi)]; a NaN
    stays a NaN. *)
Definition clip1 (lo hi x : float) : float :=
  let y := if x <? lo then lo else x in
  if hi <? y then hi else y.
Definition np_clip (v : list float) (lo hi : float) : list float :=
  map (clip1 lo hi) v.

(** [labels[mask] = value] on an object array; [None] is an element that
    no mask has reached. *)
Definition mask_assign (labels : list (option string)) (mask : list bool)
  (value : string) : list (option string) :=
  map (fun lb : option string * bool =>
         if snd lb then Some value else fst lb)
      (combine labels mask).

(** [np.column_stack] of one-dimensional arrays of equal length. *)
Fixpoint column_stack (cols : list (list float)) : list (list float) :=
  match cols with
  | [] => []
  | [c] => map (fun x => [x]) c
  | c :: cs => map (fun xr : float * list float => fst xr :: snd xr)
          (combine c (column_stack cs))
  end.

(** [np.argmax] of a one-dimensional [float64] array: the first index of
    the largest element, the first NaN when there is one, [ValueError]
    ([None]) on an empty array. *)
Fixpoint argmax_from (i best : nat) (mp : float) (l : list float) : nat :=
  match l with
  | [] => best
  | x :: r =>
      if negb (x <=? mp) then
        if is_nan x then i else argmax_from (S i) i x r
      else argmax_from (S i) best mp r
  end.

Definition np_argmax (l : list float) : option nat :=
  match l with
  | [] => None
  | x :: r => Some (if is_nan x then O else argmax_from 1 0 x r)
  end.

Inductive exn := AssertionError | IndexError | ValueError.

Inductive result (A : Type) :=
| Ok (a : A)
| Raise (e : exn).
Arguments Ok {A} a.
Arguments Raise {A} e.

(** Sign and class tests on the specification side of a binary64 value:
    not a NaN and not negative ([-0.0] compares equal to [0.0]); neither
    a NaN nor an infinity. *)
Definition SFnonneg (x : spec_float) : bool :=
  match x with
  | S754_zero _ => true
  | S754_infinity s | S754_finite s _ _ => negb s
  | S754_nan => false
  end.

Definition SFnotnan (x : spec_float) : bool :=
  match x with S754_nan => false | _ => true end.

Definition SFfinite (x : spec_float) : bool :=
  match x with
  | S754_zero _ | S754_finite _ _ _ => true
  | _ => false
  end.

Section Engine.
Context {rng : NumpyRandom}.

(** [RandomForestClassifier(n_estimators=200, random_state=0,
    class_weight="balanced_subsample").fit(X, y)]. *)
Variable fit : list (list float) -> list (option string) -> Classifier.

Definition _generate_synthetic_dataset (n : nat) (seed : Z) (os : Entropy)
  : list (list float) * list (option string) :=
  let rng := default_rng (Some seed) os in
  let '(attendance, rng) := uniform 50 100 n rng in
  let '(marks, rng) := uniform 30 100 n rng in
  let '(mst0, rng) := uniform 0 40 n rng in
  let mst := vscale (vdiv mst0 40.0) 100.0 in
  let '(study_hours, rng) := uniform 0 40 n rng in
  let '(assignments, rng) := uniform 30 100 n rng in
  let '(extracurriculars, rng) := integers 0 11 n rng in
  let '(projects, rng) := integers 0 6 n rng in
  let '(certifications, rng) := integers 0 5 n rng in
  let '(internships, rng) := integers 0 3 n rng in
  let score :=
    vadd (vadd (vadd (vadd (vadd (vadd (vadd (vadd
      (vscale marks 0.30)
      (vscale attendance 0.15))
      (vscale mst 0.25))
      (vscale (vscale (vdiv study_hours 40.0) 100.0) 0.10))
      (vscale (vscale (vdiv assignments 100.0) 100.0) 0.05))
      (vscale (vscale (vdiv (vfloat extracurriculars) 10.0) 100.0) 0.05))
      (vscale (vscale (vdiv (vfloat projects) 5.0) 100.0) 0.05))
      (vscale (vscale (vdiv (vfloat certifications) 4.0) 100.0) 0.03))
      (vscale (vscale (vdiv (vfloat internships) 2.0) 100.0) 0.02) in
  let '(noise, rng) := normal 0 5 n rng in
  let score := np_clip (vadd score noise) 0 100 in
  let labels : list (option string) := repeat None n in
  let labels := mask_assign labels (map (fun s => 85 <=? s) score) "A" in
  let labels :=
    mask_assign labels (map (fun s => (70 <=? s) && (s <? 85)) score) "B" in
  let labels :=
    mask_assign labels (map (fun s => (55 <=? s) && (s <? 70)) score) "C" in
  let labels := mask_assign labels (map (fun s => s <? 55) score) "D" in
  let X :=
    column_stack [attendance; marks; mst; study_hours; assignments;
                  vfloat extracurriculars; vfloat projects;
                  vfloat certifications; vfloat internships] in
  let y := labels in
  (X, y).

(** The process-wide state [predict_grade] works on: the two module
    globals, the artifact at [MODEL_PATH] when the file exists (what
    [joblib.load] would return), and the operating system's entropy. *)
Record World := {
  _MODEL : option Classifier;
  _CLASSES : option (list string);
  model_file : option Classifier;
  os_entropy : Entropy
}.

Definition _ensure_model (w : World) : World :=
  match _MODEL w with
  | Some _ => w
  | None =>
      match model_file w with
      | Some loaded =>
          {| _MODEL := Some loaded;
             _CLASSES := Some (classes_ loaded);
             model_file := model_file w;
             os_entropy := os_entropy w |}
      | None =>
          let '(X, y) := _generate_synthetic_dataset 2000 42 (os_entropy w) in
          let model := fit X y in
          {| _MODEL := Some model;
             _CLASSES := Some (classes_ model);
             model_file := Some model;
             os_entropy := os_entropy w |}
      end
  end.

Definition predict_grade
  (attendance marks mst_marks study_hours assignments extracurriculars : float)
  (projects certifications internships : Z)
  (w : World) : result (string * dict float) * World :=
  let w := _ensure_model w in
  match _MODEL w, _CLASSES w with
  | Some model, Some classes =>
      let mst_normalized := (mst_marks / 40.0) * 100.0 in
      let X := [attendance; marks; mst_normalized; study_hours; assignments;
                extracurriculars; float_of_Z projects;
                float_of_Z certifications; float_of_Z internships] in
      let probs := predict_proba model X in
      match np_argmax probs with
      | None => (Raise ValueError, w)
      | Some pred_idx =>
          match nth_error classes pred_idx with
          | None => (Raise IndexError, w)
          | Some pred_label =>
              let prob_map := dict_of_pairs (combine classes probs) in
              (Ok (pred_label, prob_map), w)
          end
      end
  | _, _ => (Raise AssertionError, w)
  end.

(** The classifier [_ensure_model] leaves in [_MODEL]: the cached one,
    else the persisted artifact, else the freshly trained forest. *)
Definition model_in_use (w : World) : Classifier :=
  match _MODEL w with
  | Some model => model
  | None =>
      match model_file w with
      | Some loaded => loaded
      | None =>
          let '(X, y) := _generate_synthetic_dataset 2000 42 (os_entropy w) in
          fit X y
      end
  end.

(** The two globals are only ever set together: [_CLASSES] is the class
    list of [_MODEL]. *)
Definition world_ok (w : World) : Prop :=
  forall model, _MODEL w = Some model -> _CLASSES w = Some (classes_ model).

End Engine.

(** The four grade labels, in the order scikit-learn keeps [classes_]
    (sorted). *)
Definition four_labels : list string := ["A"; "B"; "C"; "D"].

(** The tolerance of section 8 for a distribution: values in [[0,1]]
    whose sum is within [1e-6] of 1. *)
Definition sums_to_one (probs : list float) : bool :=
  abs (fsum probs - 1) <=? 1e-6.

(** What scikit-learn promises of a forest fitted on the four labels:
    [classes_] is the label list, and [predict_proba] returns one
    probability per class, the row summing to 1. *)
Definition classifier_ok (model : Classifier) : Prop :=
  classes_ model = four_labels /\
  forall X,
    List.length (predict_proba model X) = 4%nat /\
    forallb probability (predict_proba model X) = true /\
    sums_to_one (predict_proba model X) = true.

(** What NumPy promises of the draws: [size=n] gives [n] elements. *)
Definition draws_sized (rng : NumpyRandom) : Prop :=
  (forall lo hi n g, List.length (fst (uniform lo hi n g)) = n) /\
  (forall lo hi n g, List.length (fst (integers lo hi n g)) = n) /\
  (forall mu sigma n g, List.length (fst (normal mu sigma n g)) = n).

(** A linear congruential generator behind the interface, to run the
    model on concrete draws. *)
Definition lcg_next (g : Z) : Z := ((g * 1103515245 + 12345) mod 2147483648)%Z.

Fixpoint lcg_draws (n : nat) (g : Z) : list Z * Z :=
  match n with
  | O => ([], g)
  | S k =>
      let g1 := lcg_next g in
      let '(rest, g2) := lcg_draws k g1 in
      (g1 :: rest, g2)
  end.

Definition lcg_unit (z : Z) : float := float_of_Z z / 2147483648.

#[export] Instance lcg_random : NumpyRandom := {|
  Generator := Z;
  Entropy := Z;
  seed_sequence := fun s => s;
  fresh_seed := fun e => e;
  uniform := fun lo hi n g =>
    let '(zs, g') := lcg_draws n g in
    (map (fun z => lo + (hi - lo) * lcg_unit z) zs, g');
  integers := fun lo hi n g =>
    let '(zs, g') := lcg_draws n g in
    (map (fun z => (lo + z mod (hi - lo))%Z) zs, g');
  normal := fun mu sigma n g =>
    let '(zs, g') := lcg_draws n g in
    (map (fun z => mu + sigma * (2 * lcg_unit z - 1)) zs, g')
|}.

(** Two fitted classifiers for concrete runs: one that splits its votes
    between B and C, and one whose every tree votes D. *)
Definition votes_BC : Classifier :=
  {| classes_ := four_labels;
     predict_proba := fun _ => [0.0; 0.75; 0.25; 0.0] |}.

Definition votes_D : Classifier :=
  {| classes_ := four_labels;
     predict_proba := fun _ => [0.0; 0.0; 0.0; 1.0] |}.

(** A training routine for concrete runs; it ignores its data. *)
Definition fit_BC (X : list (list float)) (y : list (option string))
  : Classifier := votes_BC.

(** A fresh process: no model cached, and the artifact as given. *)
Definition fresh_world (artifact : option Classifier) : @World lcg_random :=
  {| _MODEL := None; _CLASSES := None;
     model_file := artifact; os_entropy := 7%Z |}.

(** ** The forest the program trains *)







(** The score of one row of the training set before the noise: the
    weighted sum of [_generate_synthetic_dataset] on the nine columns
    of the row. *)
Definition row_score (row : list float) : float :=
  match row with
  | [attendance; marks; mst; study_hours; assignments; extracurriculars;
     projects; certifications; internships] =>
      marks * 0.30 +
      attendance * 0.15 +
      mst * 0.25 +
      (study_hours / 40.0) * 100.0 * 0.10 +
      (assignments / 100.0) * 100.0 * 0.05 +
      (extracurriculars / 10.0) * 100.0 * 0.05 +
      (projects / 5.0) * 100.0 * 0.05 +
      (certifications / 4.0) * 100.0 * 0.03 +
      (internships / 2.0) * 100.0 * 0.02
  | _ => nan
  end.

(** What the four masked assignments leave at a position, given the
    score there. *)
Definition label_of_score (s : float) : option string :=
  let label : option string := None in
  let label := if 85 <=? s then Some "A" else label in
  let label := if (70 <=? s) && (s <? 85) then Some "B" else label in
  let label := if (55 <=? s) && (s <? 70) then Some "C" else label in
  if s <? 55 then Some "D" else label.



(** ** UI helpers of [backend.py] *)

Definition fallback_color : string := "#6b7280".

(** [colors.get(grade, "#6b7280")] on the literal dict of
    [get_grade_color]. *)
Definition get_grade_color (grade : string) : string :=
  let colors : dict string :=
    [("A", "#10b981"); ("B", "#3b82f6"); ("C", "#f59e0b"); ("D", "#ef4444")] in
  dict_get colors grade "#6b7280".

Definition get_risk_color (level : string) : string :=
  let colors : dict string :=
    [("Low", "#10b981"); ("Medium", "#f59e0b"); ("High", "#ef4444")] in
  dict_get colors level "#6b7280".

(** ** [utils.py]: [validate_email] *)

(** [c in s] for a one-character string [c]. *)
Fixpoint contains (c : ascii) (s : string) : bool :=
  match s with
  | EmptyString => false
  | String a r => Ascii.eqb a c || contains c r
  end.

(** [s.split(sep)] for a one-character separator: the pieces between
    the occurrences of [sep], empty pieces included; never an empty
    list. *)
Fixpoint split (sep : ascii) (s : string) : list string :=
  match s with
  | EmptyString => [EmptyString]
  | String a r =>
      if Ascii.eqb a sep then EmptyString :: split sep r
      else
        match split sep r with
        | p :: ps => String a p :: ps
        | [] => [String a EmptyString]
        end
  end.

(** [a and b] short-circuits, so the subscript [[1]] is evaluated only
    when the address holds an at sign; a subscript out of range raises
    [IndexError]. *)
Definition validate_email (email : string) : result bool :=
  if contains "@"%char email then
    match nth_error (split "@"%char email) 1 with
    | Some domain => Ok (contains "."%char domain)
    | None => Raise IndexError
    end
  else Ok false.

(** ** [cleanup_and_setup.py]: [clean_database] *)

(** The files of the working directory: which paths exist, and for which
    of them [os.remove] raises (a directory, a file in use, a missing
    permission), with the text of the exception. *)
Record Files := {
  file_exists : string -> bool;
  remove_error : string -> option string
}.

(** [os.remove(path)] on an existing file: the exception text, or the
    directory without the file. *)
Definition os_remove (path : string) (fs : Files) : string + Files :=
  match remove_error fs path with
  | Some e => inl e
  | None =>
      inr {| file_exists :=
               fun p => if String.eqb p path then false else file_exists fs p;
             remove_error := remove_error fs |}
  end.

(** [clean_database()]: the value returned, the lines printed, and the
    directory afterwards. *)
Definition clean_database (fs : Files) : bool * list string * Files :=
  let db_file := "edutrack.db" in
  let model_file := "model.pkl" in
  let out := ["🧹 Cleaning up old database files...
"] in
  let step1 : option (list string * Files) :=
    if file_exists fs db_file then
      match os_remove db_file fs with
      | inr fs' => Some (append out ("✅ Deleted: " ++ db_file), fs')
      | inl e => None
      end
    else Some (out, fs) in
  match step1 with
  | None =>
      let e := match remove_error fs db_file with Some e => e | None => "" end in
      (false, append out ("❌ Failed to delete " ++ db_file ++ ": " ++ e), fs)
  | Some (out, fs) =>
      let '(out, fs) :=
        if file_exists fs model_file then
          match os_remove model_file fs with
          | inr fs' => (append out ("✅ Deleted: " ++ model_file), fs')
          | inl e =>
              (append out ("⚠️  Could not delete " ++ model_file ++ ": " ++ e),
               fs)
          end
        else (out, fs) in
      let out := append out "
✅ Cleanup complete!" in
      let out := append out "
Now restart the app:" in
      let out := append out "   python -m streamlit run app.py" in
      let out := append out "
📝 A fresh database with all columns will be created automatically." in
      (true, out, fs)
  end.

(** ** [database.py]: the SQLite store *)

(** [CURRENT_TIMESTAMP] is a text ['YYYY-MM-DD HH:MM:SS']; every
    function that inserts or updates takes the value the clock has when
    its statement runs. *)
Definition Timestamp : Type := string.

(** A table with an [INTEGER PRIMARY KEY AUTOINCREMENT]: its rows in
    rowid order, and the largest rowid the table ever held (SQLite's
    [sqlite_sequence]). *)
Record table (R : Type) := {
  rows : list R;
  last_rowid : Z
}.
Arguments rows {R} t.
Arguments last_rowid {R} t.

Record teacher_row := {
  teacher_id : Z;
  teacher_name : string;
  teacher_email : string;
  password_hash : string;
  teacher_created_at : Timestamp
}.

Record subject_row := {
  subject_id : Z;
  subject_class_id : Z;
  subject_name : string;
  subject_created_at : Timestamp
}.

Record student_row := {
  student_id : Z;
  student_class_id : Z;
  student_name : string;
  roll_number : string;
  student_created_at : Timestamp
}.

(** A row of [student_records]; a [REAL] column reads back as a float or
    as [None] (SQL [NULL]). *)
Record record_row := {
  record_id : Z;
  rec_student_id : Z;
  rec_subject_id : Z;
  rec_attendance : option float;
  rec_marks : option float;
  rec_mst_marks : option float;
  rec_study_hours : option float;
  rec_assignments : option float;
  rec_extracurriculars : option float;
  rec_projects : Z;
  rec_certifications : Z;
  rec_internships : Z;
  rec_predicted_grade : string;
  rec_risk_score : option float;
  rec_risk_level : string;
  rec_recommendation : string;
  rec_created_at : Timestamp;
  rec_updated_at : Timestamp
}.

(** The database file, as far as the functions below use it (they never
    touch the [classes] table).  The connection is opened by
    [sqlite3.connect] and issues no [PRAGMA foreign_keys], so SQLite
    does not enforce the [FOREIGN KEY ... ON DELETE CASCADE] clauses of
    the schema. *)
Record Db := {
  teachers : table teacher_row;
  subjects : table subject_row;
  students : table student_row;
  student_records : table record_row
}.

(** The rowid [AUTOINCREMENT] gives the next row: one more than the
    largest rowid the table holds or ever held. *)
Definition next_rowid {R} (id_of : R -> Z) (t : table R) : Z :=
  (Z.max (fold_right Z.max 0 (map id_of (rows t))) (last_rowid t) + 1)%Z.

(** [INSERT]: the row is appended and becomes the last rowid. *)
Definition insert_row {R} (id_of : R -> Z) (row : R) (t : table R) : table R :=
  {| rows := rows t ++ [row]; last_rowid := id_of row |}.

(** [SELECT * ... WHERE cond] followed by [fetchone()]: the first row
    that qualifies, in rowid order. *)
Definition fetchone {R} (cond : R -> bool) (t : table R) : option R :=
  find cond (rows t).

(** [DELETE ... WHERE cond] with [cur.rowcount]. *)
Definition delete_where {R} (cond : R -> bool) (t : table R) : nat * table R :=
  (List.length (filter cond (rows t)),
   {| rows := filter (fun r => negb (cond r)) (rows t);
      last_rowid := last_rowid t |}).

(** [UPDATE ... SET ... WHERE cond] with [cur.rowcount]. *)
Definition update_where {R} (cond : R -> bool) (set : R -> R) (t : table R)
  : nat * table R :=
  (List.length (filter cond (rows t)),
   {| rows := map (fun r => if cond r then set r else r) (rows t);
      last_rowid := last_rowid t |}).

(** *** Teachers *)

(** [add_teacher]: [email] is [UNIQUE]; the [IntegrityError] of a
    duplicate is caught, [-1] returned and nothing committed. *)
Definition add_teacher (name email pw_hash : string) (now : Timestamp)
  (db : Db) : Z * Db :=
  if existsb (fun t => String.eqb (teacher_email t) email) (rows (teachers db))
  then ((-1)%Z, db)
  else
    let id := next_rowid teacher_id (teachers db) in
    let row := {| teacher_id := id; teacher_name := name;
                  teacher_email := email; password_hash := pw_hash;
                  teacher_created_at := now |} in
    (id, {| teachers := insert_row teacher_id row (teachers db);
            subjects := subjects db; students := students db;
            student_records := student_records db |}).

Definition get_teacher_by_email (email : string) (db : Db)
  : option teacher_row :=
  fetchone (fun t => String.eqb (teacher_email t) email) (teachers db).

Definition get_teacher (id : Z) (db : Db) : option teacher_row :=
  fetchone (fun t => (teacher_id t =? id)%Z) (teachers db).

(** *** Subjects *)

Definition add_subject (class_id : Z) (name : string) (now : Timestamp)
  (db : Db) : Z * Db :=
  let id := next_rowid subject_id (subjects db) in
  let row := {| subject_id := id; subject_class_id := class_id;
                subject_name := name; subject_created_at := now |} in
  (id, {| teachers := teachers db;
          subjects := insert_row subject_id row (subjects db);
          students := students db;
          student_records := student_records db |}).

(** *** Students *)

(** Another student of the class already has the roll number: the
    [UNIQUE(class_id, roll_number)] constraint. *)
Definition roll_taken (class_id : Z) (roll : string) (skip : option Z)
  (db : Db) : bool :=
  existsb (fun st =>
             (student_class_id st =? class_id)%Z
             && String.eqb (roll_number st) roll
             && match skip with
                | Some id => negb (student_id st =? id)%Z
                | None => true
                end)
          (rows (students db)).

Definition add_student (class_id : Z) (name roll : string) (now : Timestamp)
  (db : Db) : Z * Db :=
  if roll_taken class_id roll None db then ((-1)%Z, db)
  else
    let id := next_rowid student_id (students db) in
    let row := {| student_id := id; student_class_id := class_id;
                  student_name := name; roll_number := roll;
                  student_created_at := now |} in
    (id, {| teachers := teachers db; subjects := subjects db;
            students := insert_row student_id row (students db);
            student_records := student_records db |}).

Definition get_student (id : Z) (db : Db) : option student_row :=
  fetchone (fun st => (student_id st =? id)%Z) (students db).

(** [update_student]: the statement fails as a whole, with
    [IntegrityError], when a row it would change collides with another
    student of its class; the function then returns [False]. *)
Definition update_student (id : Z) (name roll : string) (db : Db)
  : bool * Db :=
  let hit st := (student_id st =? id)%Z in
  if existsb (fun st => hit st
                        && roll_taken (student_class_id st) roll (Some id) db)
             (rows (students db))
  then (false, db)
  else
    let '(n, t) :=
      update_where hit
        (fun st => {| student_id := student_id st;
                      student_class_id := student_class_id st;
                      student_name := name; roll_number := roll;
                      student_created_at := student_created_at st |})
        (students db) in
    (Nat.ltb 0 n,
     {| teachers := teachers db; subjects := subjects db;
        students := t; student_records := student_records db |}).

Definition delete_student (id : Z) (db : Db) : bool * Db :=
  let '(n, t) := delete_where (fun st => (student_id st =? id)%Z)
                   (students db) in
  (Nat.ltb 0 n,
   {| teachers := teachers db; subjects := subjects db;
      students := t; student_records := student_records db |}).

(** *** Student records *)

Section Store.

(** What a [REAL] column gives back for a Python float bound to it: the
    same binary64 value in general, [None] for a NaN, which SQLite
    stores as [NULL]. *)
Variable sql_real : float -> option float.

Variables student_id subject_id : Z.
Variables attendance marks mst_marks study_hours : float.
Variables assignments extracurriculars : float.
Variables projects certifications internships : Z.
Variable predicted_grade : string.
Variable risk_score : float.
Variables risk_level recommendation : string.
Variable now : Timestamp.

(** [WHERE student_id = ? AND subject_id = ?]. *)
Definition of_pair (r : record_row) : bool :=
  (rec_student_id r =? student_id)%Z && (rec_subject_id r =? subject_id)%Z.

(** The row the [UPDATE] makes of a row of the pair. *)
Definition overwritten (r : record_row) : record_row :=
  {| record_id := record_id r;
     rec_student_id := rec_student_id r;
     rec_subject_id := rec_subject_id r;
     rec_attendance := sql_real attendance;
     rec_marks := sql_real marks;
     rec_mst_marks := sql_real mst_marks;
     rec_study_hours := sql_real study_hours;
     rec_assignments := sql_real assignments;
     rec_extracurriculars := sql_real extracurriculars;
     rec_projects := projects;
     rec_certifications := certifications;
     rec_internships := internships;
     rec_predicted_grade := predicted_grade;
     rec_risk_score := sql_real risk_score;
     rec_risk_level := risk_level;
     rec_recommendation := recommendation;
     rec_created_at := rec_created_at r;
     rec_updated_at := now |}.

(** The row the [INSERT] adds, both timestamps taking their default. *)
Definition inserted (id : Z) : record_row :=
  {| record_id := id;
     rec_student_id := student_id;
     rec_subject_id := subject_id;
     rec_attendance := sql_real attendance;
     rec_marks := sql_real marks;
     rec_mst_marks := sql_real mst_marks;
     rec_study_hours := sql_real study_hours;
     rec_assignments := sql_real assignments;
     rec_extracurriculars := sql_real extracurriculars;
     rec_projects := projects;
     rec_certifications := certifications;
     rec_internships := internships;
     rec_predicted_grade := predicted_grade;
     rec_risk_score := sql_real risk_score;
     rec_risk_level := risk_level;
     rec_recommendation := recommendation;
     rec_created_at := now;
     rec_updated_at := now |}.

(** [add_record]: the first [SELECT] looks for a record of the pair;
    when there is one, the [UPDATE] rewrites every row of the pair and
    the id of the first is returned; otherwise a row is inserted and its
    rowid returned. *)
Definition add_record (db : Db) : Z * Db :=
  let with_records t :=
    {| teachers := teachers db; subjects := subjects db;
       students := students db; student_records := t |} in
  match fetchone of_pair (student_records db) with
  | Some existing =>
      (record_id existing,
       with_records
         (snd (update_where of_pair overwritten (student_records db))))
  | None =>
      let id := next_rowid record_id (student_records db) in
      (id, with_records (insert_row record_id (inserted id)
                           (student_records db)))
  end.

End Store.

Definition get_record (id : Z) (db : Db) : option record_row :=
  fetchone (fun r => (record_id r =? id)%Z) (student_records db).

Definition delete_record (id : Z) (db : Db) : bool * Db :=
  let '(n, t) := delete_where (fun r => (record_id r =? id)%Z)
                   (student_records db) in
  (Nat.ltb 0 n,
   {| teachers := teachers db; subjects := subjects db;
      students := students db; student_records := t |}).

(** A row of the join in [get_at_risk_students]: the columns of
    [student_records], then [student_name] and [subject_name]. *)
Definition joined_row : Type := record_row * string * string.

(** SQL equality of two values of a [REAL] column, as [DISTINCT] sees
    it: two [NULL]s are duplicates. *)
Definition real_same (a b : option float) : bool :=
  match a, b with
  | Some x, Some y => x =? y
  | None, None => true
  | _, _ => false
  end.

Definition joined_same (a b : joined_row) : bool :=
  let '(r, st, su) := a in
  let '(r', st', su') := b in
  (record_id r =? record_id r')%Z
  && (rec_student_id r =? rec_student_id r')%Z
  && (rec_subject_id r =? rec_subject_id r')%Z
  && real_same (rec_attendance r) (rec_attendance r')
  && real_same (rec_marks r) (rec_marks r')
  && real_same (rec_mst_marks r) (rec_mst_marks r')
  && real_same (rec_study_hours r) (rec_study_hours r')
  && real_same (rec_assignments r) (rec_assignments r')
  && real_same (rec_extracurriculars r) (rec_extracurriculars r')
  && (rec_projects r =? rec_projects r')%Z
  && (rec_certifications r =? rec_certifications r')%Z
  && (rec_internships r =? rec_internships r')%Z
  && String.eqb (rec_predicted_grade r) (rec_predicted_grade r')
  && real_same (rec_risk_score r) (rec_risk_score r')
  && String.eqb (rec_risk_level r) (rec_risk_level r')
  && String.eqb (rec_recommendation r) (rec_recommendation r')
  && String.eqb (rec_created_at r) (rec_created_at r')
  && String.eqb (rec_updated_at r) (rec_updated_at r')
  && String.eqb st st' && String.eqb su su'.

(** [SELECT DISTINCT]: of rows that are the same, the first stays. *)
Fixpoint distinct_from (seen l : list joined_row) : list joined_row :=
  match l with
  | [] => []
  | x :: r =>
      if existsb (joined_same x) seen then distinct_from seen r
      else x :: distinct_from (x :: seen) r
  end.

Definition distinct (l : list joined_row) : list joined_row :=
  distinct_from [] l.

(** [ORDER BY sr.risk_score DESC], [NULL] last; SQL leaves the order of
    rows with equal scores open, here they keep their order. *)
Definition score_above (a b : option float) : bool :=
  match a, b with
  | Some x, Some y => y <? x
  | Some _, None => true
  | _, _ => false
  end.

Fixpoint insert_by_score (x : joined_row) (l : list joined_row)
  : list joined_row :=
  match l with
  | [] => [x]
  | y :: r =>
      if score_above (rec_risk_score (fst (fst x))) (rec_risk_score (fst (fst y)))
      then x :: y :: r
      else y :: insert_by_score x r
  end.

Definition order_by_score_desc (l : list joined_row) : list joined_row :=
  fold_left (fun acc x => insert_by_score x acc) l [].

(** [get_at_risk_students]: the records joined with their student and
    their subject, of the students of the class, whose stored score is
    at least 0.7. *)
Definition get_at_risk_students (class_id : Z) (db : Db) : list joined_row :=
  let joined :=
    flat_map (fun sr =>
      flat_map (fun st =>
        if (rec_student_id sr =? student_id st)%Z then
          flat_map (fun su =>
            if (rec_subject_id sr =? subject_id su)%Z
            then [(sr, st, su)] else [])
            (rows (subjects db))
        else [])
        (rows (students db)))
      (rows (student_records db)) in
  let selected :=
    filter (fun x : record_row * student_row * subject_row =>
              let '(sr, st, su) := x in
              (student_class_id st =? class_id)%Z
              && match rec_risk_score sr with
                 | Some score => 0.7 <=? score
                 | None => false
                 end)
           joined in
  let projected :=
    map (fun x : record_row * student_row * subject_row =>
           let '(sr, st, su) := x in (sr, student_name st, subject_name su))
        selected in
  order_by_score_desc (distinct projected).

(** *** The records of a student *)

Definition subject_record : Type := record_row * string.

(** [ORDER BY sr.created_at DESC]: the column holds the text that
    [CURRENT_TIMESTAMP] wrote, which SQLite compares byte by byte; SQL
    leaves the order of rows created in the same second open, here they
    keep their order. *)
Definition created_after (a b : Timestamp) : bool := String.ltb b a.

Fixpoint insert_by_created (x : subject_record) (l : list subject_record)
  : list subject_record :=
  match l with
  | [] => [x]
  | y :: r =>
      if created_after (rec_created_at (fst x)) (rec_created_at (fst y))
      then x :: y :: r
      else y :: insert_by_created x r
  end.

Definition order_by_created_desc (l : list subject_record)
  : list subject_record :=
  fold_left (fun acc x => insert_by_created x acc) l [].

(** [get_student_records]: the records of the student joined with their
    subject, the most recently created first. *)
Definition get_student_records (id : Z) (db : Db) : list subject_record :=
  let joined :=
    flat_map (fun sr =>
      flat_map (fun su =>
        if (rec_subject_id sr =? subject_id su)%Z then [(sr, su)] else [])
        (rows (subjects db)))
      (rows (student_records db)) in
  let selected :=
    filter (fun x : record_row * subject_row =>
              (rec_student_id (fst x) =? id)%Z)
           joined in
  let projected :=
    map (fun x : record_row * subject_row =>
           (fst x, subject_name (snd x)))
        selected in
  order_by_created_desc projected.

(** What the ordering gives: no row created later than one before it. *)
Definition newest_first : list subject_record -> Prop :=
  StronglySorted
    (fun x y : subject_record =>
       (rec_created_at (fst y) <=? rec_created_at (fst x))%string = true).

(** ** Authentication in [backend.py] *)

Section Auth.

(** What [backend.py] uses of [bcrypt]: [hashpw] on the encoded password
    and a salt, and [checkpw] on the encoded password and hash. *)
Variable hashpw : string -> string -> string.
Variable checkpw : string -> string -> bool.

(** [hash_password]: [salt] is what [bcrypt.gensalt()] draws. *)
Definition hash_password (password salt : string) : string :=
  hashpw password salt.

Definition verify_password (password pw_hash : string) : bool :=
  checkpw password pw_hash.

Definition is_empty (s : string) : bool :=
  match s with EmptyString => true | _ => false end.

Definition login_teacher (email password : string) (db : Db)
  : bool * string * option teacher_row :=
  match get_teacher_by_email email db with
  | None => (false, "Teacher not found.", None)
  | Some teacher =>
      if verify_password password (password_hash teacher)
      then (true, "Login successful.", Some teacher)
      else (false, "Incorrect password.", None)
  end.

Definition register_teacher (name email password : string)
  (salt : string) (now : Timestamp) (db : Db) : bool * string * Db :=
  if is_empty name || is_empty email || is_empty password then
    (false, "All fields required.", db)
  else
    match get_teacher_by_email email db with
    | Some existing => (false, "Email already registered.", db)
    | None =>
        let pw_hash := hash_password password salt in
        let '(teacher_id, db) := add_teacher name email pw_hash now db in
        if (teacher_id =? -1)%Z
        then (false, "Failed to register. Email may be taken.", db)
        else (true, "Teacher registered successfully.", db)
    end.

End Auth.

(** ** The student dashboard of [app.py] *)

(** [x < c] on a value read from a [REAL] column; Python raises
    [TypeError] when the value is [None], here the result [None]. *)
Definition column_lt (x : option float) (c : float) : option bool :=
  match x with
  | Some v => Some (v <? c)
  | None => None
  end.

(** The lines under "How to Reduce Risk": nine tests on the record, the
    fallback line when none holds, and [tips[:5]] written. *)
Definition dashboard_tips (latest_record : record_row) : option (list string) :=
  let tips : list string := [] in
  match column_lt (rec_attendance latest_record) 75 with None => None | Some c1 =>
  let tips := if c1 then append tips "• Maintain attendance above 75%" else tips in
  match column_lt (rec_marks latest_record) 60 with None => None | Some c2 =>
  let tips := if c2 then append tips "• Focus on stronger study habits to improve marks" else tips in
  match column_lt (rec_mst_marks latest_record) 16 with None => None | Some c3 =>
  let tips := if c3 then append tips "• Schedule regular MST revision sessions" else tips in
  match column_lt (rec_study_hours latest_record) 8 with None => None | Some c4 =>
  let tips := if c4 then append tips "• Increase study hours to at least 8-12 per week" else tips in
  match column_lt (rec_assignments latest_record) 60 with None => None | Some c5 =>
  let tips := if c5 then append tips "• Complete all assignments on time" else tips in
  match column_lt (rec_extracurriculars latest_record) 2 with None => None | Some c6 =>
  let tips := if c6 then append tips "• Participate in extracurricular activities" else tips in
  let tips := if (rec_projects latest_record =? 0)%Z
              then append tips "• Work on at least one project" else tips in
  let tips := if (rec_certifications latest_record =? 0)%Z
              then append tips "• Pursue certifications in your field" else tips in
  let tips := if (rec_internships latest_record =? 0)%Z
              then append tips "• Look for internship opportunities" else tips in
  let tips := if nonempty tips then tips
              else append tips "✅ Maintain current habits and review weekly to keep risk low" in
  Some (firstn 5 tips)
  end end end end end end.

(** The record the dashboard shows: [records[-1]] of
    [get_student_records], or the notice that there is no record yet
    (here [None]) when the list is empty. *)
Definition latest_record (student_id : Z) (db : Db) : option subject_record :=
  let records := get_student_records student_id db in
  match records with
  | [] => None
  | first :: rest => Some (last rest first)
  end.

(** The values charted under "Grade Probability": computed from the
    stored grade alone. *)
Definition dashboard_grade_probs (predicted_grade : string) : dict float :=
  let prob_base :=
    if String.eqb predicted_grade "B" then 0.60
    else (if String.eqb predicted_grade "A" then 0.25
          else (if String.eqb predicted_grade "C" then 0.10 else 0.05)) in
  [ ("A", if negb (String.eqb predicted_grade "A") then 0.15 else prob_base);
    ("B", if String.eqb predicted_grade "B" then 0.60 else 0.25);
    ("C", if String.eqb predicted_grade "C" then 0.20 else 0.10);
    ("D", if negb (String.eqb predicted_grade "D") then 0.05 else 0.30) ].

(** SQLite's treatment of a bound float, for concrete runs. *)
Definition sqlite_real (x : float) : option float :=
  if is_nan x then None else Some x.

Definition empty_table {R} : table R := {| rows := []; last_rowid := 0 |}.

Definition empty_db : Db :=
  {| teachers := empty_table; subjects := empty_table;
     students := empty_table; student_records := empty_table |}.

(** A stand-in for [bcrypt] for concrete runs: the hash is the password
    itself. *)
Definition toy_hashpw (password salt : string) : string := password.

Definition toy_checkpw (password pw_hash : string) : bool :=
  String.eqb password pw_hash.

Definition ada : teacher_row :=
  {| teacher_id := 1; teacher_name := "Ada";
     teacher_email := "ada@example.com"; password_hash := "secret";
     teacher_created_at := "2024-01-01 09:00:00" |}.

Definition db_with_ada : Db :=
  {| teachers := {| rows := [ada]; last_rowid := 1 |};
     subjects := empty_table; students := empty_table;
     student_records := empty_table |}.

(** The metric vector a stored record holds, when none of its [REAL]
    columns is [NULL]. *)
Definition row_metrics (r : record_row) : option MetricVector :=
  match rec_attendance r, rec_marks r, rec_mst_marks r,
        rec_study_hours r, rec_assignments r, rec_extracurriculars r with
  | Some a, Some m, Some s, Some h, Some g, Some e =>
      Some (Build_MetricVector a m s h g e (rec_projects r)
              (rec_certifications r) (rec_internships r))
  | _, _, _, _, _, _ => None
  end.

(** The constraints SQLite keeps on the tables: rowids are distinct and
    never above the recorded maximum; teacher emails are distinct; no
    two students of a class share a roll number. *)
Definition ids_ok {R} (id_of : R -> Z) (t : table R) : Prop :=
  NoDup (map id_of (rows t)) /\
  Forall (fun r => (id_of r <= last_rowid t)%Z) (rows t).

Definition emails_unique (db : Db) : Prop :=
  NoDup (map teacher_email (rows (teachers db))).

Definition rolls_unique (db : Db) : Prop :=
  NoDup (map (fun st => (student_class_id st, roll_number st))
           (rows (students db))).

(** What the code itself maintains, with no constraint behind it: one
    record per student and subject. *)
Definition pairs_unique (db : Db) : Prop :=
  NoDup (map (fun r => (rec_student_id r, rec_subject_id r))
           (rows (student_records db))).

(** The record of a student in a subject, as the first [SELECT] of
    [add_record] finds it. *)
Definition record_of_pair (student_id subject_id : Z) (db : Db)
  : option record_row :=
  fetchone (of_pair student_id subject_id) (student_records db).

(** A small database for concrete runs: class 1 with two students and
    one subject, and one saved record. *)
Definition classroom_base : Db :=
  {| teachers := {| rows := [ada]; last_rowid := 1 |};
     subjects :=
       {| rows := [ {| subject_id := 1; subject_class_id := 1;
                       subject_name := "Mathematics";
                       subject_created_at := "2024-01-02 09:00:00" |} ];
          last_rowid := 1 |};
     students :=
       {| rows := [ {| student_id := 1; student_class_id := 1;
                       student_name := "Asha"; roll_number := "101";
                       student_created_at := "2024-01-02 09:05:00" |};
                    {| student_id := 2; student_class_id := 1;
                       student_name := "Ben"; roll_number := "102";
                       student_created_at := "2024-01-02 09:06:00" |} ];
          last_rowid := 2 |};
     student_records := empty_table |}.

Definition classroom_db : Db :=
  snd (add_record sqlite_real 2 1 90 85 30 15 90 5 2 1 1 "B" 0.125 "Low"
         rec_affirmation "2024-01-03 10:00:00" classroom_base).

Definition asha : student_row :=
  {| student_id := 1; student_class_id := 1;
     student_name := "Asha"; roll_number := "101";
     student_created_at := "2024-01-02 09:05:00" |}.

Definition mathematics : subject_row :=
  {| subject_id := 1; subject_class_id := 1;
     subject_name := "Mathematics";
     subject_created_at := "2024-01-02 09:00:00" |}.

(** * Properties *)

(** ** Order and sign facts about binary64 *)

Section SpecFloatFacts.

Local Open Scope Z_scope.

Lemma SFcompare_antisym (x y : spec_float) :
  SFcompare y x = option_map CompOpp (SFcompare x y).
Proof.
  destruct x as [sx|sx| |sx mx ex], y as [sy|sy| |sy my ey]; simpl;
    try destruct sx; try destruct sy; try reflexivity;
    rewrite (Z.compare_antisym ex ey);
    destruct (ex ?= ey); simpl; try reflexivity;
    change (Pos.compare_cont Eq my mx) with (Pos.compare my mx);
    change (Pos.compare_cont Eq mx my) with (Pos.compare mx my);
    rewrite (Pos.compare_antisym mx my);
    destruct (mx ?= my)%positive; reflexivity.
Qed.

Ltac cmp_cases :=
  repeat match goal with
    | H : context [Pos.compare_cont Eq ?a ?b] |- _ =>
        change (Pos.compare_cont Eq a b) with (Pos.compare a b) in H
    | |- context [Pos.compare_cont Eq ?a ?b] =>
        change (Pos.compare_cont Eq a b) with (Pos.compare a b)
    end;
  repeat match goal with
    | H : context [Z.compare ?a ?b] |- _ =>
        destruct (Z.compare_spec a b); simpl in H; try discriminate H
    | |- context [Z.compare ?a ?b] => destruct (Z.compare_spec a b); simpl
    | H : context [Pos.compare ?a ?b] |- _ =>
        destruct (Pos.compare_spec a b); simpl in H; try discriminate H
    | |- context [Pos.compare ?a ?b] =>
        destruct (Pos.compare_spec a b); simpl
    end;
  subst; try reflexivity; try discriminate; try lia.

Lemma SFcompare_Lt_trans (a b c : spec_float) :
  SFcompare a b = Some Lt -> SFcompare b c = Some Lt ->
  SFcompare a c = Some Lt.
Proof.
  destruct a as [sa|sa| |sa ma ea], b as [sb|sb| |sb mb eb],
    c as [sc|sc| |sc mc ec]; simpl;
    try destruct sa; try destruct sb; try destruct sc;
    intros H1 H2; try discriminate; try reflexivity; cmp_cases.
Qed.

Lemma SFcompare_Eq_l (a b c : spec_float) :
  SFcompare a b = Some Eq -> SFcompare a c = SFcompare b c.
Proof.
  destruct a as [sa|sa| |sa ma ea], b as [sb|sb| |sb mb eb],
    c as [sc|sc| |sc mc ec]; simpl;
    try destruct sa; try destruct sb; try destruct sc;
    intros H1; try discriminate; try reflexivity; cmp_cases.
Qed.

Lemma SFcompare_Eq_r (a b c : spec_float) :
  SFcompare b c = Some Eq -> SFcompare a b = SFcompare a c.
Proof.
  destruct a as [sa|sa| |sa ma ea], b as [sb|sb| |sb mb eb],
    c as [sc|sc| |sc mc ec]; simpl;
    try destruct sa; try destruct sb; try destruct sc;
    intros H1; try discriminate; try reflexivity; cmp_cases.
Qed.

Lemma iter_pos_invariant {A} (P : A -> Prop) (f : A -> A) :
  (forall x, P x -> P (f x)) ->
  forall n x, P x -> P (iter_pos f n x).
Proof.
  intros Hf; induction n as [n IH|n IH|]; intros x Hx; simpl; auto.
Qed.

Lemma shr_1_nonneg mrs : 0 <= shr_m mrs -> 0 <= shr_m (shr_1 mrs).
Proof.
  destruct mrs as [m r s]; simpl; intros Hm.
  destruct m as [|p|p]; [simpl; lia| |lia].
  destruct p; simpl; lia.
Qed.

Lemma shr_nonneg mrs e n : 0 <= shr_m mrs -> 0 <= shr_m (fst (shr mrs e n)).
Proof.
  intros Hm; destruct n; simpl; auto.
  apply (iter_pos_invariant (fun r => 0 <= shr_m r)); auto using shr_1_nonneg.
Qed.

Lemma shr_fexp_nonneg p q m e l :
  0 <= m -> 0 <= shr_m (fst (shr_fexp p q m e l)).
Proof.
  intros Hm; unfold shr_fexp; apply shr_nonneg.
  destruct l as [|[ | | ]]; simpl; assumption.
Qed.

Lemma round_nearest_even_nonneg m l : 0 <= m -> 0 <= round_nearest_even m l.
Proof.
  intros Hm; destruct l as [|[ | | ]]; simpl; try lia.
  destruct (Z.even m); lia.
Qed.

Lemma binary_round_aux_nonneg p q m e l :
  0 <= m -> SFnonneg (binary_round_aux p q false m e l) = true.
Proof.
  intros Hm; unfold binary_round_aux.
  pose proof (shr_fexp_nonneg p q m e l Hm) as H1.
  destruct (shr_fexp p q m e l) as [mrs' e']; simpl in H1.
  pose proof (shr_fexp_nonneg p q
    (round_nearest_even (shr_m mrs') (loc_of_shr_record mrs')) e' loc_Exact
    (round_nearest_even_nonneg _ _ H1)) as H2.
  destruct (shr_fexp p q _ e' loc_Exact) as [mrs'' e'']; simpl in H2.
  destruct (shr_m mrs'') as [|m''|m'']; [reflexivity| |lia].
  destruct (e'' <=? q - p); reflexivity.
Qed.

Lemma binary_round_nonneg p q m e :
  SFnonneg (binary_round p q false m e) = true.
Proof.
  unfold binary_round.
  destruct (shl_align m e _) as [mz ez].
  apply binary_round_aux_nonneg; lia.
Qed.

Lemma SFadd_nonneg p q x y :
  SFnonneg x = true -> SFnonneg y = true -> SFnonneg (SFadd p q x y) = true.
Proof.
  destruct x as [sx|sx| |sx mx ex], y as [sy|sy| |sy my ey]; simpl;
    try destruct sx; try destruct sy; simpl; intros Hx Hy;
    try discriminate; try reflexivity.
  apply binary_round_nonneg.
Qed.

Lemma SFmul_nonneg p q x y :
  SFnonneg x = true -> SFnonneg y = true ->
  SFfinite x = true -> SFfinite y = true ->
  SFnonneg (SFmul p q x y) = true.
Proof.
  destruct x as [sx|sx| |sx mx ex], y as [sy|sy| |sy my ey]; simpl;
    try destruct sx; try destruct sy; simpl; intros Hx Hy Fx Fy;
    try discriminate; try reflexivity.
  apply binary_round_aux_nonneg; lia.
Qed.

Lemma SFleb_zero_nonneg x : SFleb (S754_zero false) x = SFnonneg x.
Proof. destruct x as [s|s| |s m e]; try destruct s; reflexivity. Qed.

Lemma SFleb_finite y x :
  SFfinite y = true -> SFleb x y = true -> SFnonneg x = true ->
  SFfinite x = true.
Proof.
  destruct x as [s|s| |s m e], y as [sy|sy| |sy my ey];
    try destruct s; try destruct sy; simpl; intros; try discriminate;
    reflexivity.
Qed.

Lemma SFnonneg_notnan x : SFnonneg x = true -> SFnotnan x = true.
Proof. destruct x; simpl; congruence. Qed.

Lemma SFeqb_refl_notnan x : SFeqb x x = true -> SFnotnan x = true.
Proof. destruct x; simpl; unfold SFeqb; simpl; congruence. Qed.

Lemma SFnotnan_eqb_refl x : SFnotnan x = true -> SFeqb x x = true.
Proof.
  destruct x as [s|s| |s m e]; try destruct s; simpl;
    try congruence; unfold SFeqb; simpl; try reflexivity;
    rewrite Z.compare_refl;
    change (Pos.compare_cont Eq m m) with (Pos.compare m m);
    rewrite Pos.compare_refl; reflexivity.
Qed.

Lemma SFnonneg_eqb_refl x : SFnonneg x = true -> SFeqb x x = true.
Proof. intros H; apply SFnotnan_eqb_refl, SFnonneg_notnan, H. Qed.

Lemma SFltb_notnan_l x y : SFltb x y = true -> SFnotnan x = true.
Proof. destruct x, y; simpl; unfold SFltb; simpl; congruence. Qed.

Lemma SFleb_notnan_r x y : SFleb x y = true -> SFnotnan y = true.
Proof. destruct x, y; simpl; unfold SFleb; simpl; congruence. Qed.

Lemma SFcompare_notnan x y :
  SFnotnan x = true -> SFnotnan y = true -> SFcompare x y <> None.
Proof.
  destruct x as [s|s| |s m e], y as [sy|sy| |sy my ey]; simpl;
    intros; congruence.
Qed.

Lemma SFltb_negb_leb x y :
  SFnotnan x = true -> SFnotnan y = true ->
  SFltb x y = negb (SFleb y x).
Proof.
  intros Hx Hy; unfold SFltb, SFleb.
  rewrite (SFcompare_antisym x y).
  pose proof (SFcompare_notnan x y Hx Hy) as Hc.
  destruct (SFcompare x y) as [[ | | ]|]; simpl; congruence.
Qed.

Lemma SFleb_ltb_trans a b c :
  SFleb a b = true -> SFltb b c = true -> SFltb a c = true.
Proof.
  unfold SFleb, SFltb; intros H1 H2.
  destruct (SFcompare a b) as [[ | | ]|] eqn:Hab; try discriminate.
  - rewrite (SFcompare_Eq_l a b c Hab); assumption.
  - destruct (SFcompare b c) as [[ | | ]|] eqn:Hbc; try discriminate.
    rewrite (SFcompare_Lt_trans a b c Hab Hbc); reflexivity.
Qed.

Lemma SFltb_leb_trans a b c :
  SFltb a b = true -> SFleb b c = true -> SFltb a c = true.
Proof.
  unfold SFleb, SFltb; intros H1 H2.
  destruct (SFcompare a b) as [[ | | ]|] eqn:Hab; try discriminate.
  destruct (SFcompare b c) as [[ | | ]|] eqn:Hbc; try discriminate.
  - rewrite <- (SFcompare_Eq_r a b c Hbc), Hab; reflexivity.
  - rewrite (SFcompare_Lt_trans a b c Hab Hbc); reflexivity.
Qed.

Lemma SFltb_leb a b : SFltb a b = true -> SFleb a b = true.
Proof.
  unfold SFleb, SFltb; destruct (SFcompare a b) as [[ | | ]|]; congruence.
Qed.


End SpecFloatFacts.

(** The same facts on primitive floats, through the specification of
    the primitive operations. *)

Lemma nonneg_spec x : (0 <=? x) = SFnonneg (Prim2SF x).
Proof. rewrite leb_spec. apply SFleb_zero_nonneg. Qed.

Lemma add_nonneg x y :
  (0 <=? x) = true -> (0 <=? y) = true -> (0 <=? x + y) = true.
Proof.
  rewrite !nonneg_spec, add_spec. apply SFadd_nonneg.
Qed.

Lemma le_one_finite x :
  (0 <=? x) = true -> (x <=? 1) = true -> SFfinite (Prim2SF x) = true.
Proof.
  rewrite nonneg_spec, leb_spec; intros H0 H1.
  apply (SFleb_finite (Prim2SF 1)); auto.
Qed.

Lemma mul_nonneg x y :
  (0 <=? x) = true -> (x <=? 1) = true ->
  (0 <=? y) = true -> (y <=? 1) = true ->
  (0 <=? x * y) = true.
Proof.
  intros Hx Hx1 Hy Hy1.
  rewrite nonneg_spec, mul_spec.
  apply SFmul_nonneg; try (rewrite <- nonneg_spec; assumption);
    apply le_one_finite; assumption.
Qed.

Lemma ltb_negb_leb x y :
  (x =? x) = true -> (y =? y) = true -> (x <? y) = negb (y <=? x).
Proof.
  rewrite !eqb_spec, ltb_spec, leb_spec; intros Hx Hy.
  apply SFltb_negb_leb; apply SFeqb_refl_notnan; assumption.
Qed.

Lemma nonneg_notnan x : (0 <=? x) = true -> (x =? x) = true.
Proof.
  rewrite nonneg_spec, eqb_spec. apply SFnonneg_eqb_refl.
Qed.

Lemma ltb_notnan_l x y : (x <? y) = true -> (x =? x) = true.
Proof.
  rewrite ltb_spec, eqb_spec; intros H.
  apply SFnotnan_eqb_refl, (SFltb_notnan_l _ _ H).
Qed.

Lemma leb_notnan_r x y : (x <=? y) = true -> (y =? y) = true.
Proof.
  rewrite leb_spec, eqb_spec; intros H.
  apply SFnotnan_eqb_refl, (SFleb_notnan_r _ _ H).
Qed.

Lemma leb_ltb_trans a b c :
  (a <=? b) = true -> (b <? c) = true -> (a <? c) = true.
Proof. rewrite !ltb_spec, leb_spec. apply SFleb_ltb_trans. Qed.

Lemma ltb_leb_trans a b c :
  (a <? b) = true -> (b <=? c) = true -> (a <? c) = true.
Proof. rewrite !ltb_spec, leb_spec. apply SFltb_leb_trans. Qed.


Lemma ltb_leb a b : (a <? b) = true -> (a <=? b) = true.
Proof. rewrite ltb_spec, leb_spec. apply SFltb_leb. Qed.

(** ** The risk engine against its table *)

Lemma clamp01_py x : py_min (py_max x 0.0) 1.0 = clamp01 x.
Proof.
  unfold py_min, py_max, gtb, clamp01.
  destruct (x <? 0); [reflexivity|].
  destruct (1 <? x); reflexivity.
Qed.

Ltac flags v :=
  generalize (m_attendance v <? 75); intros f1;
  generalize (m_marks v <? 60); intros f2;
  generalize (m_mst_marks v <? 16); intros f3;
  generalize (m_study_hours v <? 8); intros f4;
  generalize (m_assignments v <? 60); intros f5;
  generalize (m_extracurriculars v <? 2); intros f6;
  generalize (m_projects v =? 0)%Z; intros f7;
  generalize (m_certifications v =? 0)%Z; intros f8;
  generalize (m_internships v =? 0)%Z; intros f9.

Lemma calculate_risk_table v pm :
  calculate_risk_on v pm =
  (risk_score_spec v pm, risk_level (risk_score_spec v pm), tips_spec v).
Proof.
  unfold calculate_risk_on, calculate_risk, risk_score_spec, tips_spec, fired,
    risk_rules, fsum.
  cbn [filter fires weight tip map].
  flags v.
  destruct pm as [[|kv d]|]; cbn [truthy prob_contributions];
    destruct f1, f2, f3, f4, f5, f6, f7, f8, f9;
    cbn [rule_step fst snd app map weight tip fold_left append nonempty];
    rewrite clamp01_py; try reflexivity.
Qed.

Lemma dict_get_probability (d : dict float) k :
  forallb (fun kv => probability (snd kv)) d = true ->
  probability (dict_get d k 0.0) = true.
Proof.
  induction d as [|[k' p] d IH]; simpl; [reflexivity|].
  intros H; apply andb_prop in H; destruct H as [Hp Hd].
  destruct (String.eqb k' k); auto.
Qed.

Lemma fold_add_nonneg ws acc :
  forallb (fun w => 0 <=? w) ws = true -> (0 <=? acc) = true ->
  (0 <=? fold_left PrimFloat.add ws acc) = true.
Proof.
  revert acc; induction ws as [|w ws IH]; simpl; intros acc Hws Hacc; auto.
  apply andb_prop in Hws; destruct Hws as [Hw Hws].
  apply IH; auto using add_nonneg.
Qed.

Lemma prob_contributions_nonneg pm :
  prob_map_ok pm = true ->
  forallb (fun w => 0 <=? w) (prob_contributions pm) = true.
Proof.
  destruct pm as [d|]; simpl; [|reflexivity].
  intros Hd.
  pose proof (dict_get_probability d "D" Hd) as HD.
  pose proof (dict_get_probability d "C" Hd) as HC.
  apply andb_prop in HD, HC; destruct HD as [D0 D1], HC as [C0 C1].
  rewrite !mul_nonneg by (assumption || reflexivity).
  reflexivity.
Qed.

Lemma weights_nonneg v :
  forallb (fun w => 0 <=? w) (map weight (fired v)) = true.
Proof.
  unfold fired, risk_rules; cbn [filter fires]; flags v.
  destruct f1, f2, f3, f4, f5, f6, f7, f8, f9; reflexivity.
Qed.

Lemma raw_sum_nonneg v pm :
  prob_map_ok pm = true ->
  (0 <=? fsum (prob_contributions pm ++ map weight (fired v))) = true.
Proof.
  intros Hpm; unfold fsum; apply fold_add_nonneg; [|reflexivity].
  rewrite forallb_app, prob_contributions_nonneg, weights_nonneg; auto.
Qed.

Lemma clamp01_range x :
  (0 <=? x) = true ->
  (0 <=? clamp01 x) = true /\ (clamp01 x <=? 1) = true.
Proof.
  intros Hx; unfold clamp01.
  pose proof (nonneg_notnan x Hx) as Hn.
  assert (H0 : (x <? 0) = false).
  { rewrite ltb_negb_leb by (assumption || reflexivity).
    rewrite Hx; reflexivity. }
  rewrite H0.
  destruct (1 <? x) eqn:H1; [split; reflexivity|].
  split; [assumption|].
  rewrite ltb_negb_leb in H1 by (assumption || reflexivity).
  destruct (x <=? 1); [reflexivity|discriminate].
Qed.

Lemma calculate_risk_score_range v pm :
  prob_map_ok pm = true ->
  (0 <=? risk_score (calculate_risk_on v pm)) = true /\
  (risk_score (calculate_risk_on v pm) <=? 1) = true.
Proof.
  intros Hpm; rewrite calculate_risk_table; unfold risk_score; cbn [fst].
  apply clamp01_range, raw_sum_nonneg, Hpm.
Qed.

(** C1: the score [calculate_risk] returns is the sum, in table order, of
    the contributions that apply (the probability term when a map is
    supplied, then the weight of every threshold rule that fires),
    clamped to [[0,1]]; for a probability map it lies in [[0,1]], however
    many rules fire. *)
Theorem calculate_risk_score_sum_clamped v pm :
  risk_score (calculate_risk_on v pm) =
    clamp01 (fsum (prob_contributions pm ++ map weight (fired v))) /\
  (prob_map_ok pm = true ->
   (0 <=? risk_score (calculate_risk_on v pm)) = true /\
   (risk_score (calculate_risk_on v pm) <=? 1) = true).
Proof.
  split; [|apply calculate_risk_score_range].
  rewrite calculate_risk_table; reflexivity.
Qed.

Lemma calculate_risk_score_sum_clamped_scenario2 :
  risk_score (calculate_risk_on scenario2 (Some all_D)) =
    clamp01 (fsum (prob_contributions (Some all_D)
                   ++ map weight (fired scenario2))) /\
  (0 <=? risk_score (calculate_risk_on scenario2 (Some all_D))) = true /\
  (risk_score (calculate_risk_on scenario2 (Some all_D)) <=? 1) = true.
Proof.
  destruct (calculate_risk_score_sum_clamped scenario2 (Some all_D))
    as [Hsum Hrange].
  split; [exact Hsum|].
  apply Hrange. reflexivity.
Defined.

(** Scenario 2: every rule fires, the raw sum exceeds 1 and the score is
    clamped to exactly 1. *)
Example scenario2_all_rules_fire :
  List.length (fired scenario2) = 9%nat /\
  (1 <? fsum (map weight (fired scenario2))) = true /\
  calculate_risk_on scenario2 None =
    (1.0, "High",
     [tip_attendance; tip_marks; tip_mst; tip_study; tip_assignments;
      tip_extra; tip_projects; tip_certifications; tip_internships]).
Proof. repeat split; vm_compute; reflexivity. Qed.

(** ** The risk level *)

Lemma risk_level_cases s :
  (risk_level s = "Low" <-> (s <? 0.4) = true) /\
  (risk_level s = "Medium" <->
     (0.4 <=? s) = true /\ (s <? 0.7) = true) /\
  ((s =? s) = true ->
   (risk_level s = "High" <-> (0.7 <=? s) = true)).
Proof.
  assert (H47 : (s <? 0.4) = true -> (s <? 0.7) = true).
  { intros H; apply (ltb_leb_trans s 0.4 0.7 H); reflexivity. }
  assert (Hge : (0.4 <=? s) = true -> (s <? 0.4) = false).
  { intros H.
    rewrite (ltb_negb_leb s 0.4 (leb_notnan_r _ _ H) eq_refl), H.
    reflexivity. }
  assert (Hlt : (s <? 0.4) = false -> (s <? 0.7) = true ->
                (0.4 <=? s) = true).
  { intros H4 H7.
    rewrite (ltb_negb_leb s 0.4 (ltb_notnan_l _ _ H7) eq_refl) in H4.
    destruct (0.4 <=? s); [reflexivity|discriminate]. }
  unfold risk_level; repeat split.
  - destruct (s <? 0.4); [reflexivity|].
    destruct (s <? 0.7); discriminate.
  - intros ->; reflexivity.
  - destruct (s <? 0.4) eqn:E4; [discriminate|].
    destruct (s <? 0.7) eqn:E7; [auto|discriminate].
  - destruct (s <? 0.4); [discriminate|].
    destruct (s <? 0.7); [reflexivity|discriminate].
  - intros [H4 H7]; rewrite (Hge H4), H7; reflexivity.
  - destruct (s <? 0.4) eqn:E4; [discriminate|].
    destruct (s <? 0.7) eqn:E7; [discriminate|intros _].
    rewrite (ltb_negb_leb s 0.7 H eq_refl) in E7.
    destruct (0.7 <=? s); [reflexivity|discriminate].
  - intros H7.
    assert (E7 : (s <? 0.7) = false).
    { rewrite (ltb_negb_leb s 0.7 H eq_refl), H7; reflexivity. }
    destruct (s <? 0.4) eqn:E4; [rewrite (H47 eq_refl) in E7; discriminate|].
    rewrite E7; reflexivity.
Qed.

(** C2: the level [calculate_risk] returns is the threshold function of
    the score it returns: Low iff the score is below 0.4, Medium iff it
    is in [[0.4, 0.7)], and, for a probability map, High iff it is at
    least 0.7; at the four probe scores the function gives Low, Medium,
    Medium, High. *)
Theorem risk_level_by_thresholds v pm :
  let r := calculate_risk_on v pm in
  risk_level_of r = risk_level (risk_score r) /\
  (risk_level_of r = "Low" <-> (risk_score r <? 0.4) = true) /\
  (risk_level_of r = "Medium" <->
     (0.4 <=? risk_score r) = true /\ (risk_score r <? 0.7) = true) /\
  (prob_map_ok pm = true ->
   (risk_level_of r = "High" <-> (0.7 <=? risk_score r) = true)) /\
  risk_level 0.39 = "Low" /\ risk_level 0.40 = "Medium" /\
  risk_level 0.69 = "Medium" /\ risk_level 0.70 = "High".
Proof.
  intros r.
  assert (Hl : risk_level_of r = risk_level (risk_score r)).
  { unfold r; rewrite calculate_risk_table; reflexivity. }
  rewrite Hl.
  destruct (risk_level_cases (risk_score r)) as (HL & HM & HH).
  split; [reflexivity|].
  split; [exact HL|].
  split; [exact HM|].
  split; [|repeat split; reflexivity].
  intros Hpm; apply HH.
  apply nonneg_notnan, (calculate_risk_score_range v pm Hpm).
Qed.

Lemma risk_level_by_thresholds_scenario3 :
  let r := calculate_risk_on scenario3 (Some half_C) in
  risk_level_of r = risk_level (risk_score r) /\
  (risk_level_of r = "Low" <-> (risk_score r <? 0.4) = true) /\
  (risk_level_of r = "Medium" <->
     (0.4 <=? risk_score r) = true /\ (risk_score r <? 0.7) = true) /\
  (risk_level_of r = "High" <-> (0.7 <=? risk_score r) = true) /\
  risk_level 0.39 = "Low" /\ risk_level 0.40 = "Medium" /\
  risk_level 0.69 = "Medium" /\ risk_level 0.70 = "High".
Proof.
  destruct (risk_level_by_thresholds scenario3 (Some half_C))
    as (H1 & H2 & H3 & H4 & H5).
  repeat split; try apply H2; try apply H3; try apply H5; try exact H1;
    apply H4; reflexivity.
Defined.

(** Without the proviso the last equivalence fails: a map holding a NaN
    gives a NaN score, whose level is High although it is not at least
    0.7. *)
Example nan_score_is_high :
  let r := calculate_risk_on scenario1 (Some [("D", nan)]) in
  is_nan (risk_score r) = true /\ risk_level_of r = "High" /\
  (0.7 <=? risk_score r) = false.
Proof. repeat split; vm_compute; reflexivity. Qed.

(** ** The tips *)

Lemma fired_at_most_nine v : (List.length (fired v) <= 9)%nat.
Proof.
  unfold fired.
  etransitivity; [apply filter_length_le|]. apply Nat.le_refl.
Qed.

(** C6: the tips [calculate_risk] returns are the tips of the threshold
    rules that fired, in table order and uncapped (at most nine); when no
    rule fires they are the one positive tip, so the list is never
    empty.  The probability map plays no part. *)
Theorem calculate_risk_tips v pm :
  let tips := risk_tips (calculate_risk_on v pm) in
  (fired v <> [] -> tips = map tip (fired v)) /\
  (fired v = [] -> tips = [tip_great]) /\
  tips <> [] /\
  (List.length tips <= 9)%nat.
Proof.
  intros tips; unfold tips; rewrite calculate_risk_table.
  unfold risk_tips, tips_spec; cbn [snd].
  pose proof (fired_at_most_nine v) as Hlen.
  destruct (fired v) as [|r rs] eqn:E; cbn [map].
  - repeat split; try congruence. simpl; lia.
  - repeat split; try congruence.
    rewrite <- (length_map tip) in Hlen. exact Hlen.
Qed.

(** ** The recommendation *)

(** C4: [generate_recommendation] returns the directives of the rules
    that trigger (attendance < 75, marks < 70, mst_marks < 16,
    study_hours < 10, assignments < 70, extracurriculars < 2, and zero
    projects, certifications, internships), in declaration order, joined
    by [" | "]; when none triggers it returns the affirmation. *)
Theorem generate_recommendation_table v :
  generate_recommendation_on v =
  match triggered v with
  | [] => rec_affirmation
  | ds => String.concat " | " ds
  end.
Proof.
  unfold generate_recommendation_on, generate_recommendation, triggered,
    rec_rules, join.
  cbn [filter fst snd map].
  generalize (m_attendance v <? 75); intros f1;
  generalize (m_marks v <? 70); intros f2;
  generalize (m_mst_marks v <? 16); intros f3;
  generalize (m_study_hours v <? 10); intros f4;
  generalize (m_assignments v <? 70); intros f5;
  generalize (m_extracurriculars v <? 2); intros f6;
  generalize (m_projects v =? 0)%Z; intros f7;
  generalize (m_certifications v =? 0)%Z; intros f8;
  generalize (m_internships v =? 0)%Z; intros f9.
  destruct f1, f2, f3, f4, f5, f6, f7, f8, f9; reflexivity.
Qed.

Example scenario2_recommendation :
  generate_recommendation_on scenario2 =
  "Improve attendance | Focus on marks | Boost MST prep | Increase study time | Complete assignments | Join activities | Work on projects | Earn certifications | Pursue internships".
Proof. vm_compute. reflexivity. Qed.

(** ** The boundary vector *)

(** C5: at the boundary vector (75, 60, 16, 8, 60, 2, 1, 1, 1) no rule
    of [calculate_risk] fires, so the score is the clamped probability
    term alone, and 0 without a map; [generate_recommendation] on the
    same vector still triggers its marks rule, and its output is not the
    affirmation. *)
Theorem boundary_vector_rule_sets_differ :
  fired scenario3 = [] /\
  (forall pm,
     risk_score (calculate_risk_on scenario3 pm) =
       clamp01 (fsum (prob_contributions pm)) /\
     risk_tips (calculate_risk_on scenario3 pm) = [tip_great]) /\
  calculate_risk_on scenario3 None = (0.0, "Low", [tip_great]) /\
  In "Focus on marks" (triggered scenario3) /\
  generate_recommendation_on scenario3 =
    "Focus on marks | Increase study time | Complete assignments" /\
  generate_recommendation_on scenario3 <> rec_affirmation.
Proof.
  assert (F : fired scenario3 = []) by (vm_compute; reflexivity).
  split; [exact F|].
  split.
  { intros pm; rewrite calculate_risk_table.
    unfold risk_score, risk_tips, risk_score_spec, tips_spec; cbn [fst snd].
    rewrite F; cbn [map]; rewrite app_nil_r; split; reflexivity. }
  split; [vm_compute; reflexivity|].
  split; [vm_compute; auto|].
  split; [vm_compute; reflexivity|].
  vm_compute; discriminate.
Qed.

(** ** Monotonicity of the score without a probability map *)

Lemma all_pairs_spec P :
  all_pairs P = true -> forall f g, implb g f = true -> P f g = true.
Proof.
  unfold all_pairs; intros H.
  apply andb_prop in H; destruct H as [H H3].
  apply andb_prop in H; destruct H as [H1 H2].
  intros [|] [|]; simpl; intros; congruence.
Qed.

Lemma mono_check_holds : mono_check = true.
Proof. vm_compute. reflexivity. Qed.

Lemma risk_of_flags_mono f1 g1 f2 g2 f3 g3 f4 g4 f5 g5 f6 g6 f7 g7 f8 g8 f9 g9 :
  implb g1 f1 = true -> implb g2 f2 = true -> implb g3 f3 = true ->
  implb g4 f4 = true -> implb g5 f5 = true -> implb g6 f6 = true ->
  implb g7 f7 = true -> implb g8 f8 = true -> implb g9 f9 = true ->
  (risk_of_flags g1 g2 g3 g4 g5 g6 g7 g8 g9
   <=? risk_of_flags f1 f2 f3 f4 f5 f6 f7 f8 f9) = true.
Proof.
  intros H1 H2 H3 H4 H5 H6 H7 H8 H9.
  pose proof mono_check_holds as H; unfold mono_check in H.
  apply (fun H => all_pairs_spec _ H f1 g1 H1) in H.
  apply (fun H => all_pairs_spec _ H f2 g2 H2) in H.
  apply (fun H => all_pairs_spec _ H f3 g3 H3) in H.
  apply (fun H => all_pairs_spec _ H f4 g4 H4) in H.
  apply (fun H => all_pairs_spec _ H f5 g5 H5) in H.
  apply (fun H => all_pairs_spec _ H f6 g6 H6) in H.
  apply (fun H => all_pairs_spec _ H f7 g7 H7) in H.
  apply (fun H => all_pairs_spec _ H f8 g8 H8) in H.
  apply (fun H => all_pairs_spec _ H f9 g9 H9) in H.
  exact H.
Qed.

Lemma calculate_risk_flags a m s h g e p c i :
  risk_score (calculate_risk a m s h g e p c i None) =
  risk_of_flags (a <? 75) (m <? 60) (s <? 16) (h <? 8) (g <? 60) (e <? 2)
    (p =? 0)%Z (c =? 0)%Z (i =? 0)%Z.
Proof.
  unfold risk_of_flags, calculate_risk.
  generalize (a <? 75), (m <? 60), (s <? 16), (h <? 8), (g <? 60), (e <? 2),
    (p =? 0)%Z, (c =? 0)%Z, (i =? 0)%Z.
  intros f1 f2 f3 f4 f5 f6 f7 f8 f9.
  destruct f1, f2, f3, f4, f5, f6, f7, f8, f9; reflexivity.
Qed.

Lemma float_flag_mono x x' c :
  (x <=? x') = true -> implb (x' <? c) (x <? c) = true.
Proof.
  intros H; destruct (x' <? c) eqn:E; [|reflexivity].
  rewrite (leb_ltb_trans x x' c H E); reflexivity.
Qed.

Lemma count_flag_mono (n n' : Z) :
  (0 <= n)%Z -> (n <= n')%Z -> implb (n' =? 0)%Z (n =? 0)%Z = true.
Proof.
  intros H0 H; destruct (Z.eqb_spec n' 0); [|reflexivity].
  destruct (Z.eqb_spec n 0); [reflexivity|lia].
Qed.

Lemma implb_refl b : implb b b = true.
Proof. destruct b; reflexivity. Qed.

(** C10: without a probability map, raising any single field of a metric
    vector (whose counts are non-negative), the other eight unchanged,
    never raises the score. *)
Theorem calculate_risk_monotone v v' :
  raises_one_field v v' -> counts_nonneg v ->
  (risk_score (calculate_risk_on v' None)
   <=? risk_score (calculate_risk_on v None)) = true.
Proof.
  intros Hr (Hp & Hc & Hi); unfold calculate_risk_on.
  destruct Hr; cbn [m_attendance m_marks m_mst_marks m_study_hours
    m_assignments m_extracurriculars m_projects m_certifications
    m_internships] in *;
    rewrite !calculate_risk_flags;
    apply risk_of_flags_mono;
    auto using implb_refl, float_flag_mono, count_flag_mono.
Qed.

Lemma calculate_risk_monotone_attendance :
  (risk_score (calculate_risk_on
     (Build_MetricVector 80 40 5 2 30 0 0 0 0) None)
   <=? risk_score (calculate_risk_on scenario2 None)) = true.
Proof.
  apply (calculate_risk_monotone scenario2
           (Build_MetricVector 80 40 5 2 30 0 0 0 0)).
  - apply raise_attendance. reflexivity.
  - unfold counts_nonneg; simpl; lia.
Defined.

(** Outside the data model the count rules are not monotone: from -1
    projects to 0 the score rises. *)
Example negative_count_raises_score :
  risk_score (calculate_risk_on
    (Build_MetricVector 90 85 30 15 90 5 (-1) 1 1) None) = 0 /\
  risk_score (calculate_risk_on
    (Build_MetricVector 90 85 30 15 90 5 0 1 1) None) = 0.1.
Proof. split; vm_compute; reflexivity. Qed.

(** ** The binary64 score against the decimal sum *)

Lemma all_bool_spec P : all_bool P = true -> forall b, P b = true.
Proof.
  unfold all_bool; intros H; apply andb_prop in H; destruct H.
  intros [|]; assumption.
Qed.

Lemma rounding_check_holds : rounding_check = true.
Proof. vm_compute. reflexivity. Qed.

(** Without a probability map the score differs from the clamped sum of
    the decimal weights by at most [2^-52]. *)
Lemma score_within_rounding_of_decimal_sum v :
  (Qabs (Q_of_float (risk_score (calculate_risk_on v None))
         - decimal_score (m_attendance v <? 75) (m_marks v <? 60)
             (m_mst_marks v <? 16) (m_study_hours v <? 8)
             (m_assignments v <? 60) (m_extracurriculars v <? 2)
             (m_projects v =? 0)%Z (m_certifications v =? 0)%Z
             (m_internships v =? 0)%Z)
   <= 1 # 4503599627370496)%Q.
Proof.
  unfold calculate_risk_on; rewrite calculate_risk_flags.
  apply Qle_bool_iff.
  pose proof rounding_check_holds as H; unfold rounding_check in H.
  apply (fun H => all_bool_spec _ H (m_attendance v <? 75)) in H.
  apply (fun H => all_bool_spec _ H (m_marks v <? 60)) in H.
  apply (fun H => all_bool_spec _ H (m_mst_marks v <? 16)) in H.
  apply (fun H => all_bool_spec _ H (m_study_hours v <? 8)) in H.
  apply (fun H => all_bool_spec _ H (m_assignments v <? 60)) in H.
  apply (fun H => all_bool_spec _ H (m_extracurriculars v <? 2)) in H.
  apply (fun H => all_bool_spec _ H (m_projects v =? 0)%Z) in H.
  apply (fun H => all_bool_spec _ H (m_certifications v =? 0)%Z) in H.
  apply (fun H => all_bool_spec _ H (m_internships v =? 0)%Z) in H.
  exact H.
Qed.

(** The rounding shows at a threshold: when exactly the attendance,
    assignments and extracurricular rules fire, the decimal sum is 0.40
    but the binary64 sum is one unit in the last place below the
    literal [0.4], and the level is Low. *)
Example sum_just_below_threshold :
  let v := Build_MetricVector 70 85 30 15 50 1 2 1 1 in
  (decimal_score true false false false true true false false false
   == 4 # 10)%Q /\
  risk_score (calculate_risk_on v None) = next_down 0.4 /\
  (risk_score (calculate_risk_on v None) <? 0.4) = true /\
  risk_level_of (calculate_risk_on v None) = "Low".
Proof. repeat split; vm_compute; reflexivity. Qed.

(** ** The classifier singleton *)

Section Singleton.
Context {rng : NumpyRandom}.
Variable fit : list (list float) -> list (option string) -> Classifier.

Lemma _ensure_model_sets w :
  _MODEL (_ensure_model fit w) = Some (model_in_use fit w).
Proof.
  unfold _ensure_model, model_in_use.
  destruct (_MODEL w) eqn:E; [exact E|].
  destruct (model_file w); [reflexivity|].
  destruct (_generate_synthetic_dataset 2000 42 (os_entropy w)); reflexivity.
Qed.

Lemma _ensure_model_cached w model :
  _MODEL w = Some model -> _ensure_model fit w = w.
Proof. unfold _ensure_model; intros ->; reflexivity. Qed.

Lemma _ensure_model_idempotent w :
  _ensure_model fit (_ensure_model fit w) = _ensure_model fit w.
Proof. apply (_ensure_model_cached _ _ (_ensure_model_sets w)). Qed.

Lemma _ensure_model_ok w : world_ok w -> world_ok (_ensure_model fit w).
Proof.
  unfold world_ok, _ensure_model; intros Hw.
  destruct (_MODEL w) eqn:E; [rewrite E; exact Hw|].
  destruct (model_file w).
  - simpl; intros model [= <-]; reflexivity.
  - destruct (_generate_synthetic_dataset 2000 42 (os_entropy w)).
    simpl; intros model [= <-]; reflexivity.
Qed.

Lemma predict_grade_world a m s h g e p c i w :
  snd (predict_grade fit a m s h g e p c i w) = _ensure_model fit w.
Proof.
  unfold predict_grade.
  destruct (_MODEL (_ensure_model fit w)); [|reflexivity].
  destruct (_CLASSES (_ensure_model fit w)); [|reflexivity].
  destruct (np_argmax _); [|reflexivity].
  destruct (nth_error _ _); reflexivity.
Qed.

Lemma predict_grade_singleton a m s h g e p c i w w' :
  _MODEL (_ensure_model fit w') = _MODEL (_ensure_model fit w) ->
  _CLASSES (_ensure_model fit w') = _CLASSES (_ensure_model fit w) ->
  fst (predict_grade fit a m s h g e p c i w') =
  fst (predict_grade fit a m s h g e p c i w).
Proof.
  unfold predict_grade; intros -> ->.
  destruct (_MODEL (_ensure_model fit w)); [|reflexivity].
  destruct (_CLASSES (_ensure_model fit w)); [|reflexivity].
  destruct (np_argmax _); [|reflexivity].
  destruct (nth_error _ _); reflexivity.
Qed.

(** C7: a second call of [predict_grade] with the same vector, in any
    state of the process in which the classifier singleton ([_MODEL] and
    [_CLASSES]) is what the first call left, returns the same grade and
    the same probability map as the first; in particular the call that
    follows directly does, and it leaves the state as it found it. *)
Theorem predict_grade_repeatable a m s h g e p c i w w' :
  _MODEL w' = _MODEL (snd (predict_grade fit a m s h g e p c i w)) ->
  _CLASSES w' = _CLASSES (snd (predict_grade fit a m s h g e p c i w)) ->
  fst (predict_grade fit a m s h g e p c i w') =
    fst (predict_grade fit a m s h g e p c i w) /\
  predict_grade fit a m s h g e p c i
    (snd (predict_grade fit a m s h g e p c i w)) =
    predict_grade fit a m s h g e p c i w.
Proof.
  rewrite predict_grade_world; intros HM HC.
  pose proof (_ensure_model_sets w) as Hset.
  assert (Hw' : _ensure_model fit w' = w').
  { apply (_ensure_model_cached w' (model_in_use fit w)); congruence. }
  split.
  - apply predict_grade_singleton; rewrite Hw'; assumption.
  - apply injective_projections.
    + apply predict_grade_singleton;
        rewrite _ensure_model_idempotent; reflexivity.
    + rewrite !predict_grade_world. apply _ensure_model_idempotent.
Qed.

End Singleton.

Lemma predict_grade_repeatable_after_restart :
  let w := fresh_world (Some votes_BC) in
  let w' : World :=
    {| _MODEL := Some votes_BC; _CLASSES := Some four_labels;
       model_file := None; os_entropy := 9%Z |} in
  fst (predict_grade fit_BC 90 85 30 15 90 5 2 1 1 w') =
    fst (predict_grade fit_BC 90 85 30 15 90 5 2 1 1 w) /\
  predict_grade fit_BC 90 85 30 15 90 5 2 1 1
    (snd (predict_grade fit_BC 90 85 30 15 90 5 2 1 1 w)) =
    predict_grade fit_BC 90 85 30 15 90 5 2 1 1 w.
Proof.
  apply (predict_grade_repeatable fit_BC 90 85 30 15 90 5 2 1 1
           (fresh_world (Some votes_BC))); reflexivity.
Defined.

Example predict_grade_votes_BC :
  fst (predict_grade fit_BC 90 85 30 15 90 5 2 1 1 (fresh_world None)) =
  Ok ("B", [("A", 0.0); ("B", 0.75); ("C", 0.25); ("D", 0.0)]).
Proof. vm_compute. reflexivity. Qed.

(** ** The prediction contract *)






Section Wrapper.
Context {rng : NumpyRandom}.
Variable fit : list (list float) -> list (option string) -> Classifier.


End Wrapper.

Lemma votes_BC_ok : classifier_ok votes_BC.
Proof.
  split; [reflexivity|]; intros X; repeat split; vm_compute; reflexivity.
Qed.

(** ** The synthetic dataset *)

Lemma vscale_length v c : List.length (vscale v c) = List.length v.
Proof. apply length_map. Qed.

Lemma vdiv_length v c : List.length (vdiv v c) = List.length v.
Proof. apply length_map. Qed.

Lemma vfloat_length v : List.length (vfloat v) = List.length v.
Proof. apply length_map. Qed.

Lemma vadd_length u v :
  List.length (vadd u v) = Nat.min (List.length u) (List.length v).
Proof. unfold vadd; rewrite length_map; apply length_combine. Qed.

Lemma np_clip_length v lo hi : List.length (np_clip v lo hi) = List.length v.
Proof. apply length_map. Qed.

Lemma mask_assign_length labels mask value :
  List.length (mask_assign labels mask value) =
  Nat.min (List.length labels) (List.length mask).
Proof. unfold mask_assign; rewrite length_map; apply length_combine. Qed.

Lemma column_stack_shape n cols :
  cols <> [] -> Forall (fun c => List.length c = n) cols ->
  List.length (column_stack cols) = n /\
  Forall (fun row => List.length row = List.length cols) (column_stack cols).
Proof.
  induction cols as [|c cs IH]; [congruence|]; intros _ Hall.
  inversion Hall as [|? ? Hc Hcs]; subst.
  destruct cs as [|c' cs'].
  - simpl; rewrite length_map; split; [reflexivity|].
    apply Forall_forall; intros row Hrow.
    apply in_map_iff in Hrow; destruct Hrow as (x & <- & _); reflexivity.
  - destruct IH as [IHlen IHrows]; [discriminate|assumption|].
    change (column_stack (c :: c' :: cs')) with
      (map (fun xr : float * list float => fst xr :: snd xr)
         (combine c (column_stack (c' :: cs')))).
    rewrite length_map, length_combine, IHlen, Nat.min_id.
    split; [reflexivity|].
    apply Forall_forall; intros row Hrow.
    apply in_map_iff in Hrow; destruct Hrow as ([x r] & <- & Hin).
    apply in_combine_r in Hin.
    rewrite Forall_forall in IHrows.
    simpl; f_equal; apply (IHrows r Hin).
Qed.

Create Rewrite HintDb lengths.
#[local] Hint Rewrite vscale_length vdiv_length vfloat_length vadd_length
  np_clip_length mask_assign_length length_map repeat_length Nat.min_id
  : lengths.

(** C8: [_generate_synthetic_dataset(n, seed)] is determined by [n] and
    [seed]: two runs, whatever entropy the operating system offers each,
    return the same feature array and the same label array; the features
    are [n] rows of 9 columns and there are [n] labels. *)
Theorem generate_synthetic_dataset_deterministic
  (rng : NumpyRandom) (n : nat) (seed : Z) (os1 os2 : Entropy) :
  draws_sized rng ->
  _generate_synthetic_dataset n seed os1 =
    _generate_synthetic_dataset n seed os2 /\
  List.length (fst (_generate_synthetic_dataset n seed os1)) = n /\
  Forall (fun row => List.length row = 9%nat)
    (fst (_generate_synthetic_dataset n seed os1)) /\
  List.length (snd (_generate_synthetic_dataset n seed os1)) = n.
Proof.
  intros (Hu & Hi & Hn); split; [reflexivity|].
  unfold _generate_synthetic_dataset, default_rng.
  repeat match goal with
    | |- context [uniform ?lo ?hi n ?g] =>
        let H := fresh "L" in
        pose proof (Hu lo hi n g) as H;
        destruct (uniform lo hi n g); cbn [fst] in H
    | |- context [integers ?lo ?hi n ?g] =>
        let H := fresh "L" in
        pose proof (Hi lo hi n g) as H;
        destruct (integers lo hi n g); cbn [fst] in H
    | |- context [normal ?mu ?sigma n ?g] =>
        let H := fresh "L" in
        pose proof (Hn mu sigma n g) as H;
        destruct (normal mu sigma n g); cbn [fst] in H
    end.
  cbn [fst snd].
  match goal with
  | |- List.length (column_stack ?cols) = _ /\ _ /\ _ =>
      destruct (column_stack_shape n cols) as [Hlen Hrows];
        [discriminate| |]
  end.
  { repeat constructor; autorewrite with lengths; assumption. }
  repeat split; try assumption.
  autorewrite with lengths.
  repeat match goal with H : List.length _ = n |- _ => rewrite H; clear H end.
  autorewrite with lengths. reflexivity.
Qed.

Lemma lcg_draws_length n g : List.length (fst (lcg_draws n g)) = n.
Proof.
  revert g; induction n as [|n IH]; intros g; simpl; [reflexivity|].
  specialize (IH (lcg_next g)).
  destruct (lcg_draws n (lcg_next g)); simpl in *; congruence.
Qed.

Lemma lcg_draws_sized : draws_sized lcg_random.
Proof.
  repeat split; intros; simpl;
    pose proof (lcg_draws_length n g) as H;
    destruct (lcg_draws n g); simpl in *;
    rewrite length_map; exact H.
Qed.

Lemma generate_synthetic_dataset_deterministic_lcg :
  @_generate_synthetic_dataset lcg_random 20 42 1%Z =
    @_generate_synthetic_dataset lcg_random 20 42 2%Z /\
  List.length (fst (@_generate_synthetic_dataset lcg_random 20 42 1%Z))
    = 20%nat /\
  Forall (fun row => List.length row = 9%nat)
    (fst (@_generate_synthetic_dataset lcg_random 20 42 1%Z)) /\
  List.length (snd (@_generate_synthetic_dataset lcg_random 20 42 1%Z))
    = 20%nat.
Proof.
  apply (generate_synthetic_dataset_deterministic lcg_random 20 42 1%Z 2%Z).
  exact lcg_draws_sized.
Defined.

(** ** The trained forest and the prediction contract *)

Local Notation "'ascending'" :=
  (StronglySorted (fun a b : string => (a ?= b)%string = Lt)).










Section Prediction.
Context {rng : NumpyRandom}.
Variable fit : list (list float) -> list (option string) -> Classifier.





End Prediction.






(** ** Scenario 1 *)

Lemma clamp01_ge_high x :
  (0 <=? x) = true -> (0.7 <=? clamp01 x) = (0.7 <=? x).
Proof.
  intros Hx; unfold clamp01.
  pose proof (nonneg_notnan x Hx) as Hn.
  assert (H0 : (x <? 0) = false).
  { rewrite ltb_negb_leb by (assumption || reflexivity).
    rewrite Hx; reflexivity. }
  rewrite H0.
  destruct (1 <? x) eqn:H1; [|reflexivity].
  symmetry; apply ltb_leb, (leb_ltb_trans 0.7 1 x); auto.
Qed.

Lemma risk_level_three s :
  risk_level s = "Low" \/ risk_level s = "Medium" \/ risk_level s = "High".
Proof.
  unfold risk_level; destruct (s <? 0.4); auto; destruct (s <? 0.7); auto.
Qed.

(** Scenario 1 as the code has it: at its vector no threshold rule
    fires, so the score is the clamped probability term
    [P(D)*1.0 + P(C)*0.5]; the level is High exactly when that term
    reaches 0.7, and Low or Medium exactly when it stays below; without
    a map it is Low. *)
Theorem scenario1_level_from_probabilities pm :
  prob_map_ok pm = true ->
  fired scenario1 = [] /\
  risk_score (calculate_risk_on scenario1 pm) =
    clamp01 (fsum (prob_contributions pm)) /\
  (risk_level_of (calculate_risk_on scenario1 pm) = "High" <->
     (0.7 <=? fsum (prob_contributions pm)) = true) /\
  (risk_level_of (calculate_risk_on scenario1 pm) = "Low" \/
   risk_level_of (calculate_risk_on scenario1 pm) = "Medium" <->
     (fsum (prob_contributions pm) <? 0.7) = true) /\
  calculate_risk_on scenario1 None = (0.0, "Low", [tip_great]).
Proof.
  intros Hpm.
  assert (F : fired scenario1 = []) by (vm_compute; reflexivity).
  pose proof (raw_sum_nonneg scenario1 pm Hpm) as Hraw.
  rewrite calculate_risk_table.
  unfold risk_score, risk_level_of, risk_score_spec; cbn [fst snd].
  rewrite F in *; cbn [map] in *; rewrite app_nil_r in *.
  set (raw := fsum (prob_contributions pm)) in *.
  destruct (clamp01_range raw Hraw) as [Hc0 _].
  destruct (risk_level_cases (clamp01 raw)) as (HL & HM & HH).
  specialize (HH (nonneg_notnan _ Hc0)).
  pose proof (clamp01_ge_high raw Hraw) as Hge.
  pose proof (ltb_negb_leb raw 0.7 (nonneg_notnan _ Hraw) eq_refl) as Hlt.
  split; [exact F|].
  split; [reflexivity|].
  split; [rewrite HH, Hge; reflexivity|].
  split; [|vm_compute; reflexivity].
  rewrite Hlt, <- Hge.
  destruct (0.7 <=? clamp01 raw) eqn:E; simpl.
  - assert (E' : risk_level (clamp01 raw) = "High") by (apply HH; reflexivity).
    rewrite E'.
    split; [intros [H|H]; discriminate H|discriminate].
  - split; [reflexivity|intros _].
    destruct (risk_level_three (clamp01 raw)) as [H|[H|H]]; auto.
    apply HH in H; discriminate H.
Qed.

Lemma scenario1_level_from_probabilities_half_C :
  fired scenario1 = [] /\
  risk_score (calculate_risk_on scenario1 (Some half_C)) =
    clamp01 (fsum (prob_contributions (Some half_C))) /\
  (risk_level_of (calculate_risk_on scenario1 (Some half_C)) = "High" <->
     (0.7 <=? fsum (prob_contributions (Some half_C))) = true) /\
  (risk_level_of (calculate_risk_on scenario1 (Some half_C)) = "Low" \/
   risk_level_of (calculate_risk_on scenario1 (Some half_C)) = "Medium" <->
     (fsum (prob_contributions (Some half_C)) <? 0.7) = true) /\
  calculate_risk_on scenario1 None = (0.0, "Low", [tip_great]).
Proof.
  apply (scenario1_level_from_probabilities (Some half_C)).
  reflexivity.
Defined.

(** * Beyond the engine: helpers, validation, persistence *)

(** ** Colours of computed levels *)

(** X1: whatever the vector and the probability map, the level that
    [calculate_risk] returns has a colour of its own in
    [get_risk_color], never the grey fallback: green below 0.4, amber
    from there below 0.7, red otherwise. *)
Theorem risk_color_of_computed_level v pm :
  let r := calculate_risk_on v pm in
  get_risk_color (risk_level_of r) <> fallback_color /\
  get_risk_color (risk_level_of r) =
    (if risk_score r <? 0.4 then "#10b981"
     else if risk_score r <? 0.7 then "#f59e0b" else "#ef4444").
Proof.
  intros r; unfold r; rewrite calculate_risk_table.
  unfold risk_level_of, risk_score; cbn [fst snd].
  unfold risk_level.
  destruct (risk_score_spec v pm <? 0.4);
    [|destruct (risk_score_spec v pm <? 0.7)];
    (split; [vm_compute; discriminate|reflexivity]).
Qed.

(** X20: [get_grade_color] has a colour of its own for exactly the four
    labels of the classifier and the grey fallback for every other
    string, lower-case labels included; the colours of A, C and D are
    those [get_risk_color] gives to Low, Medium and High. *)
Theorem grade_color_of_labels grade :
  (get_grade_color grade <> fallback_color <-> In grade four_labels) /\
  get_grade_color "a" = fallback_color /\
  get_grade_color "A" = get_risk_color "Low" /\
  get_grade_color "C" = get_risk_color "Medium" /\
  get_grade_color "D" = get_risk_color "High".
Proof.
  split; [|repeat split; reflexivity].
  unfold get_grade_color, four_labels, dict_get; cbn [find fst snd].
  destruct (String.eqb_spec "A" grade) as [<-|HA];
    [split; [simpl; auto|intros _; vm_compute; discriminate]|].
  destruct (String.eqb_spec "B" grade) as [<-|HB];
    [split; [simpl; auto|intros _; vm_compute; discriminate]|].
  destruct (String.eqb_spec "C" grade) as [<-|HC];
    [split; [simpl; auto|intros _; vm_compute; discriminate]|].
  destruct (String.eqb_spec "D" grade) as [<-|HD];
    [split; [simpl; auto|intros _; vm_compute; discriminate]|].
  split; [intros H; exfalso; apply H; reflexivity|].
  simpl; intuition congruence.
Qed.

(** ** [validate_email] *)

Lemma split_head sep s :
  exists p ps, split sep s = p :: ps /\ contains sep p = false /\
    ((ps = [] /\ s = p) \/
     (exists r, s = p ++ String sep r /\ ps = split sep r)).
Proof.
  induction s as [|a s IH]; simpl.
  - exists EmptyString, []; repeat split; auto.
  - destruct (Ascii.eqb_spec a sep) as [->|Hne].
    + exists EmptyString, (split sep s); repeat split; auto.
      right; exists s; split; reflexivity.
    + destruct IH as (p & ps & Hs & Hp & Hshape); rewrite Hs.
      exists (String a p), ps; repeat split; auto.
      * simpl; rewrite Hp.
        destruct (Ascii.eqb_spec a sep); [contradiction|reflexivity].
      * destruct Hshape as [[-> ->]|(r & -> & ->)]; [left; auto|].
        right; exists r; split; reflexivity.
Qed.

Lemma contains_app c s t :
  contains c (s ++ t) = contains c s || contains c t.
Proof.
  induction s as [|a s IH]; simpl; [reflexivity|].
  rewrite IH, orb_assoc; reflexivity.
Qed.

Lemma append_no_sep_inj sep p q r r' :
  contains sep p = false -> contains sep q = false ->
  (p ++ String sep r = q ++ String sep r')%string -> p = q /\ r = r'.
Proof.
  revert q; induction p as [|a p IH]; intros [|b q] Hp Hq H; simpl in *.
  - injection H as <-; auto.
  - injection H as <- _.
    rewrite Ascii.eqb_refl in Hq; discriminate.
  - injection H as -> _.
    rewrite Ascii.eqb_refl in Hp; discriminate.
  - injection H as <- H.
    apply orb_false_elim in Hp, Hq.
    destruct (IH q (proj2 Hp) (proj2 Hq) H) as [-> ->]; auto.
Qed.

Lemma append_nil_r (s : string) : (s ++ "")%string = s.
Proof. induction s; simpl; congruence. Qed.

(** X2: [validate_email] never raises, and it accepts exactly the
    addresses [local @ domain rest] in which [local] and [domain] hold
    no at sign, [domain] holds a dot, and [rest] is empty or begins with
    a further at sign: only the piece between the first and the second
    at sign is looked at. *)
Theorem validate_email_shape email :
  exists b, validate_email email = Ok b /\
    (b = true <->
     exists local domain rest,
       email = (local ++ String "@" (domain ++ rest))%string /\
       contains "@" local = false /\ contains "@" domain = false /\
       contains "." domain = true /\
       (rest = "" \/ exists r, rest = String "@" r)).
Proof.
  unfold validate_email.
  destruct (contains "@" email) eqn:Hat.
  - destruct (split_head "@" email) as (p & ps & Hs & Hp & [[-> ->]|Hsh]);
      [congruence|].
    destruct Hsh as (r & -> & ->).
    destruct (split_head "@" r) as (q & qs & Hr & Hq & Hshape).
    rewrite Hs, Hr; cbn [nth_error].
    exists (contains "." q); split; [reflexivity|]; split.
    + intros Hdot; exists p, q.
      destruct Hshape as [[-> ->]|(r' & -> & ->)].
      * exists ""; rewrite append_nil_r; auto 6.
      * exists (String "@" r'); repeat split; eauto.
    + intros (l & d & rest & He & Hl & Hd & Hdot & Hrest).
      destruct (append_no_sep_inj "@" p l r (d ++ rest) Hp Hl He) as [-> ->].
      destruct Hrest as [->|(r'' & ->)].
      * rewrite append_nil_r in *.
        destruct Hshape as [[_ ->]|(r' & E & _)]; [assumption|].
        rewrite E, contains_app in Hd; simpl in Hd.
        rewrite orb_true_r in Hd; discriminate.
      * destruct Hshape as [[_ E]|(r' & E & _)].
        -- rewrite <- E, contains_app in Hq; simpl in Hq.
           rewrite orb_true_r in Hq; discriminate.
        -- destruct (append_no_sep_inj "@" d q _ _ Hd Hq E) as [-> _].
           assumption.
  - exists false; split; [reflexivity|]; split; [discriminate|].
    intros (l & d & rest & -> & _).
    rewrite contains_app in Hat; simpl in Hat.
    rewrite orb_true_r in Hat; discriminate.
Qed.

Example validate_email_edge_cases :
  validate_email "teacher@example.com" = Ok true /\
  validate_email "first.last@localhost" = Ok false /\
  validate_email "a@b@c.d" = Ok false /\
  validate_email "a@b.c@" = Ok true /\
  validate_email "@." = Ok true /\
  validate_email "" = Ok false.
Proof. repeat split; reflexivity. Qed.

(** ** [clean_database] *)

(** X3: [clean_database] returns [False] exactly when [edutrack.db]
    exists and cannot be removed, and then it leaves every file in
    place, [model.pkl] included; when it returns [True] the database
    file is gone, [model.pkl] is gone unless its removal failed, and no
    other path is touched. *)
Theorem clean_database_effect fs :
  let '(ok, out, fs') := clean_database fs in
  (ok = false <->
     file_exists fs "edutrack.db" = true /\
     remove_error fs "edutrack.db" <> None) /\
  (ok = false -> forall p, file_exists fs' p = file_exists fs p) /\
  (ok = true ->
     file_exists fs' "edutrack.db" = false /\
     (file_exists fs' "model.pkl" = true ->
        file_exists fs "model.pkl" = true /\
        remove_error fs "model.pkl" <> None) /\
     forall p, p <> "edutrack.db" -> p <> "model.pkl" ->
               file_exists fs' p = file_exists fs p).
Proof.
  unfold clean_database, os_remove.
  destruct (file_exists fs "edutrack.db") eqn:Edb.
  - destruct (remove_error fs "edutrack.db") as [e|] eqn:Rdb.
    + repeat split; try discriminate; auto.
    + cbn [file_exists remove_error].
      change ("model.pkl" =? "edutrack.db")%string with false.
      destruct (file_exists fs "model.pkl") eqn:Emp.
      * destruct (remove_error fs "model.pkl") as [e|] eqn:Rmp;
          cbn [file_exists];
          (split; [split; [discriminate|intros [_ H]; congruence]|]);
          (split; [discriminate|intros _]).
        -- split; [reflexivity|].
           split; [intros _; split; congruence|].
           intros p Hp _. destruct (String.eqb_spec p "edutrack.db"); congruence.
        -- split; [reflexivity|].
           split; [discriminate|].
           intros p Hp Hq.
           destruct (String.eqb_spec p "model.pkl"); [congruence|].
           destruct (String.eqb_spec p "edutrack.db"); congruence.
      * cbn [file_exists];
          (split; [split; [discriminate|intros [_ H]; congruence]|]);
          (split; [discriminate|intros _]).
        split; [reflexivity|].
        split; [change ("model.pkl" =? "edutrack.db")%string with false;
                congruence|].
        intros p Hp _. destruct (String.eqb_spec p "edutrack.db"); congruence.
  - destruct (file_exists fs "model.pkl") eqn:Emp.
    + destruct (remove_error fs "model.pkl") as [e|] eqn:Rmp;
        cbn [file_exists];
        (split; [split; [discriminate|intros [H _]; congruence]|]);
        (split; [discriminate|intros _]).
      * split; [assumption|].
        split; [intros _; split; congruence|]. auto.
      * split; [change ("edutrack.db" =? "model.pkl")%string with false;
                assumption|].
        split; [discriminate|].
        intros p _ Hq. destruct (String.eqb_spec p "model.pkl"); congruence.
    + (split; [split; [discriminate|intros [H _]; congruence]|]);
        (split; [discriminate|intros _]).
      split; [assumption|]. split; [congruence|auto].
Qed.

(** ** The persisted artifact *)

Section Artifact.
Context {rng : NumpyRandom}.
Variable fit : list (list float) -> list (option string) -> Classifier.

Lemma _ensure_model_classes w :
  world_ok w ->
  _CLASSES (_ensure_model fit w) = Some (classes_ (model_in_use fit w)).
Proof.
  intros Hw.
  apply (_ensure_model_ok fit w Hw), _ensure_model_sets.
Qed.

Lemma _ensure_model_dumps w :
  _MODEL w = None ->
  model_file (_ensure_model fit w) = Some (model_in_use fit w).
Proof.
  unfold _ensure_model, model_in_use; intros ->.
  destruct (model_file w); [reflexivity|].
  destruct (_generate_synthetic_dataset 2000 42 (os_entropy w)); reflexivity.
Qed.

(** X4: the first prediction of a process leaves an artifact behind
    (the one it loaded, or the forest it trained), and any later process
    that starts with that artifact on disk returns the same grade and the
    same probability map for the same vector, whatever entropy it
    runs with. *)
Theorem predict_grade_across_restart a m s h g e p c i w w2 :
  _MODEL w = None -> _MODEL w2 = None ->
  model_file w2 = model_file (snd (predict_grade fit a m s h g e p c i w)) ->
  model_file w2 <> None /\
  fst (predict_grade fit a m s h g e p c i w2) =
  fst (predict_grade fit a m s h g e p c i w).
Proof.
  intros HM HM2 Hfile.
  rewrite predict_grade_world, (_ensure_model_dumps w HM) in Hfile.
  split; [congruence|].
  assert (Hok : forall w0 : World, _MODEL w0 = None -> world_ok w0).
  { intros w0 H0 model H; congruence. }
  assert (Huse : model_in_use fit w2 = model_in_use fit w).
  { unfold model_in_use at 1; rewrite HM2, Hfile; reflexivity. }
  apply predict_grade_singleton.
  - rewrite !_ensure_model_sets, Huse; reflexivity.
  - rewrite !_ensure_model_classes, Huse by auto; reflexivity.
Qed.

(** X5: in a state where [_CLASSES] belongs to [_MODEL] (every state the
    module itself produces), the assertion of [predict_grade] holds: the
    call returns a result or raises [ValueError] or [IndexError], the
    latter two only when the forest's row of probabilities is empty or
    longer than its class list. *)
Theorem predict_grade_assertion_holds a m s h g e p c i w :
  world_ok w ->
  fst (predict_grade fit a m s h g e p c i w) <> Raise AssertionError /\
  let probs :=
    predict_proba (model_in_use fit w)
      [a; m; s / 40.0 * 100.0; h; g; e;
       float_of_Z p; float_of_Z c; float_of_Z i] in
  (probs <> [] ->
   (List.length probs <= List.length (classes_ (model_in_use fit w)))%nat ->
   exists grade prob_map,
     fst (predict_grade fit a m s h g e p c i w) = Ok (grade, prob_map) /\
     In grade (classes_ (model_in_use fit w))).
Proof.
  intros Hw; unfold predict_grade.
  rewrite (_ensure_model_sets fit w), (_ensure_model_classes w Hw).
  set (probs := predict_proba _ _).
  split.
  - destruct (np_argmax probs); [|discriminate].
    destruct (nth_error _ _); discriminate.
  - intros Hne Hlen.
    destruct probs as [|x r] eqn:E; [congruence|].
    assert (Hidx : forall l i0 best mp,
               (best < i0)%nat ->
               (argmax_from i0 best mp l < i0 + List.length l)%nat).
    { induction l as [|y l IH]; intros i0 best mp Hb; simpl; [lia|].
      destruct (negb (y <=? mp)).
      - destruct (is_nan y); [lia|].
        specialize (IH (S i0) i0 y); lia.
      - specialize (IH (S i0) best mp); lia. }
    unfold np_argmax.
    set (j := if is_nan x then 0%nat else argmax_from 1 0 x r).
    assert (Hj : (j < List.length (x :: r))%nat).
    { unfold j; destruct (is_nan x); simpl; [lia|].
      specialize (Hidx r 1%nat 0%nat x); lia. }
    destruct (nth_error (classes_ (model_in_use fit w)) j) as [label|] eqn:En.
    + eexists; eexists; split; [reflexivity|].
      apply nth_error_In with j; assumption.
    + apply nth_error_None in En; lia.
Qed.

End Artifact.

Lemma predict_grade_across_restart_fresh :
  let w := fresh_world None in
  let w2 : World :=
    {| _MODEL := None; _CLASSES := None;
       model_file := Some votes_BC; os_entropy := 11%Z |} in
  model_file w2 <> None /\
  fst (predict_grade fit_BC 90 85 30 15 90 5 2 1 1 w2) =
  fst (predict_grade fit_BC 90 85 30 15 90 5 2 1 1 w).
Proof.
  apply (predict_grade_across_restart fit_BC 90 85 30 15 90 5 2 1 1
           (fresh_world None)); reflexivity.
Defined.

Lemma predict_grade_assertion_holds_fresh :
  fst (predict_grade fit_BC 90 85 30 15 90 5 2 1 1 (fresh_world None))
    <> Raise AssertionError /\
  let probs :=
    predict_proba (model_in_use fit_BC (fresh_world None))
      [90; 85; 30 / 40.0 * 100.0; 15; 90; 5;
       float_of_Z 2; float_of_Z 1; float_of_Z 1] in
  (probs <> [] ->
   (List.length probs
    <= List.length (classes_ (model_in_use fit_BC (fresh_world None))))%nat ->
   exists grade prob_map,
     fst (predict_grade fit_BC 90 85 30 15 90 5 2 1 1 (fresh_world None))
       = Ok (grade, prob_map) /\
     In grade (classes_ (model_in_use fit_BC (fresh_world None)))).
Proof.
  apply (predict_grade_assertion_holds fit_BC 90 85 30 15 90 5 2 1 1
           (fresh_world None)).
  intros model H; discriminate H.
Defined.

(** ** The student dashboard *)

(** X6: for a stored record with no [NULL] metric the dashboard writes
    as many lines as [calculate_risk] has rules firing on the record's
    metrics, but one line when none fires and never more than five: its
    nine tests are those of the risk engine, and [tips[:5]] hides the
    rest.  With a [NULL] metric the comparison raises. *)
Theorem dashboard_tips_count r :
  match row_metrics r with
  | Some v =>
      exists lines,
        dashboard_tips r = Some lines /\
        List.length lines =
          Nat.min 5 (Nat.max 1 (List.length (fired v)))
  | None => dashboard_tips r = None
  end.
Proof.
  destruct r as [id sid jid a m s h g e p c i grade score level rec ca ua].
  unfold row_metrics, dashboard_tips, column_lt, fired, risk_rules.
  cbn [rec_attendance rec_marks rec_mst_marks rec_study_hours
       rec_assignments rec_extracurriculars rec_projects
       rec_certifications rec_internships].
  destruct a as [a|]; [|reflexivity].
  destruct m as [m|]; [|reflexivity].
  destruct s as [s|]; [|reflexivity].
  destruct h as [h|]; [|reflexivity].
  destruct g as [g|]; [|reflexivity].
  destruct e as [e|]; [|reflexivity].
  cbn [filter fires m_attendance m_marks m_mst_marks m_study_hours
       m_assignments m_extracurriculars m_projects m_certifications
       m_internships].
  generalize (a <? 75), (m <? 60), (s <? 16), (h <? 8), (g <? 60), (e <? 2),
    (p =? 0)%Z, (c =? 0)%Z, (i =? 0)%Z.
  intros f1 f2 f3 f4 f5 f6 f7 f8 f9.
  eexists; split; [reflexivity|].
  destruct f1, f2, f3, f4, f5, f6, f7, f8, f9; reflexivity.
Qed.

(** X7: the values the dashboard charts as grade probabilities are not a
    distribution, whatever grade is stored: their keys are the four
    labels but their sum stays below 1; for a stored C the bar of B is
    the longer one, and for a stored A the bars of A and B are equal. *)
Theorem dashboard_grade_probs_not_distribution predicted_grade :
  let pm := dashboard_grade_probs predicted_grade in
  dict_keys pm = four_labels /\
  (fsum (dict_values pm) <? 1) = true /\
  (predicted_grade = "C" ->
   (dict_get pm "C" 0 <? dict_get pm "B" 0) = true) /\
  (predicted_grade = "A" -> dict_get pm "A" 0 = dict_get pm "B" 0).
Proof.
  unfold dashboard_grade_probs.
  destruct (String.eqb_spec predicted_grade "B") as [->|HB];
    [repeat split; try discriminate; vm_compute; reflexivity|].
  destruct (String.eqb_spec predicted_grade "A") as [->|HA];
    [repeat split; try discriminate; vm_compute; reflexivity|].
  destruct (String.eqb_spec predicted_grade "C") as [->|HC];
    [repeat split; try discriminate; vm_compute; reflexivity|].
  destruct (String.eqb_spec predicted_grade "D") as [->|HD];
    repeat split; try congruence; vm_compute; reflexivity.
Qed.

(** ** Tables *)

Lemma fold_max_ge (ids : list Z) x :
  In x ids -> (x <= fold_right Z.max 0 ids)%Z.
Proof.
  induction ids as [|y ids IH]; simpl; [tauto|].
  intros [->|H]; [lia|]. specialize (IH H); lia.
Qed.

Lemma next_rowid_above {R} (id_of : R -> Z) t r :
  In r (rows t) -> (id_of r < next_rowid id_of t)%Z.
Proof.
  intros H; unfold next_rowid.
  pose proof (fold_max_ge (map id_of (rows t)) (id_of r) (in_map _ _ _ H)).
  lia.
Qed.

Lemma next_rowid_fresh {R} (id_of : R -> Z) (t : table R) :
  (1 <= next_rowid id_of t)%Z /\ (last_rowid t < next_rowid id_of t)%Z.
Proof.
  unfold next_rowid.
  assert (0 <= fold_right Z.max 0 (map id_of (rows t)))%Z; [|lia].
  induction (map id_of (rows t)); simpl; lia.
Qed.

Lemma find_none_existsb {A} (f : A -> bool) l :
  find f l = None <-> existsb f l = false.
Proof.
  induction l as [|x l IH]; simpl; [tauto|].
  destruct (f x); simpl; [split; discriminate|exact IH].
Qed.

Lemma find_snoc {A} (f : A -> bool) l x :
  find f (l ++ [x]) =
  match find f l with
  | Some y => Some y
  | None => if f x then Some x else None
  end.
Proof.
  induction l as [|y l IH]; simpl; [reflexivity|].
  destruct (f y); auto.
Qed.

Lemma find_unique {A} (f : A -> bool) (key : A -> string) l x k :
  NoDup (map key l) -> (forall y, f y = String.eqb (key y) k) ->
  In x l -> key x = k -> find f l = Some x.
Proof.
  intros Hnd Hf; induction l as [|y l IH]; simpl; [tauto|].
  inversion Hnd as [|? ? Hy Hnd']; subst.
  intros [->|Hin] Hk.
  - rewrite Hf, Hk, String.eqb_refl; reflexivity.
  - rewrite Hf. destruct (String.eqb_spec (key y) k) as [E|_]; [|auto].
    exfalso; apply Hy. rewrite E, <- Hk. apply in_map, Hin.
Qed.

(** ** Registration and login *)

Section AuthFacts.
Variable hashpw : string -> string -> string.
Variable checkpw : string -> string -> bool.

Lemma is_empty_false s : s <> "" -> is_empty s = false.
Proof. destruct s; [congruence|reflexivity]. Qed.

Lemma is_empty_true s : is_empty s = true <-> s = "".
Proof. destruct s; simpl; split; congruence. Qed.

Lemma add_teacher_fresh name email pw_hash now db :
  get_teacher_by_email email db = None ->
  exists id,
    (1 <= id)%Z /\
    add_teacher name email pw_hash now db =
    (id, {| teachers :=
              insert_row teacher_id
                {| teacher_id := id; teacher_name := name;
                   teacher_email := email; password_hash := pw_hash;
                   teacher_created_at := now |} (teachers db);
            subjects := subjects db; students := students db;
            student_records := student_records db |}).
Proof.
  unfold get_teacher_by_email, fetchone, add_teacher; intros H.
  apply find_none_existsb in H; rewrite H.
  eexists; split; [|reflexivity].
  apply next_rowid_fresh.
Qed.

(** X8: registering a teacher under an email not yet registered
    succeeds, and a login with the same email and password then succeeds
    and returns the teacher just stored, provided [bcrypt] accepts a
    password against its own hash; teachers registered before are found
    as before. *)
Theorem register_then_login name email password salt now db :
  (forall p s, checkpw p (hashpw p s) = true) ->
  name <> "" -> email <> "" -> password <> "" ->
  get_teacher_by_email email db = None ->
  let '(ok, msg, db') :=
    register_teacher hashpw name email password salt now db in
  ok = true /\ msg = "Teacher registered successfully." /\
  (exists t,
     login_teacher checkpw email password db' =
       (true, "Login successful.", Some t) /\
     teacher_name t = name /\ teacher_email t = email) /\
  (forall e, e <> email ->
     get_teacher_by_email e db' = get_teacher_by_email e db).
Proof.
  intros Hbcrypt Hn He Hp Hfree.
  unfold register_teacher.
  rewrite !is_empty_false by assumption; cbn [orb].
  rewrite Hfree.
  destruct (add_teacher_fresh name email (hash_password hashpw password salt)
              now db Hfree) as (id & Hid & ->).
  destruct (Z.eqb_spec id (-1)); [lia|].
  split; [reflexivity|]. split; [reflexivity|].
  unfold get_teacher_by_email, fetchone in *.
  cbn [teachers insert_row rows].
  split.
  - eexists; split.
    + unfold login_teacher, get_teacher_by_email, fetchone.
      cbn [teachers insert_row rows].
      rewrite find_snoc, Hfree; cbn [teacher_email].
      rewrite String.eqb_refl; cbn [password_hash].
      unfold verify_password, hash_password; rewrite Hbcrypt.
      reflexivity.
    + split; reflexivity.
  - intros e Hne; rewrite find_snoc; cbn [teacher_email].
    destruct (find (fun t => String.eqb (teacher_email t) e)
                (rows (teachers db))); [reflexivity|].
    destruct (String.eqb_spec email e); congruence.
Qed.

(** X9: [register_teacher] fails exactly when a field is empty or the
    email is already registered; a failed call leaves the database as it
    was; the message for a failed insert is never returned, the check
    before it having excluded the duplicate; and teacher emails stay
    distinct. *)
Theorem register_teacher_failure name email password salt now db :
  let '(ok, msg, db') :=
    register_teacher hashpw name email password salt now db in
  (ok = false <->
     name = "" \/ email = "" \/ password = "" \/
     get_teacher_by_email email db <> None) /\
  (ok = false -> db' = db) /\
  msg <> "Failed to register. Email may be taken." /\
  (emails_unique db -> emails_unique db').
Proof.
  unfold register_teacher.
  destruct (is_empty name) eqn:En.
  { apply is_empty_true in En; cbn [orb].
    repeat split; auto; discriminate. }
  destruct (is_empty email) eqn:Ee.
  { apply is_empty_true in Ee; cbn [orb].
    repeat split; auto; discriminate. }
  destruct (is_empty password) eqn:Ep.
  { apply is_empty_true in Ep; cbn [orb].
    repeat split; auto; discriminate. }
  cbn [orb].
  destruct (get_teacher_by_email email db) as [t|] eqn:Hget.
  { repeat split; auto; try discriminate.
    intros _; right; right; right; discriminate. }
  destruct (add_teacher_fresh name email (hash_password hashpw password salt)
              now db Hget) as (id & Hid & ->).
  destruct (Z.eqb_spec id (-1)); [lia|].
  split; [split; [discriminate|]|].
  { intros [H|[H|[H|H]]]; try (apply is_empty_true in H; congruence).
    congruence. }
  split; [discriminate|]. split; [discriminate|].
  unfold emails_unique; cbn [teachers insert_row rows].
  intros Hnd. rewrite map_app; cbn [map teacher_email].
  assert (Hnotin : ~ In email (map teacher_email (rows (teachers db)))).
  { intros Hin; apply in_map_iff in Hin; destruct Hin as (t & Ht & Hin).
    unfold get_teacher_by_email, fetchone in Hget.
    apply (find_none _ _ Hget) in Hin.
    rewrite Ht, String.eqb_refl in Hin; discriminate. }
  clear - Hnd Hnotin.
  induction (map teacher_email (rows (teachers db))) as [|x l IH]; simpl.
  - constructor; [tauto|constructor].
  - inversion Hnd; subst. constructor.
    + rewrite in_app_iff; simpl. intros [H|[H|[]]]; [tauto|].
      apply Hnotin; left; congruence.
    + apply IH; auto. intros H; apply Hnotin; right; assumption.
Qed.

(** X10: with distinct emails in the table, [login_teacher] succeeds
    exactly when some teacher has the email and [bcrypt] accepts the
    password against that teacher's stored hash, and then it returns
    that teacher; a call that fails returns no teacher. *)
Theorem login_teacher_iff email password db :
  emails_unique db ->
  let '(ok, msg, found) := login_teacher checkpw email password db in
  (forall t,
     In t (rows (teachers db)) -> teacher_email t = email ->
     checkpw password (password_hash t) = true ->
     ok = true /\ found = Some t) /\
  (ok = true ->
   exists t, found = Some t /\ In t (rows (teachers db)) /\
             teacher_email t = email /\
             checkpw password (password_hash t) = true) /\
  (ok = false -> found = None).
Proof.
  intros Hnd; unfold login_teacher, get_teacher_by_email, fetchone.
  assert (Huniq : forall t,
            In t (rows (teachers db)) -> teacher_email t = email ->
            find (fun t1 => String.eqb (teacher_email t1) email)
              (rows (teachers db)) = Some t).
  { intros t Hin He.
    apply (find_unique _ teacher_email _ _ email); auto. }
  destruct (find _ (rows (teachers db))) as [t0|] eqn:Hfind.
  - destruct (find_some _ _ Hfind) as [Hin He].
    apply String.eqb_eq in He.
    unfold verify_password.
    destruct (checkpw password (password_hash t0)) eqn:Hc.
    + split; [|split; [|discriminate]].
      * intros t Ht Hte _. specialize (Huniq t Ht Hte).
        split; congruence.
      * intros _; exists t0; auto.
    + split; [|split; [discriminate|reflexivity]].
      intros t Ht Hte Hct. specialize (Huniq t Ht Hte).
      congruence.
  - split; [|split; [discriminate|reflexivity]].
    intros t Ht Hte _. specialize (Huniq t Ht Hte). discriminate.
Qed.

End AuthFacts.

Lemma register_then_login_first_teacher :
  let '(ok, msg, db') :=
    register_teacher toy_hashpw "Ada" "ada@example.com" "secret" "salt"
      "2024-01-01 09:00:00" empty_db in
  ok = true /\ msg = "Teacher registered successfully." /\
  (exists t,
     login_teacher toy_checkpw "ada@example.com" "secret" db' =
       (true, "Login successful.", Some t) /\
     teacher_name t = "Ada" /\ teacher_email t = "ada@example.com") /\
  (forall e, e <> "ada@example.com" ->
     get_teacher_by_email e db' = get_teacher_by_email e empty_db).
Proof.
  apply (register_then_login toy_hashpw toy_checkpw "Ada" "ada@example.com"
           "secret" "salt" "2024-01-01 09:00:00" empty_db).
  - intros p s; apply String.eqb_refl.
  - discriminate.
  - discriminate.
  - discriminate.
  - reflexivity.
Defined.

Lemma login_teacher_iff_ada :
  let '(ok, msg, found) :=
    login_teacher toy_checkpw "ada@example.com" "secret" db_with_ada in
  (forall t,
     In t (rows (teachers db_with_ada)) ->
     teacher_email t = "ada@example.com" ->
     toy_checkpw "secret" (password_hash t) = true ->
     ok = true /\ found = Some t) /\
  (ok = true ->
   exists t, found = Some t /\ In t (rows (teachers db_with_ada)) /\
             teacher_email t = "ada@example.com" /\
             toy_checkpw "secret" (password_hash t) = true) /\
  (ok = false -> found = None).
Proof.
  apply (login_teacher_iff toy_checkpw "ada@example.com" "secret" db_with_ada).
  unfold emails_unique; simpl.
  constructor; [simpl; tauto|constructor].
Defined.

(** ** Students *)

Lemma find_by_id_none {R} (id_of : R -> Z) (t : table R) :
  find (fun r => (id_of r =? next_rowid id_of t)%Z) (rows t) = None.
Proof.
  apply find_none_existsb.
  destruct (existsb _ (rows t)) eqn:E; [|reflexivity].
  apply existsb_exists in E; destruct E as (r & Hin & Hr).
  apply Z.eqb_eq in Hr.
  pose proof (next_rowid_above id_of t r Hin); lia.
Qed.

Lemma NoDup_snoc {A} (l : list A) x :
  NoDup l -> ~ In x l -> NoDup (l ++ [x]).
Proof.
  intros Hnd Hx.
  apply (Permutation_NoDup (l := x :: l)).
  - apply Permutation_cons_append.
  - constructor; assumption.
Qed.

(** X11: [add_student] returns [-1] exactly when a student of the class
    already has the roll number, and then changes nothing; otherwise the
    id it returns was never used, the student can be read back under it,
    every other student is read as before, and no two students of a
    class come to share a roll number. *)
Theorem add_student_unique_roll class_id name roll now db :
  let '(id, db') := add_student class_id name roll now db in
  (id = (-1)%Z <->
     exists st, In st (rows (students db)) /\
                student_class_id st = class_id /\ roll_number st = roll) /\
  (id = (-1)%Z -> db' = db) /\
  (id <> (-1)%Z ->
     get_student id db = None /\
     (last_rowid (students db) < id)%Z /\
     get_student id db' =
       Some {| student_id := id; student_class_id := class_id;
               student_name := name; roll_number := roll;
               student_created_at := now |} /\
     (forall id', id' <> id -> get_student id' db' = get_student id' db) /\
     (rolls_unique db -> rolls_unique db')).
Proof.
  unfold add_student, roll_taken.
  destruct (existsb _ (rows (students db))) eqn:E.
  - split; [split; [intros _|reflexivity]|split; [reflexivity|congruence]].
    apply existsb_exists in E; destruct E as (st & Hin & Hst).
    rewrite andb_true_r in Hst; apply andb_prop in Hst.
    destruct Hst as [Hc Hr].
    apply Z.eqb_eq in Hc; apply String.eqb_eq in Hr; eauto.
  - assert (Hfree : forall st, In st (rows (students db)) ->
                      student_class_id st = class_id ->
                      roll_number st = roll -> False).
    { intros st Hin Hc Hr.
      assert (Ht : existsb (fun st0 =>
                     (student_class_id st0 =? class_id)%Z
                     && String.eqb (roll_number st0) roll && true)
                     (rows (students db)) = true).
      { apply existsb_exists; exists st; split; [assumption|].
        rewrite Hc, Hr, Z.eqb_refl, String.eqb_refl; reflexivity. }
      congruence. }
    destruct (next_rowid_fresh student_id (students db)) as [H1 Hlast].
    set (id := next_rowid student_id (students db)) in *.
    split; [split; [lia|]|split; [lia|intros _]].
    { intros (st & Hin & Hc & Hr); exfalso; eauto. }
    unfold get_student, fetchone; cbn [students insert_row rows].
    pose proof (find_by_id_none student_id (students db)) as Hnone.
    fold id in Hnone.
    split; [exact Hnone|]. split; [exact Hlast|]. split.
    { rewrite find_snoc, Hnone; cbn [student_id].
      rewrite Z.eqb_refl; reflexivity. }
    split.
    { intros id' Hne; rewrite find_snoc; cbn [student_id].
      destruct (find (fun st => (student_id st =? id')%Z)
                  (rows (students db))); [reflexivity|].
      destruct (Z.eqb_spec id id'); congruence. }
    unfold rolls_unique; cbn [students insert_row rows].
    intros Hnd; rewrite map_app; cbn [map].
    apply NoDup_snoc; [assumption|].
    cbn [student_class_id roll_number].
    intros Hin; apply in_map_iff in Hin.
    destruct Hin as (st & Hk & Hin); injection Hk as Hc Hr; eauto.
Qed.

Section SingleRow.
Context {R K : Type}.
Variable key : R -> K.
Variable cond : R -> bool.
Variable k : K.
Hypothesis cond_key : forall r, cond r = true <-> key r = k.

Lemma split_unique l x :
  NoDup (map key l) -> In x l -> cond x = true ->
  exists l1 l2, l = (l1 ++ x :: l2)%list /\
                Forall (fun r => cond r = false) (l1 ++ l2)%list.
Proof.
  intros Hnd Hin Hx.
  destruct (in_split _ _ Hin) as (l1 & l2 & ->).
  exists l1, l2; split; [reflexivity|].
  rewrite map_app in Hnd; cbn [map] in Hnd.
  apply NoDup_remove_2 in Hnd.
  apply Forall_forall; intros r Hr.
  destruct (cond r) eqn:E; [|reflexivity].
  exfalso; apply Hnd.
  apply cond_key in E, Hx. rewrite Hx, <- E, <- map_app.
  apply in_map, Hr.
Qed.

Lemma map_middle (set : R -> R) l1 l2 x :
  Forall (fun r => cond r = false) (l1 ++ l2)%list -> cond x = true ->
  map (fun r => if cond r then set r else r) (l1 ++ x :: l2)%list =
  (l1 ++ set x :: l2)%list.
Proof.
  intros Hall Hx.
  apply Forall_app in Hall; destruct Hall as [H1 H2].
  assert (Hid : forall l, Forall (fun r => cond r = false) l ->
                  map (fun r => if cond r then set r else r) l = l).
  { induction l as [|y l IH]; simpl; [reflexivity|].
    intros H; inversion H as [|? ? Hy Hl]; subst.
    rewrite Hy, IH; auto. }
  rewrite map_app; cbn [map]. rewrite Hx, !Hid; auto.
Qed.

Lemma filter_middle l1 l2 x :
  Forall (fun r => cond r = false) (l1 ++ l2)%list -> cond x = true ->
  filter cond (l1 ++ x :: l2)%list = [x].
Proof.
  intros Hall Hx.
  apply Forall_app in Hall; destruct Hall as [H1 H2].
  assert (Hnil : forall l, Forall (fun r => cond r = false) l ->
                   filter cond l = []).
  { induction l as [|y l IH]; simpl; [reflexivity|].
    intros H; inversion H as [|? ? Hy Hl]; subst.
    rewrite Hy; auto. }
  rewrite filter_app; cbn [filter]. rewrite Hx, !Hnil; auto.
Qed.

End SingleRow.

Lemma find_middle {R} (f : R -> bool) l1 l2 x :
  Forall (fun r => f r = false) l1 -> f x = true ->
  find f (l1 ++ x :: l2)%list = Some x.
Proof.
  induction l1 as [|y l1 IH]; simpl; intros H Hx; [rewrite Hx; reflexivity|].
  inversion H as [|? ? Hy Hl]; subst. rewrite Hy; auto.
Qed.

Lemma find_swap_middle {R} (f : R -> bool) l1 l2 x y :
  f x = false -> f y = false ->
  find f (l1 ++ y :: l2)%list = find f (l1 ++ x :: l2)%list.
Proof.
  intros Hx Hy; induction l1 as [|z l1 IH]; simpl.
  - rewrite Hx, Hy; reflexivity.
  - destruct (f z); auto.
Qed.

Lemma NoDup_map_eq {R K} (key : R -> K) l a b :
  NoDup (map key l) -> In a l -> In b l -> key a = key b -> a = b.
Proof.
  induction l as [|x l IH]; simpl; [tauto|].
  intros Hnd; inversion Hnd as [|? ? Hx Hl]; subst.
  intros [->|Ha] [->|Hb] E; auto.
  - exfalso; apply Hx; rewrite E; apply in_map, Hb.
  - exfalso; apply Hx; rewrite <- E; apply in_map, Ha.
Qed.

Lemma NoDup_middle {A} (l1 l2 : list A) x :
  NoDup (l1 ++ l2)%list -> ~ In x (l1 ++ l2)%list ->
  NoDup (l1 ++ x :: l2)%list.
Proof.
  intros Hnd Hx.
  apply (Permutation_NoDup (l := (x :: l1 ++ l2)%list)).
  - apply Permutation_middle.
  - constructor; assumption.
Qed.

Lemma table_eta {R} (t : table R) :
  {| rows := rows t; last_rowid := last_rowid t |} = t.
Proof. destruct t; reflexivity. Qed.

Lemma Db_eta (db : Db) :
  {| teachers := teachers db; subjects := subjects db;
     students := students db; student_records := student_records db |} = db.
Proof. destruct db; reflexivity. Qed.

Lemma map_no_hit {R} (cond : R -> bool) (set : R -> R) l :
  Forall (fun r => cond r = false) l ->
  map (fun r => if cond r then set r else r) l = l /\ filter cond l = [].
Proof.
  induction l as [|y l IH]; simpl; [auto|].
  intros H; inversion H as [|? ? Hy Hl]; subst.
  destruct (IH Hl) as [-> ->]; rewrite Hy; auto.
Qed.

(** X12: [update_student] returns [True] exactly when the student
    exists and no other student of the same class has the new roll
    number (its own current roll is no obstacle); then the student reads
    back with the new name and roll, and id, class and creation time
    unchanged.  When it returns [False] nothing has changed.  Roll
    numbers stay distinct within a class. *)
Theorem update_student_keeps_rolls id name roll db :
  ids_ok student_id (students db) -> rolls_unique db ->
  let '(ok, db') := update_student id name roll db in
  (ok = true <->
     exists st, get_student id db = Some st /\
                roll_taken (student_class_id st) roll (Some id) db = false) /\
  (ok = true ->
     exists st, get_student id db = Some st /\
       get_student id db' =
         Some {| student_id := student_id st;
                 student_class_id := student_class_id st;
                 student_name := name; roll_number := roll;
                 student_created_at := student_created_at st |}) /\
  (ok = false -> db' = db) /\
  rolls_unique db' /\ ids_ok student_id (students db').
Proof.
  intros [Hids Hlast] Hrolls.
  unfold update_student, get_student, fetchone.
  set (hit := fun st => (student_id st =? id)%Z).
  assert (Hhit : forall r, hit r = true <-> student_id r = id).
  { intros r; unfold hit; apply Z.eqb_eq. }
  destruct (existsb _ (rows (students db))) eqn:Ecol.
  { (* the statement would violate the constraint *)
    apply existsb_exists in Ecol; destruct Ecol as (x & Hin & Hx).
    apply andb_prop in Hx; destruct Hx as [Hx Htaken].
    destruct (split_unique student_id hit id Hhit _ x Hids Hin Hx)
      as (l1 & l2 & Hrows & Hnone).
    assert (Hfind : find hit (rows (students db)) = Some x).
    { rewrite Hrows; apply find_middle; [|assumption].
      apply Forall_app in Hnone; tauto. }
    rewrite Hfind.
    split; [split; [discriminate|]|].
    { intros (st & [= <-] & Hfree); congruence. }
    split; [discriminate|]. split; [reflexivity|].
    split; [assumption|split; assumption]. }
  destruct (find hit (rows (students db))) as [x|] eqn:Hfind.
  - destruct (find_some _ _ Hfind) as [Hin Hx].
    destruct (split_unique student_id hit id Hhit _ x Hids Hin Hx)
      as (l1 & l2 & Hrows & Hnone).
    assert (Hfree : roll_taken (student_class_id x) roll (Some id) db = false).
    { destruct (roll_taken _ _ _ _) eqn:E; [|reflexivity].
      apply not_true_iff_false in Ecol; exfalso; apply Ecol.
      apply existsb_exists; exists x; split; [assumption|].
      unfold hit in Hx; rewrite Hx, E; reflexivity. }
    set (upd := fun st : student_row =>
                  {| student_id := student_id st;
                     student_class_id := student_class_id st;
                     student_name := name; roll_number := roll;
                     student_created_at := student_created_at st |}).
    assert (Hupd : update_where hit upd (students db) =
                   (1%nat, {| rows := (l1 ++ upd x :: l2)%list;
                              last_rowid := last_rowid (students db) |})).
    { unfold update_where; rewrite Hrows.
      rewrite (filter_middle hit l1 l2 x Hnone Hx).
      rewrite (map_middle hit upd l1 l2 x Hnone Hx).
      reflexivity. }
    rewrite Hupd.
    cbn [List.length Nat.ltb Nat.leb students rows last_rowid].
    assert (H1 : Forall (fun r => hit r = false) l1)
      by (apply Forall_app in Hnone; tauto).
    split; [split; [intros _; exists x; auto|reflexivity]|].
    split.
    { intros _; exists x; split; [reflexivity|].
      apply find_middle; [assumption|exact Hx]. }
    split; [discriminate|].
    split.
    + unfold rolls_unique in *; cbn [students rows].
      rewrite Hrows, map_app in Hrolls; cbn [map] in Hrolls.
      rewrite map_app; cbn [map].
      apply NoDup_middle; [eapply NoDup_remove_1; eassumption|].
      rewrite <- map_app; intros Hin'.
      apply in_map_iff in Hin'; destruct Hin' as (r & Hk & Hr).
      injection Hk as Hc Hro.
      rewrite Forall_forall in Hnone; specialize (Hnone r Hr).
      unfold roll_taken in Hfree.
      apply not_true_iff_false in Hfree; apply Hfree.
      apply existsb_exists; exists r; split.
      * rewrite Hrows; apply in_app_iff in Hr; apply in_app_iff.
        simpl; tauto.
      * unfold hit in Hnone.
        rewrite Hc, Hro, Z.eqb_refl, String.eqb_refl, Hnone; reflexivity.
    + unfold ids_ok; cbn [rows last_rowid].
      rewrite Hrows in Hids, Hlast.
      rewrite map_app in *; cbn [map] in *.
      split; [exact Hids|].
      apply Forall_app in Hlast; destruct Hlast as [Ha Hb].
      inversion Hb; subst.
      apply Forall_app; split; [assumption|constructor; assumption].
  - assert (Hnone : Forall (fun r => hit r = false) (rows (students db))).
    { apply Forall_forall; intros r Hr. apply (find_none _ _ Hfind r Hr). }
    unfold update_where.
    destruct (map_no_hit hit
                (fun st => {| student_id := student_id st;
                              student_class_id := student_class_id st;
                              student_name := name; roll_number := roll;
                              student_created_at := student_created_at st |})
                _ Hnone) as [-> ->].
    cbn [List.length Nat.ltb Nat.leb].
    rewrite table_eta, Db_eta.
    split; [split; [discriminate|intros (st & H & _); discriminate]|].
    split; [discriminate|]. split; [reflexivity|].
    split; [assumption|split; assumption].
Qed.

(** The level as a function of the score, for a probability map. *)
Lemma risk_level_by_score v pm :
  prob_map_ok pm = true ->
  risk_level_of (calculate_risk_on v pm) =
    risk_level (risk_score (calculate_risk_on v pm)) /\
  (risk_level_of (calculate_risk_on v pm) = "High" <->
   (0.7 <=? risk_score (calculate_risk_on v pm)) = true).
Proof.
  intros Hpm.
  assert (Hl : risk_level_of (calculate_risk_on v pm) =
               risk_level (risk_score (calculate_risk_on v pm))).
  { rewrite calculate_risk_table; reflexivity. }
  split; [exact Hl|]. rewrite Hl.
  destruct (risk_level_cases (risk_score (calculate_risk_on v pm)))
    as (_ & _ & HH).
  apply HH, nonneg_notnan, (calculate_risk_score_range v pm Hpm).
Qed.

(** ** Student records *)

Section Records.
Variable sql_real : float -> option float.
Variables sid jid : Z.
Variables a m s h g e : float.
Variables p c i : Z.
Variable grade : string.
Variable score : float.
Variables level recommendation : string.
Variable now : Timestamp.

Local Notation "'pair_test'" := (of_pair sid jid).
Local Notation "'updated'" :=
  (overwritten sql_real a m s h g e p c i grade score level recommendation
     now).
Local Notation "'fresh_row'" :=
  (inserted sql_real sid jid a m s h g e p c i grade score level
     recommendation now).

Lemma of_pair_key r :
  pair_test r = true <-> (rec_student_id r, rec_subject_id r) = (sid, jid).
Proof.
  unfold of_pair; rewrite andb_true_iff, !Z.eqb_eq.
  split; [intros [-> ->]; reflexivity|intros [= -> ->]; auto].
Qed.

(** The two paths of [add_record], on a table that holds at most one
    record per pair. *)
Lemma add_record_cases db :
  pairs_unique db ->
  (exists old l1 l2,
     record_of_pair sid jid db = Some old /\
     rows (student_records db) = (l1 ++ old :: l2)%list /\
     Forall (fun r => pair_test r = false) (l1 ++ l2)%list /\
     pair_test old = true /\
     add_record sql_real sid jid a m s h g e p c i grade score level
       recommendation now db =
     (record_id old,
      {| teachers := teachers db; subjects := subjects db;
         students := students db;
         student_records :=
           {| rows := (l1 ++ updated old :: l2)%list;
              last_rowid := last_rowid (student_records db) |} |})) \/
  (record_of_pair sid jid db = None /\
   Forall (fun r => pair_test r = false) (rows (student_records db)) /\
   add_record sql_real sid jid a m s h g e p c i grade score level
     recommendation now db =
   (next_rowid record_id (student_records db),
    {| teachers := teachers db; subjects := subjects db;
       students := students db;
       student_records :=
         insert_row record_id
           (fresh_row (next_rowid record_id (student_records db)))
           (student_records db) |})).
Proof.
  intros Hpairs.
  unfold record_of_pair, add_record, fetchone.
  destruct (find pair_test (rows (student_records db))) as [old|] eqn:Hfind.
  - left.
    destruct (find_some _ _ Hfind) as [Hin Hold].
    destruct (split_unique _ pair_test (sid, jid) of_pair_key _ old
                Hpairs Hin Hold) as (l1 & l2 & Hrows & Hnone).
    exists old, l1, l2; repeat split; auto.
    unfold update_where; cbn [snd].
    rewrite Hrows.
    rewrite (map_middle pair_test updated l1 l2 old Hnone Hold).
    reflexivity.
  - right; repeat split; auto.
    apply Forall_forall; intros r Hr; apply (find_none _ _ Hfind r Hr).
Qed.

(** X13: [add_record] keeps the table at one record per student and
    subject, with no constraint of the schema behind it: when the pair
    has a record, the call returns that record's id and the number of
    records is unchanged; when it has none, the call returns an id never
    used before and there is one record more.  The other tables are not
    touched. *)
Theorem add_record_one_per_pair db :
  ids_ok record_id (student_records db) -> pairs_unique db ->
  let '(id, db') :=
    add_record sql_real sid jid a m s h g e p c i grade score level
      recommendation now db in
  ids_ok record_id (student_records db') /\ pairs_unique db' /\
  match record_of_pair sid jid db with
  | Some old =>
      id = record_id old /\
      List.length (rows (student_records db')) =
      List.length (rows (student_records db))
  | None =>
      (last_rowid (student_records db) < id)%Z /\
      get_record id db = None /\
      List.length (rows (student_records db')) =
      S (List.length (rows (student_records db)))
  end /\
  teachers db' = teachers db /\ subjects db' = subjects db /\
  students db' = students db.
Proof.
  intros [Hids Hlast] Hpairs.
  destruct (add_record_cases db Hpairs)
    as [(old & l1 & l2 & Hrec & Hrows & Hnone & Hold & ->)
       |(Hrec & Hnone & ->)];
    rewrite Hrec; cbn [student_records teachers subjects students].
  - repeat split; auto.
    + unfold ids_ok; cbn [rows last_rowid].
      rewrite Hrows in Hids; rewrite map_app in *; exact Hids.
    + cbn [rows last_rowid]. rewrite Hrows in Hlast.
      apply Forall_app in Hlast; destruct Hlast as [Ha Hb].
      inversion Hb; subst.
      apply Forall_app; split; [assumption|constructor; assumption].
    + unfold pairs_unique in *; cbn [student_records rows].
      rewrite Hrows in Hpairs; rewrite map_app in *; exact Hpairs.
    + cbn [rows]. rewrite Hrows, !length_app; reflexivity.
  - destruct (next_rowid_fresh record_id (student_records db)) as [H1 H2].
    pose proof (find_by_id_none record_id (student_records db)) as Hnone'.
    set (id := next_rowid record_id (student_records db)) in *.
    repeat split; auto.
    + cbn [insert_row rows]. rewrite map_app; cbn [map record_id inserted].
      apply NoDup_snoc; [assumption|].
      intros Hin; apply in_map_iff in Hin; destruct Hin as (r & Hr & Hin).
      pose proof (next_rowid_above record_id _ r Hin). fold id in H. lia.
    + cbn [insert_row rows last_rowid inserted record_id].
      apply Forall_app; split.
      * apply Forall_forall; intros r Hr.
        pose proof (next_rowid_above record_id _ r Hr). fold id in H. lia.
      * constructor; [cbn; lia|constructor].
    + unfold pairs_unique in *; cbn [student_records insert_row rows].
      rewrite map_app; cbn [map].
      apply NoDup_snoc; [assumption|].
      intros Hin; apply in_map_iff in Hin; destruct Hin as (r & Hr & Hin).
      rewrite Forall_forall in Hnone; specialize (Hnone r Hin).
      cbn [inserted rec_student_id rec_subject_id] in Hr.
      apply of_pair_key in Hr; congruence.
    + cbn [insert_row rows]; rewrite length_app; simpl; lia.
Qed.

(** X14: after [add_record] the record reads back, under the id
    returned and under its pair, with the values submitted (each float
    as the [REAL] column keeps it), the update time set to the time of
    the call and the creation time kept from an earlier submission of
    the pair when there was one; every record under another id reads as
    before. *)
Theorem add_record_read_back db :
  ids_ok record_id (student_records db) -> pairs_unique db ->
  let '(id, db') :=
    add_record sql_real sid jid a m s h g e p c i grade score level
      recommendation now db in
  (exists row,
     get_record id db' = Some row /\
     record_of_pair sid jid db' = Some row /\
     record_id row = id /\
     rec_student_id row = sid /\ rec_subject_id row = jid /\
     rec_attendance row = sql_real a /\ rec_marks row = sql_real m /\
     rec_mst_marks row = sql_real s /\ rec_study_hours row = sql_real h /\
     rec_assignments row = sql_real g /\
     rec_extracurriculars row = sql_real e /\
     rec_projects row = p /\ rec_certifications row = c /\
     rec_internships row = i /\
     rec_predicted_grade row = grade /\
     rec_risk_score row = sql_real score /\
     rec_risk_level row = level /\
     rec_recommendation row = recommendation /\
     rec_updated_at row = now /\
     rec_created_at row =
       match record_of_pair sid jid db with
       | Some old => rec_created_at old
       | None => now
       end) /\
  (forall id', id' <> id -> get_record id' db' = get_record id' db).
Proof.
  intros [Hids Hlast] Hpairs.
  destruct (add_record_cases db Hpairs)
    as [(old & l1 & l2 & Hrec & Hrows & Hnone & Hold & ->)
       |(Hrec & Hnone & ->)];
    rewrite Hrec; unfold get_record, record_of_pair, fetchone;
    cbn [student_records rows insert_row].
  - apply of_pair_key in Hold; injection Hold as Hs Hj.
    assert (H1 : Forall (fun r => pair_test r = false) l1)
      by (apply Forall_app in Hnone; tauto).
    assert (Hid1 : Forall (fun r => (record_id r =? record_id old)%Z = false) l1).
    { apply Forall_forall; intros r Hr.
      destruct (Z.eqb_spec (record_id r) (record_id old)) as [E|]; auto.
      exfalso. rewrite Hrows, map_app in Hids; cbn [map] in Hids.
      apply NoDup_remove_2 in Hids; apply Hids.
      rewrite <- E, in_app_iff; left; apply in_map, Hr. }
    split.
    + exists (updated old).
      split; [apply find_middle; [assumption|cbn; apply Z.eqb_refl]|].
      split.
      { apply (find_middle (fun r => (rec_student_id r =? sid)%Z
                                     && (rec_subject_id r =? jid)%Z));
          [exact H1|].
        cbn [overwritten rec_student_id rec_subject_id].
        rewrite Hs, Hj, !Z.eqb_refl; reflexivity. }
      cbn [overwritten record_id rec_student_id rec_subject_id rec_attendance
           rec_marks rec_mst_marks rec_study_hours rec_assignments
           rec_extracurriculars rec_projects rec_certifications
           rec_internships rec_predicted_grade rec_risk_score rec_risk_level
           rec_recommendation rec_updated_at rec_created_at].
      repeat split; auto.
    + intros id' Hne. rewrite Hrows.
      apply find_swap_middle; cbn [overwritten record_id];
        destruct (Z.eqb_spec (record_id old) id'); congruence.
  - pose proof (find_by_id_none record_id (student_records db)) as Hnone'.
    set (id := next_rowid record_id (student_records db)) in *.
    split.
    + exists (fresh_row id).
      split.
      { rewrite find_snoc, Hnone'; cbn [inserted record_id].
        rewrite Z.eqb_refl; reflexivity. }
      split.
      { rewrite find_snoc.
        unfold record_of_pair, fetchone in Hrec; rewrite Hrec.
        unfold of_pair; cbn [inserted rec_student_id rec_subject_id].
        rewrite !Z.eqb_refl; reflexivity. }
      cbn [inserted record_id rec_student_id rec_subject_id rec_attendance
           rec_marks rec_mst_marks rec_study_hours rec_assignments
           rec_extracurriculars rec_projects rec_certifications
           rec_internships rec_predicted_grade rec_risk_score rec_risk_level
           rec_recommendation rec_updated_at rec_created_at].
      repeat split; auto.
    + intros id' Hne; rewrite find_snoc; cbn [inserted record_id].
      destruct (find (fun r => (record_id r =? id')%Z)
                  (rows (student_records db))); [reflexivity|].
      destruct (Z.eqb_spec id id'); congruence.
Qed.

Lemma find_filter_none {R} (f : R -> bool) l :
  find f (filter (fun r => negb (f r)) l) = None.
Proof.
  induction l as [|x l IH]; simpl; [reflexivity|].
  destruct (f x) eqn:E; simpl; [assumption|]. rewrite E; assumption.
Qed.

Lemma find_filter_other {R} (f keep : R -> bool) l :
  (forall r, f r = true -> keep r = true) ->
  find f (filter keep l) = find f l.
Proof.
  intros Hfg; induction l as [|x l IH]; simpl; [reflexivity|].
  destruct (keep x) eqn:Eg; simpl.
  - destruct (f x); auto.
  - destruct (f x) eqn:Ef; [rewrite (Hfg x Ef) in Eg; discriminate|auto].
Qed.

Lemma NoDup_map_filter {R K} (key : R -> K) (keep : R -> bool) l :
  NoDup (map key l) -> NoDup (map key (filter keep l)).
Proof.
  induction l as [|x l IH]; simpl; [auto|].
  intros H; inversion H as [|? ? Hx Hl]; subst.
  destruct (keep x); simpl; auto.
  constructor; auto.
  intros Hin; apply Hx.
  apply in_map_iff in Hin; destruct Hin as (r & Hr & Hin).
  apply filter_In in Hin; rewrite <- Hr; apply in_map; tauto.
Qed.

(** X15: [delete_record] returns [True] exactly when the id had a
    record; afterwards the id reads as absent and every other id as
    before; and the id of a deleted record is never given out again,
    whatever is submitted to [add_record] next. *)
Theorem delete_record_id_not_reused id db :
  ids_ok record_id (student_records db) ->
  let '(ok, db1) := delete_record id db in
  (ok = true <-> get_record id db <> None) /\
  get_record id db1 = None /\
  (forall id', id' <> id -> get_record id' db1 = get_record id' db) /\
  ids_ok record_id (student_records db1) /\
  (pairs_unique db -> pairs_unique db1) /\
  (ok = true ->
   fst (add_record sql_real sid jid a m s h g e p c i grade score level
          recommendation now db1) <> id).
Proof.
  intros [Hids Hlast].
  unfold delete_record, delete_where, get_record, fetchone.
  cbn [student_records rows].
  set (hit := fun r => (record_id r =? id)%Z).
  assert (Hok : (0 <? List.length (filter hit (rows (student_records db))))%nat
                = true <-> find hit (rows (student_records db)) <> None).
  { rewrite Nat.ltb_lt. split.
    - intros Hlen Hnone.
      destruct (filter hit (rows (student_records db))) as [|x l] eqn:E;
        [simpl in Hlen; lia|].
      assert (Hin : In x (filter hit (rows (student_records db))))
        by (rewrite E; left; reflexivity).
      apply filter_In in Hin; destruct Hin as [Hin Hx].
      apply (find_none _ _ Hnone) in Hin; congruence.
    - destruct (find hit (rows (student_records db))) as [x|] eqn:E;
        [intros _|congruence].
      destruct (find_some _ _ E) as [Hin Hx].
      assert (Hin' : In x (filter hit (rows (student_records db))))
        by (apply filter_In; auto).
      destruct (filter hit (rows (student_records db)));
        [contradiction|simpl; lia]. }
  split; [exact Hok|].
  split; [apply find_filter_none|].
  split.
  { intros id' Hne; apply find_filter_other.
    intros r Hr; apply Z.eqb_eq in Hr; unfold hit.
    destruct (Z.eqb_spec (record_id r) id); [congruence|reflexivity]. }
  split.
  { split; cbn [rows last_rowid].
    - apply NoDup_map_filter, Hids.
    - apply Forall_forall; intros r Hr.
      apply filter_In in Hr; destruct Hr as [Hr _].
      rewrite Forall_forall in Hlast; auto. }
  split.
  { unfold pairs_unique; cbn [student_records rows].
    apply NoDup_map_filter. }
  intros Hdel; apply Hok in Hdel.
  destruct (find hit (rows (student_records db))) as [x|] eqn:E;
    [clear Hdel|congruence].
  destruct (find_some _ _ E) as [Hin Hx]; apply Z.eqb_eq in Hx.
  rewrite Forall_forall in Hlast; specialize (Hlast x Hin).
  unfold add_record, fetchone; cbn [student_records rows].
  destruct (find pair_test _) as [old|] eqn:Hfind; cbn [fst].
  - destruct (find_some _ _ Hfind) as [Hold _].
    apply filter_In in Hold; destruct Hold as [_ Hold].
    unfold hit in Hold.
    destruct (Z.eqb_spec (record_id old) id); [discriminate|assumption].
  - match goal with |- next_rowid record_id ?t <> _ =>
      destruct (next_rowid_fresh record_id t) as [_ Hfresh] end.
    cbn [last_rowid] in Hfresh. lia.
Qed.

(** What [add_record] leaves under the id it returns. *)
Lemma add_record_scored db :
  ids_ok record_id (student_records db) -> pairs_unique db ->
  let '(id, db') :=
    add_record sql_real sid jid a m s h g e p c i grade score level
      recommendation now db in
  students db' = students db /\ subjects db' = subjects db /\
  (exists row, In row (rows (student_records db')) /\
               record_id row = id /\ rec_student_id row = sid /\
               rec_subject_id row = jid) /\
  (forall r, In r (rows (student_records db')) -> record_id r = id ->
             rec_risk_score r = sql_real score).
Proof.
  intros [Hids Hlast] Hpairs.
  destruct (add_record_cases db Hpairs)
    as [(old & l1 & l2 & Hrec & Hrows & Hnone & Hold & ->)
       |(Hrec & Hnone & ->)];
    cbn [student_records students subjects rows insert_row].
  - apply of_pair_key in Hold; injection Hold as Hs Hj.
    split; [reflexivity|]. split; [reflexivity|]. split.
    + exists (updated old); repeat split; auto.
      apply in_app_iff; right; left; reflexivity.
    + intros r Hr Hid.
      rewrite Hrows, map_app in Hids; cbn [map] in Hids.
      apply NoDup_remove_2 in Hids.
      apply in_app_iff in Hr; destruct Hr as [Hr|[<-|Hr]];
        [exfalso|reflexivity|exfalso];
        apply Hids; rewrite <- Hid, in_app_iff;
        [left|right]; apply in_map, Hr.
  - split; [reflexivity|]. split; [reflexivity|]. split.
    + exists (fresh_row (next_rowid record_id (student_records db))).
      repeat split; auto.
      apply in_app_iff; right; left; reflexivity.
    + intros r Hr Hid.
      apply in_app_iff in Hr; destruct Hr as [Hr|[<-|[]]]; [|reflexivity].
      pose proof (next_rowid_above record_id _ r Hr); lia.
Qed.

End Records.

(** ** The at-risk listing *)

Lemma In_insert_by_score x y l :
  In x (insert_by_score y l) <-> x = y \/ In x l.
Proof.
  induction l as [|z l IH]; simpl; [intuition congruence|].
  destruct (score_above _ _); simpl; [intuition congruence|].
  rewrite IH; intuition congruence.
Qed.

Lemma In_order_by_score_desc x l :
  In x (order_by_score_desc l) <-> In x l.
Proof.
  unfold order_by_score_desc.
  assert (H : forall acc,
            In x (fold_left (fun acc y => insert_by_score y acc) l acc) <->
            In x l \/ In x acc).
  { induction l as [|y l IH]; intros acc; simpl; [tauto|].
    rewrite IH, In_insert_by_score; intuition congruence. }
  rewrite H; simpl; tauto.
Qed.

Lemma In_distinct_from x seen l : In x (distinct_from seen l) -> In x l.
Proof.
  revert seen; induction l as [|y l IH]; intros seen; simpl; [tauto|].
  destruct (existsb _ seen); simpl; [eauto|].
  intros [->|H]; eauto.
Qed.

Lemma joined_same_id x y :
  joined_same x y = true ->
  record_id (fst (fst x)) = record_id (fst (fst y)).
Proof.
  destruct x as [[r st] su], y as [[r' st'] su']; unfold joined_same.
  rewrite !andb_true_iff; intros H.
  repeat match goal with H : _ /\ _ |- _ => destruct H end.
  apply Z.eqb_eq; assumption.
Qed.

Lemma distinct_from_covers x seen l :
  In x l ->
  (exists y, In y seen /\ joined_same x y = true) \/
  (exists y, In y (distinct_from seen l) /\
             record_id (fst (fst y)) = record_id (fst (fst x))).
Proof.
  intros Hin; revert seen; induction l as [|z l IH]; intros seen;
    [contradiction|].
  simpl; destruct Hin as [->|Hin].
  - destruct (existsb (joined_same x) seen) eqn:E.
    + left. apply existsb_exists in E; destruct E as (y & Hy & Hs); eauto.
    + right; exists x; simpl; auto.
  - destruct (existsb (joined_same z) seen) eqn:E.
    + apply (IH Hin).
    + destruct (IH Hin (z :: seen)) as [(y & [<-|Hy] & Hs)|(y & Hy & Hid)].
      * right; exists z; simpl; split; [auto|].
        symmetry; apply joined_same_id, Hs.
      * left; eauto.
      * right; exists y; simpl; auto.
Qed.

Lemma at_risk_member class_id db row :
  In row (get_at_risk_students class_id db) ->
  exists sr st su x,
    In sr (rows (student_records db)) /\ In st (rows (students db)) /\
    In su (rows (subjects db)) /\
    rec_student_id sr = student_id st /\ rec_subject_id sr = subject_id su /\
    student_class_id st = class_id /\
    rec_risk_score sr = Some x /\ (0.7 <=? x) = true /\
    row = (sr, student_name st, subject_name su).
Proof.
  unfold get_at_risk_students.
  rewrite In_order_by_score_desc; intros H.
  apply In_distinct_from in H.
  apply in_map_iff in H; destruct H as ([[sr st] su] & <- & H).
  apply filter_In in H; destruct H as [H Hsel].
  apply in_flat_map in H; destruct H as (sr' & Hsr & H).
  apply in_flat_map in H; destruct H as (st' & Hst & H).
  destruct (Z.eqb_spec (rec_student_id sr') (student_id st'));
    [|contradiction].
  apply in_flat_map in H; destruct H as (su' & Hsu & H).
  destruct (Z.eqb_spec (rec_subject_id sr') (subject_id su'));
    [|contradiction].
  destruct H as [[= -> -> ->]|[]].
  apply andb_prop in Hsel; destruct Hsel as [Hc Hs].
  apply Z.eqb_eq in Hc.
  destruct (rec_risk_score sr) as [x|] eqn:E; [|discriminate].
  exists sr, st, su, x; repeat split; auto.
Qed.

Lemma at_risk_listed class_id db sr st su x :
  In sr (rows (student_records db)) -> In st (rows (students db)) ->
  In su (rows (subjects db)) ->
  rec_student_id sr = student_id st -> rec_subject_id sr = subject_id su ->
  student_class_id st = class_id ->
  rec_risk_score sr = Some x -> (0.7 <=? x) = true ->
  exists row, In row (get_at_risk_students class_id db) /\
              record_id (fst (fst row)) = record_id sr.
Proof.
  intros Hsr Hst Hsu Hs Hj Hc Hx Hge.
  unfold get_at_risk_students.
  match goal with
  | |- exists row, In row (order_by_score_desc (distinct ?l)) /\ _ =>
      set (projected := l)
  end.
  assert (Hin : In (sr, student_name st, subject_name su) projected).
  { unfold projected.
    apply in_map_iff; exists (sr, st, su); split; [reflexivity|].
    apply filter_In; split.
    - apply in_flat_map; exists sr; split; [assumption|].
      apply in_flat_map; exists st; split; [assumption|].
      rewrite Hs, Z.eqb_refl.
      apply in_flat_map; exists su; split; [assumption|].
      rewrite Hj, Z.eqb_refl; left; reflexivity.
    - rewrite Hc, Z.eqb_refl, Hx, Hge; reflexivity. }
  destruct (distinct_from_covers _ [] projected Hin)
    as [(y & [] & _)|(y & Hy & Hid)].
  exists y; split; [|exact Hid].
  apply In_order_by_score_desc; exact Hy.
Qed.

(** X16: when the result of [calculate_risk] for a student of a class
    is saved by [add_record], the record appears in
    [get_at_risk_students] for the class exactly when the level saved
    with it is High: the [>= 0.7] of the query and the thresholds of the
    risk engine agree on every score the engine can return. *)
Theorem at_risk_iff_high sql_real class_id st su v pm grade recommendation
  now db :
  ids_ok record_id (student_records db) -> pairs_unique db ->
  In st (rows (students db)) -> student_class_id st = class_id ->
  In su (rows (subjects db)) ->
  prob_map_ok pm = true ->
  sql_real (risk_score (calculate_risk_on v pm)) =
    Some (risk_score (calculate_risk_on v pm)) ->
  let r := calculate_risk_on v pm in
  let saved :=
    add_record sql_real (student_id st) (subject_id su)
      (m_attendance v) (m_marks v) (m_mst_marks v) (m_study_hours v)
      (m_assignments v) (m_extracurriculars v)
      (m_projects v) (m_certifications v) (m_internships v)
      grade (risk_score r) (risk_level_of r) recommendation now db in
  (exists row, In row (get_at_risk_students class_id (snd saved)) /\
               record_id (fst (fst row)) = fst saved) <->
  risk_level_of r = "High".
Proof.
  intros Hids Hpairs Hst Hclass Hsu Hpm Hreal r saved.
  pose proof (add_record_scored sql_real (student_id st) (subject_id su)
                (m_attendance v) (m_marks v) (m_mst_marks v)
                (m_study_hours v) (m_assignments v) (m_extracurriculars v)
                (m_projects v) (m_certifications v) (m_internships v)
                grade (risk_score r) (risk_level_of r) recommendation now
                db Hids Hpairs) as Hsaved.
  fold saved in Hsaved.
  destruct saved as [id db']; cbn [fst snd].
  destruct Hsaved as (Hstud & Hsubj & (row0 & Hrow0 & Hid0 & Hs0 & Hj0) & Hscore).
  fold r in Hreal.
  destruct (risk_level_by_score v pm Hpm) as [Hlevel Hhigh]; fold r in Hlevel, Hhigh.
  split.
  - intros (row & Hrow & Hid).
    destruct (at_risk_member _ _ _ Hrow)
      as (sr & st' & su' & x & Hsr & _ & _ & _ & _ & _ & Hx & Hge & ->).
    cbn [fst] in Hid.
    rewrite (Hscore sr Hsr Hid), Hreal in Hx; injection Hx as <-.
    apply Hhigh; exact Hge.
  - intros Hl. apply Hhigh in Hl.
    destruct (at_risk_listed class_id db' row0 st su (risk_score r))
      as (row & Hrow & Hid); auto; try congruence.
    + rewrite (Hscore row0 Hrow0 Hid0); exact Hreal.
    + exists row; split; [assumption|congruence].
Qed.


(** ** The record on the student dashboard *)

Lemma string_leb_trans (a b c : string) :
  (a <=? b)%string = true -> (b <=? c)%string = true ->
  (a <=? c)%string = true.
Proof.
  unfold String.leb; intros Hab Hbc.
  destruct (a ?= b)%string eqn:Eab; [|clear Hab|discriminate].
  - apply String.compare_eq_iff in Eab; subst; exact Hbc.
  - destruct (b ?= c)%string eqn:Ebc; [|clear Hbc|discriminate].
    + apply String.compare_eq_iff in Ebc; subst; rewrite Eab; reflexivity.
    + apply OrderedTypeEx.String_as_OT.cmp_lt in Eab, Ebc.
      pose proof (OrderedTypeEx.String_as_OT.lt_trans _ _ _ Eab Ebc) as H.
      apply OrderedTypeEx.String_as_OT.cmp_lt in H.
      unfold OrderedTypeEx.String_as_OT.cmp in H; rewrite H; reflexivity.
Qed.

Lemma created_after_false (a b : Timestamp) :
  created_after a b = false -> (a <=? b)%string = true.
Proof.
  unfold created_after, String.ltb, String.leb.
  rewrite (String.compare_antisym a b).
  destruct (b ?= a)%string; simpl; congruence.
Qed.

Lemma created_after_true (a b : Timestamp) :
  created_after a b = true -> (b <=? a)%string = true.
Proof.
  unfold created_after, String.ltb, String.leb.
  destruct (b ?= a)%string; congruence.
Qed.

Lemma In_insert_by_created x y l :
  In x (insert_by_created y l) <-> x = y \/ In x l.
Proof.
  induction l as [|z l IH]; simpl; [intuition congruence|].
  destruct (created_after _ _); simpl; [intuition congruence|].
  rewrite IH; intuition congruence.
Qed.

Lemma insert_by_created_sorted x l :
  newest_first l -> newest_first (insert_by_created x l).
Proof.
  unfold newest_first.
  induction l as [|y l IH]; intros Hs; simpl.
  - repeat constructor.
  - inversion Hs as [|? ? Hl Hy]; subst.
    destruct (created_after _ _) eqn:E.
    + constructor; [exact Hs|].
      constructor; [exact (created_after_true _ _ E)|].
      rewrite Forall_forall in Hy |- *; intros z Hz.
      exact (string_leb_trans _ _ _ (Hy z Hz) (created_after_true _ _ E)).
    + constructor; [exact (IH Hl)|].
      rewrite Forall_forall in Hy |- *; intros z Hz.
      apply In_insert_by_created in Hz; destruct Hz as [->|Hz]; auto.
      exact (created_after_false _ _ E).
Qed.

Lemma order_by_created_desc_spec l :
  newest_first (order_by_created_desc l) /\
  forall x, In x (order_by_created_desc l) <-> In x l.
Proof.
  unfold order_by_created_desc.
  assert (H : forall acc, newest_first acc ->
            newest_first (fold_left (fun acc x => insert_by_created x acc) l acc) /\
            forall x,
              In x (fold_left (fun acc x => insert_by_created x acc) l acc) <->
              In x l \/ In x acc).
  { induction l as [|y l IH]; intros acc Hacc; simpl; [intuition|].
    destruct (IH _ (insert_by_created_sorted y acc Hacc)) as [Hs Hin].
    split; [exact Hs|]; intros x; rewrite Hin, In_insert_by_created.
    intuition congruence. }
  destruct (H [] (SSorted_nil _)) as [Hs Hin].
  split; [exact Hs|]; intros x; rewrite Hin; simpl; tauto.
Qed.

Lemma last_cons {A} (y : A) rest d : last (y :: rest) d = last rest y.
Proof.
  revert y d; induction rest as [|z rest IH]; intros y d; [reflexivity|].
  change (last (y :: z :: rest) d) with (last (z :: rest) d).
  rewrite !IH; reflexivity.
Qed.

Lemma last_of_newest_first first rest :
  newest_first (first :: rest) ->
  In (last rest first) (first :: rest) /\
  forall x, In x (first :: rest) ->
    (rec_created_at (fst (last rest first)) <=? rec_created_at (fst x))%string
    = true.
Proof.
  revert first; induction rest as [|y rest IH]; intros first Hs.
  - simpl; split; [auto|]; intros x [<-|[]].
    unfold String.leb.
    destruct (_ ?= _)%string eqn:E; try reflexivity.
    pose proof (String.compare_antisym (rec_created_at (fst first))
                  (rec_created_at (fst first))) as H.
    rewrite E in H; discriminate H.
  - inversion Hs as [|? ? Hl Hy]; subst.
    destruct (IH y Hl) as [Hin Hmin].
    rewrite last_cons; split; [right; exact Hin|].
    intros x [<-|Hx]; [|auto].
    rewrite Forall_forall in Hy.
    exact (Hy _ Hin).
Qed.

Lemma get_student_records_member id db row :
  In row (get_student_records id db) <->
  exists sr su,
    In sr (rows (student_records db)) /\ In su (rows (subjects db)) /\
    rec_student_id sr = id /\ rec_subject_id sr = subject_id su /\
    row = (sr, subject_name su).
Proof.
  unfold get_student_records.
  rewrite (proj2 (order_by_created_desc_spec _)), in_map_iff; split.
  - intros ([sr su] & <- & H).
    apply filter_In in H; destruct H as [H Hid].
    apply in_flat_map in H; destruct H as (sr' & Hsr & H).
    apply in_flat_map in H; destruct H as (su' & Hsu & H).
    destruct (Z.eqb_spec (rec_subject_id sr') (subject_id su'));
      [|contradiction].
    destruct H as [[= -> ->]|[]].
    apply Z.eqb_eq in Hid.
    exists sr, su; auto.
  - intros (sr & su & Hsr & Hsu & Hid & Hj & ->).
    exists (sr, su); split; [reflexivity|].
    apply filter_In; split; [|apply Z.eqb_eq; exact Hid].
    apply in_flat_map; exists sr; split; [exact Hsr|].
    apply in_flat_map; exists su; split; [exact Hsu|].
    rewrite (proj2 (Z.eqb_eq _ _) Hj); left; reflexivity.
Qed.

(** X17: the record the student dashboard calls the latest one is the
    last row of a list that [get_student_records] orders newest first:
    it is a record of the student created no later than any other, the
    oldest one.  The dashboard reports that there is no record exactly
    when no record of the student names a subject that exists. *)
Theorem latest_record_is_oldest student_id db :
  match latest_record student_id db with
  | Some shown =>
      In shown (get_student_records student_id db) /\
      rec_student_id (fst shown) = student_id /\
      forall row, In row (get_student_records student_id db) ->
        (rec_created_at (fst shown) <=? rec_created_at (fst row))%string
        = true
  | None =>
      forall sr su,
        In sr (rows (student_records db)) -> In su (rows (subjects db)) ->
        rec_student_id sr = student_id ->
        rec_subject_id sr <> subject_id su
  end.
Proof.
  unfold latest_record.
  pose proof (proj1 (order_by_created_desc_spec
    (map (fun x : record_row * subject_row => (fst x, subject_name (snd x)))
       (filter (fun x : record_row * subject_row =>
                  (rec_student_id (fst x) =? student_id)%Z)
          (flat_map (fun sr =>
             flat_map (fun su =>
               if (rec_subject_id sr =? subject_id su)%Z
               then [(sr, su)] else [])
               (rows (subjects db)))
             (rows (student_records db))))))) as Hs.
  fold (get_student_records student_id db) in Hs.
  pose proof (get_student_records_member student_id db) as Hmem.
  destruct (get_student_records student_id db) as [|first rest].
  - intros sr su Hsr Hsu Hid Hj.
    apply (proj2 (Hmem (sr, subject_name su))).
    exists sr, su; auto.
  - destruct (last_of_newest_first first rest Hs) as [Hin Hmin].
    split; [exact Hin|]; split; [|exact Hmin].
    apply Hmem in Hin; destruct Hin as (sr & su & _ & _ & Hid & _ & ->).
    exact Hid.
Qed.

(** Two records created a month apart: the dashboard shows the one of
    January, not the one of February. *)
Example latest_record_two_subjects :
  let db :=
    snd (add_record sqlite_real 2 2 50 40 5 2 30 0 0 0 0 "D" 1.0 "High"
           "Improve attendance" "2024-02-01 10:00:00"
           {| teachers := teachers classroom_db;
              subjects :=
                insert_row subject_id
                  {| subject_id := 2; subject_class_id := 1;
                     subject_name := "Physics";
                     subject_created_at := "2024-01-20 09:00:00" |}
                  (subjects classroom_db);
              students := students classroom_db;
              student_records := student_records classroom_db |}) in
  option_map (fun x : subject_record =>
                (rec_created_at (fst x), rec_predicted_grade (fst x), snd x))
    (latest_record 2 db)
  = Some ("2024-01-03 10:00:00", "B", "Mathematics") /\
  map (fun x : subject_record => snd x) (get_student_records 2 db)
  = ["Physics"; "Mathematics"].
Proof. split; vm_compute; reflexivity. Qed.

(** ** Deleting a student *)

Lemma rowcount_positive {R} (hit : R -> bool) l :
  (0 <? List.length (filter hit l))%nat = true <-> find hit l <> None.
Proof.
  rewrite Nat.ltb_lt; induction l as [|x l IH]; simpl.
  - split; [lia|congruence].
  - destruct (hit x); simpl; [split; [discriminate|lia]|exact IH].
Qed.

(** X18: [delete_student] returns [True] exactly when the student
    existed; afterwards the student is gone and every other student
    reads as before.  The student's records are not deleted with it, the
    cascade of the schema not being in force: [get_student_records]
    returns them as before, while [get_at_risk_students] lists none of
    them any more.  A student added later gets a larger id, so that the
    records left behind are never taken for another student's. *)
Theorem delete_student_keeps_records id db :
  ids_ok student_id (students db) ->
  let '(ok, db') := delete_student id db in
  (ok = true <-> get_student id db <> None) /\
  get_student id db' = None /\
  (forall id', id' <> id -> get_student id' db' = get_student id' db) /\
  student_records db' = student_records db /\
  get_student_records id db' = get_student_records id db /\
  (forall class_id row,
     In row (get_at_risk_students class_id db') ->
     rec_student_id (fst (fst row)) <> id) /\
  (ok = true ->
   forall class_id name roll now,
     let id' := fst (add_student class_id name roll now db') in
     id' = (-1)%Z \/ (id < id')%Z).
Proof.
  intros [Hids Hlast].
  unfold delete_student, delete_where, get_student, fetchone.
  cbn [students rows student_records].
  set (hit := fun st => (student_id st =? id)%Z).
  split; [apply rowcount_positive|].
  split; [apply find_filter_none|].
  split.
  { intros id' Hne; apply find_filter_other.
    intros r Hr; apply Z.eqb_eq in Hr; unfold hit.
    destruct (Z.eqb_spec (student_id r) id); [congruence|reflexivity]. }
  split; [reflexivity|].
  split; [reflexivity|].
  split.
  { intros class_id row Hrow.
    apply at_risk_member in Hrow.
    destruct Hrow as (sr & st & su & x & _ & Hst & _ & Hs & _ & _ & _ & _ & ->).
    cbn [students rows fst] in Hst |- *.
    apply filter_In in Hst; destruct Hst as [_ Hst]; unfold hit in Hst.
    rewrite Hs.
    destruct (Z.eqb_spec (student_id st) id); [discriminate|assumption]. }
  intros Hdel; apply rowcount_positive in Hdel.
  destruct (find hit (rows (students db))) as [x|] eqn:E; [clear Hdel|congruence].
  destruct (find_some _ _ E) as [Hin Hx]; apply Z.eqb_eq in Hx.
  rewrite Forall_forall in Hlast; specialize (Hlast x Hin).
  intros class_id name roll now; unfold add_student.
  destruct (roll_taken _ _ _ _); cbn [fst students]; [left; reflexivity|right].
  match goal with |- (_ < next_rowid student_id ?t)%Z =>
    destruct (next_rowid_fresh student_id t) as [_ Hfresh] end.
  cbn [last_rowid] in Hfresh; lia.
Qed.

(** ** The labels of the training set *)

Lemma mask_assign_map {A} (f : A -> option string) (g : A -> bool) l v :
  mask_assign (map f l) (map g l) v =
  map (fun x => if g x then Some v else f x) l.
Proof.
  unfold mask_assign; induction l as [|x l IH]; simpl; [reflexivity|].
  f_equal; exact IH.
Qed.

Lemma repeat_map {A B} (b : B) (l : list A) :
  repeat b (List.length l) = map (fun _ => b) l.
Proof. induction l; simpl; congruence. Qed.

Lemma Forall2_map_same {A B} (P : A -> B -> Prop) (f : A -> B) l :
  (forall x, In x l -> P x (f x)) -> Forall2 P l (map f l).
Proof.
  induction l as [|x l IH]; intros H; simpl; constructor.
  - apply H; left; reflexivity.
  - apply IH; intros y Hy; apply H; right; exact Hy.
Qed.

Lemma leb_ltb_apart c d s :
  (c <? d) = false -> (c <=? s) = true -> (s <? d) = false.
Proof.
  intros Hcd Hcs; destruct (s <? d) eqn:E; [|reflexivity].
  rewrite (leb_ltb_trans c s d Hcs E) in Hcd; discriminate Hcd.
Qed.

Lemma nan_ltb_l s c : (s =? s) = false -> (s <? c) = false.
Proof.
  intros H; destruct (s <? c) eqn:E; [|reflexivity].
  rewrite (ltb_notnan_l _ _ E) in H; discriminate H.
Qed.

Lemma nan_leb_r s c : (s =? s) = false -> (c <=? s) = false.
Proof.
  intros H; destruct (c <=? s) eqn:E; [|reflexivity].
  rewrite (leb_notnan_r _ _ E) in H; discriminate H.
Qed.

Lemma clip1_within lo hi x :
  (hi <? lo) = false -> (lo <? lo) = false -> (hi <? hi) = false ->
  (clip1 lo hi x <? lo) = false /\ (hi <? clip1 lo hi x) = false.
Proof.
  intros Hhl Hl Hh; unfold clip1.
  destruct (x <? lo) eqn:E1.
  - rewrite Hhl; auto.
  - destruct (hi <? x) eqn:E2; auto.
Qed.

Lemma column_stack_cons9 x0 x1 x2 x3 x4 x5 x6 x7 x8
  (c0 c1 c2 c3 c4 c5 c6 c7 c8 : list float) :
  column_stack [x0 :: c0; x1 :: c1; x2 :: c2; x3 :: c3; x4 :: c4;
                x5 :: c5; x6 :: c6; x7 :: c7; x8 :: c8] =
  [x0; x1; x2; x3; x4; x5; x6; x7; x8]
    :: column_stack [c0; c1; c2; c3; c4; c5; c6; c7; c8].
Proof. reflexivity. Qed.

(** The vectorised score of the generator, row by row. *)
Lemma rowwise_score n :
  forall a m t h g e p c i z : list float,
    List.length a = n -> List.length m = n -> List.length t = n ->
    List.length h = n -> List.length g = n -> List.length e = n ->
    List.length p = n -> List.length c = n -> List.length i = n ->
    List.length z = n ->
    np_clip
      (vadd
         (vadd (vadd (vadd (vadd (vadd (vadd (vadd (vadd
            (vscale m 0.30)
            (vscale a 0.15))
            (vscale t 0.25))
            (vscale (vscale (vdiv h 40.0) 100.0) 0.10))
            (vscale (vscale (vdiv g 100.0) 100.0) 0.05))
            (vscale (vscale (vdiv e 10.0) 100.0) 0.05))
            (vscale (vscale (vdiv p 5.0) 100.0) 0.05))
            (vscale (vscale (vdiv c 4.0) 100.0) 0.03))
            (vscale (vscale (vdiv i 2.0) 100.0) 0.02))
         z) 0 100 =
    map (fun drawn : list float * float =>
           clip1 0 100 (row_score (fst drawn) + snd drawn))
        (combine (column_stack [a; m; t; h; g; e; p; c; i]) z).
Proof.
  induction n as [|n IH]; intros a m t h g e p c i z Ha Hm Ht Hh Hg He Hp Hc Hi Hz.
  - destruct a, m, t, h, g, e, p, c, i, z; try discriminate; reflexivity.
  - destruct a as [|a0 a], m as [|m0 m], t as [|t0 t], h as [|h0 h],
      g as [|g0 g], e as [|e0 e], p as [|p0 p], c as [|c0 c],
      i as [|i0 i], z as [|z0 z]; try discriminate.
    rewrite column_stack_cons9.
    specialize (IH a m t h g e p c i z).
    unfold np_clip, vadd, vscale, vdiv in IH |- *.
    cbn [map combine fst snd List.length] in *.
    f_equal.
    apply IH; congruence.
Qed.

(** X19: the labels of the training set follow from its rows.  With the
    noise the generator draws for them, each row is labelled by the band
    of [row_score] plus noise clipped to [0, 100]: A from 85, B from 70
    below 85, C from 55 below 70, D below 55.  The four masked
    assignments overlap nowhere, and a row stays unlabelled ([None], as
    [np.empty] left it) exactly when its score is a NaN. *)
Theorem generated_labels_by_band (rng : NumpyRandom) (n : nat) (seed : Z)
  (os : Entropy) :
  draws_sized rng ->
  exists g : Generator,
    let noise := fst (normal 0 5 n g) in
    List.length noise = n /\
    Forall2
      (fun (drawn : list float * float) label =>
         let s := clip1 0 100 (row_score (fst drawn) + snd drawn) in
         label = label_of_score s /\
         ((s <? 0) = false /\ (100 <? s) = false) /\
         (label = Some "A" <-> (85 <=? s) = true) /\
         (label = Some "B" <-> (70 <=? s) = true /\ (s <? 85) = true) /\
         (label = Some "C" <-> (55 <=? s) = true /\ (s <? 70) = true) /\
         (label = Some "D" <-> (s <? 55) = true) /\
         (label = None <-> (s =? s) = false))
      (combine (fst (_generate_synthetic_dataset n seed os)) noise)
      (snd (_generate_synthetic_dataset n seed os)).
Proof.
  intros (Hu & Hi & Hn).
  unfold _generate_synthetic_dataset, default_rng.
  repeat match goal with
    | |- context [uniform ?lo ?hi n ?g] =>
        let H := fresh "L" in
        pose proof (Hu lo hi n g) as H;
        destruct (uniform lo hi n g); cbn [fst] in H
    | |- context [integers ?lo ?hi n ?g] =>
        let H := fresh "L" in
        pose proof (Hi lo hi n g) as H;
        destruct (integers lo hi n g); cbn [fst] in H
    end.
  match goal with
  | |- context [let '(_, _) := normal 0 5 n ?g in _] =>
      exists g; pose proof (Hn 0 5 n g) as Lz;
      destruct (normal 0 5 n g) as [z g']; cbn [fst] in Lz
  end.
  cbn [fst snd]; split; [exact Lz|].
  rewrite (rowwise_score n) by (autorewrite with lengths; assumption).
  match goal with
  | |- context [map ?F (combine ?X z)] =>
      set (score := map F (combine X z))
  end.
  assert (Hlen : List.length score = n).
  { unfold score; rewrite length_map, length_combine, Lz.
    match goal with
    | |- Nat.min (List.length (column_stack ?cols)) n = n =>
        destruct (column_stack_shape n cols) as [Hx _]; [discriminate| |]
    end.
    - repeat constructor; autorewrite with lengths; assumption.
    - rewrite Hx; apply Nat.min_id. }
  rewrite <- Hlen at 1.
  rewrite (repeat_map (@None string)), !mask_assign_map.
  unfold score; rewrite map_map.
  apply Forall2_map_same; intros drawn _; cbv beta zeta.
  set (s := clip1 0 100 (row_score (fst drawn) + snd drawn)).
  split; [reflexivity|].
  split; [apply clip1_within; reflexivity|].
  clearbody s; clear.
  pose proof (leb_ltb_apart 85 55 s eq_refl) as H61.
  pose proof (leb_ltb_apart 85 70 s eq_refl) as H63.
  pose proof (leb_ltb_apart 85 85 s eq_refl) as H65.
  pose proof (leb_ltb_apart 70 55 s eq_refl) as H41.
  pose proof (leb_ltb_apart 70 70 s eq_refl) as H43.
  pose proof (leb_ltb_apart 55 55 s eq_refl) as H21.
  assert (Hnum : (s =? s) = true ->
                 (s <? 55) = negb (55 <=? s) /\ (s <? 70) = negb (70 <=? s) /\
                 (s <? 85) = negb (85 <=? s)).
  { intros N; repeat split; apply ltb_negb_leb; auto. }
  pose proof (nan_ltb_l s 55) as N1.
  pose proof (nan_ltb_l s 70) as N3.
  pose proof (nan_ltb_l s 85) as N5.
  pose proof (nan_leb_r s 55) as N2.
  pose proof (nan_leb_r s 70) as N4.
  pose proof (nan_leb_r s 85) as N6.
  destruct (s =? s);
    [destruct (Hnum eq_refl) as (E1 & E3 & E5); clear Hnum N1 N2 N3 N4 N5 N6;
     rewrite E1, E3, E5 in *; clear E1 E3 E5
    |rewrite (N1 eq_refl), (N2 eq_refl), (N3 eq_refl), (N4 eq_refl),
       (N5 eq_refl), (N6 eq_refl);
     repeat split; intros; try discriminate; intuition discriminate];
  destruct (55 <=? s), (70 <=? s), (85 <=? s); simpl in *;
    try (specialize (H61 eq_refl)); try (specialize (H63 eq_refl));
    try (specialize (H41 eq_refl)); try discriminate;
    repeat split; intros; try discriminate; try reflexivity;
    intuition discriminate.
Qed.

(** The row of the scenario-1 vector scores 72.25 before the noise, in
    the band of B. *)
Example row_score_scenario1 :
  row_score [90; 85; 30 / 40.0 * 100.0; 15; 90; 5;
             float_of_Z 2; float_of_Z 1; float_of_Z 1] = 72.25 /\
  label_of_score 72.25 = Some "B".
Proof. split; vm_compute; reflexivity. Qed.

(** ** Concrete runs on the classroom database *)

Ltac table_facts :=
  unfold ids_ok, pairs_unique, rolls_unique, emails_unique; simpl;
  repeat (constructor || split); simpl;
  try lia; try (intuition (discriminate || congruence || lia)).

Lemma update_student_keeps_rolls_classroom :
  let '(ok, db') := update_student 2 "Benjamin" "103" classroom_db in
  (ok = true <->
     exists st, get_student 2 classroom_db = Some st /\
                roll_taken (student_class_id st) "103" (Some 2%Z) classroom_db
                = false) /\
  (ok = true ->
     exists st, get_student 2 classroom_db = Some st /\
       get_student 2 db' =
         Some {| student_id := student_id st;
                 student_class_id := student_class_id st;
                 student_name := "Benjamin"; roll_number := "103";
                 student_created_at := student_created_at st |}) /\
  (ok = false -> db' = classroom_db) /\
  rolls_unique db' /\ ids_ok student_id (students db').
Proof.
  apply (update_student_keeps_rolls 2 "Benjamin" "103" classroom_db);
    table_facts.
Defined.

Lemma add_record_one_per_pair_classroom :
  let '(id, db') :=
    add_record sqlite_real 2 1 50 40 5 2 30 0 0 0 0 "D" 1.0 "High"
      "Improve attendance" "2024-02-01 10:00:00" classroom_db in
  ids_ok record_id (student_records db') /\ pairs_unique db' /\
  match record_of_pair 2 1 classroom_db with
  | Some old =>
      id = record_id old /\
      List.length (rows (student_records db')) =
      List.length (rows (student_records classroom_db))
  | None =>
      (last_rowid (student_records classroom_db) < id)%Z /\
      get_record id classroom_db = None /\
      List.length (rows (student_records db')) =
      S (List.length (rows (student_records classroom_db)))
  end /\
  teachers db' = teachers classroom_db /\
  subjects db' = subjects classroom_db /\
  students db' = students classroom_db.
Proof.
  apply (add_record_one_per_pair sqlite_real 2 1 50 40 5 2 30 0 0 0 0 "D"
           1.0 "High" "Improve attendance" "2024-02-01 10:00:00"
           classroom_db); table_facts.
Defined.

Lemma add_record_read_back_classroom :
  let '(id, db') :=
    add_record sqlite_real 1 1 50 40 5 2 30 0 0 0 0 "D" 1.0 "High"
      "Improve attendance" "2024-02-01 10:00:00" classroom_db in
  (exists row,
     get_record id db' = Some row /\
     record_of_pair 1 1 db' = Some row /\
     record_id row = id /\
     rec_student_id row = 1%Z /\ rec_subject_id row = 1%Z /\
     rec_attendance row = sqlite_real 50 /\ rec_marks row = sqlite_real 40 /\
     rec_mst_marks row = sqlite_real 5 /\
     rec_study_hours row = sqlite_real 2 /\
     rec_assignments row = sqlite_real 30 /\
     rec_extracurriculars row = sqlite_real 0 /\
     rec_projects row = 0%Z /\ rec_certifications row = 0%Z /\
     rec_internships row = 0%Z /\
     rec_predicted_grade row = "D" /\
     rec_risk_score row = sqlite_real 1.0 /\
     rec_risk_level row = "High" /\
     rec_recommendation row = "Improve attendance" /\
     rec_updated_at row = "2024-02-01 10:00:00" /\
     rec_created_at row =
       match record_of_pair 1 1 classroom_db with
       | Some old => rec_created_at old
       | None => "2024-02-01 10:00:00"
       end) /\
  (forall id', id' <> id -> get_record id' db' = get_record id' classroom_db).
Proof.
  apply (add_record_read_back sqlite_real 1 1 50 40 5 2 30 0 0 0 0 "D"
           1.0 "High" "Improve attendance" "2024-02-01 10:00:00"
           classroom_db); table_facts.
Defined.

Lemma delete_record_id_not_reused_classroom :
  let '(ok, db1) := delete_record 1 classroom_db in
  (ok = true <-> get_record 1 classroom_db <> None) /\
  get_record 1 db1 = None /\
  (forall id', id' <> 1%Z -> get_record id' db1 = get_record id' classroom_db) /\
  ids_ok record_id (student_records db1) /\
  (pairs_unique classroom_db -> pairs_unique db1) /\
  (ok = true ->
   fst (add_record sqlite_real 2 1 50 40 5 2 30 0 0 0 0 "D" 1.0 "High"
          "Improve attendance" "2024-02-01 10:00:00" db1) <> 1%Z).
Proof.
  apply (delete_record_id_not_reused sqlite_real 2 1 50 40 5 2 30 0 0 0 0
           "D" 1.0 "High" "Improve attendance" "2024-02-01 10:00:00"
           1 classroom_db); table_facts.
Defined.

Lemma at_risk_iff_high_classroom :
  let r := calculate_risk_on scenario2 None in
  let saved :=
    add_record sqlite_real (student_id asha) (subject_id mathematics)
      (m_attendance scenario2) (m_marks scenario2) (m_mst_marks scenario2)
      (m_study_hours scenario2) (m_assignments scenario2)
      (m_extracurriculars scenario2) (m_projects scenario2)
      (m_certifications scenario2) (m_internships scenario2)
      "D" (risk_score r) (risk_level_of r) "Improve attendance"
      "2024-02-01 10:00:00" classroom_db in
  (exists row, In row (get_at_risk_students 1 (snd saved)) /\
               record_id (fst (fst row)) = fst saved) <->
  risk_level_of r = "High".
Proof.
  apply (at_risk_iff_high sqlite_real 1 asha mathematics scenario2 None "D"
           "Improve attendance" "2024-02-01 10:00:00" classroom_db);
    try reflexivity; try table_facts.
Defined.

Lemma delete_student_keeps_records_classroom :
  let '(ok, db') := delete_student 2 classroom_db in
  (ok = true <-> get_student 2 classroom_db <> None) /\
  get_student 2 db' = None /\
  (forall id', id' <> 2%Z -> get_student id' db' = get_student id' classroom_db) /\
  student_records db' = student_records classroom_db /\
  get_student_records 2 db' = get_student_records 2 classroom_db /\
  (forall class_id row,
     In row (get_at_risk_students class_id db') ->
     rec_student_id (fst (fst row)) <> 2%Z) /\
  (ok = true ->
   forall class_id name roll now,
     let id' := fst (add_student class_id name roll now db') in
     id' = (-1)%Z \/ (2 < id')%Z).
Proof.
  apply (delete_student_keeps_records 2 classroom_db); table_facts.
Defined.

Lemma generated_labels_by_band_lcg :
  exists g : Z,
    let noise := fst (@normal lcg_random 0 5 20 g) in
    List.length noise = 20%nat /\
    Forall2
      (fun (drawn : list float * float) label =>
         let s := clip1 0 100 (row_score (fst drawn) + snd drawn) in
         label = label_of_score s /\
         ((s <? 0) = false /\ (100 <? s) = false) /\
         (label = Some "A" <-> (85 <=? s) = true) /\
         (label = Some "B" <-> (70 <=? s) = true /\ (s <? 85) = true) /\
         (label = Some "C" <-> (55 <=? s) = true /\ (s <? 70) = true) /\
         (label = Some "D" <-> (s <? 55) = true) /\
         (label = None <-> (s =? s) = false))
      (combine (fst (@_generate_synthetic_dataset lcg_random 20 42 1%Z)) noise)
      (snd (@_generate_synthetic_dataset lcg_random 20 42 1%Z)).
Proof.
  apply (generated_labels_by_band lcg_random 20 42 1%Z).
  exact lcg_draws_sized.
Defined.
